(** * darbot-seek: the Foundry Local integration scaffolding

    A shallow embedding of the Python code that drives and checks the
    Foundry Local integration (command running, message normalisation,
    the JSON request artifact, the CPU-forcing environment overlay),
    together with models of the two components whose code lives outside
    these files (the version sanitizer and the invocation supervisor). *)

From Stdlib Require Import ZArith NArith List Bool Ascii String Lia.
From Stdlib Require Import Floats.
From stdpp Require Import base option list gmap strings pretty.
Import ListNotations.

Local Open Scope string_scope.
Local Open Scope list_scope.

(** ** The Python runtime: exceptions, results, state *)

Module Py.

(** A command as [subprocess.run] takes it: an argument vector or a single
    string. *)
Inductive command :=
| CmdList (argv : list string)
| CmdStr (line : string).

(** [isinstance(cmd, str)] *)
Definition is_str (cmd : command) : bool :=
  match cmd with CmdStr _ => true | CmdList _ => false end.

(** Exceptions below [Exception].  [subprocess.TimeoutExpired] keeps the
    command and the timeout; of every other exception only its class name
    and [str(e)] matter to the code. *)
Inductive exception :=
| TimeoutExpired (cmd : command) (timeout : nat)
| Error (cls : string) (message : string).

Definition FileNotFoundError (message : string) : exception :=
  Error "FileNotFoundError" message.

(** The result of evaluating a Python expression or block. *)
Inductive outcome (A : Type) :=
| Returns (a : A)
| Raises (e : exception).
Arguments Returns {A} a.
Arguments Raises {A} e.

(** An environment block: variable name to value. *)
Abbreviation env_map := (gmap string string).

(** The state a function of these scripts can touch: dictionaries that hold
    environments (by reference, so that aliasing is visible;
    [os.environ] is the object at [environ_loc]), the files on disk, the
    wall clock in seconds, and the child processes still running. *)
Record state := State {
  dicts : gmap nat env_map;
  next_loc : nat;
  files : gmap string string;
  clock : nat;
  children : gset nat;
  next_pid : nat
}.

Definition environ_loc : nat := 0.

(** [os.environ] as a value. *)
Definition environ (s : state) : env_map := default ∅ (dicts s !! environ_loc).

Definition set_dicts (d : gmap nat env_map) (s : state) : state :=
  State d (next_loc s) (files s) (clock s) (children s) (next_pid s).
Definition set_next_loc (n : nat) (s : state) : state :=
  State (dicts s) n (files s) (clock s) (children s) (next_pid s).
Definition set_files (f : gmap string string) (s : state) : state :=
  State (dicts s) (next_loc s) f (clock s) (children s) (next_pid s).
Definition set_clock (c : nat) (s : state) : state :=
  State (dicts s) (next_loc s) (files s) c (children s) (next_pid s).
Definition set_children (c : gset nat) (s : state) : state :=
  State (dicts s) (next_loc s) (files s) (clock s) c (next_pid s).
Definition set_next_pid (n : nat) (s : state) : state :=
  State (dicts s) (next_loc s) (files s) (clock s) (children s) n.

(** Computations: state passing, with exceptions. *)
Definition M (A : Type) : Type := state -> outcome A * state.

Definition ret {A} (a : A) : M A := fun s => (Returns a, s).
Definition raise {A} (e : exception) : M A := fun s => (Raises e, s).
Definition bind {A B} (m : M A) (k : A -> M B) : M B :=
  fun s => match m s with
           | (Returns a, s') => k a s'
           | (Raises e, s') => (Raises e, s')
           end.

(** [try: body finally: fin] *)
Definition try_finally {A} (body : M A) (fin : M unit) : M A :=
  fun s => match body s with
           | (r, s') =>
             match fin s' with
             | (Returns _, s'') => (r, s'')
             | (Raises e, s'') => (Raises e, s'')
             end
           end.

(** [try: body except Exception as e: handler(e)] *)
Definition try_except {A} (body : M A) (handler : exception -> M A) : M A :=
  fun s => match body s with
           | (Returns a, s') => (Returns a, s')
           | (Raises e, s') => handler e s'
           end.

(** [for x in xs: body(x)] *)
Fixpoint for_each {A} (xs : list A) (body : A -> M unit) : M unit :=
  match xs with
  | [] => ret tt
  | x :: xs' => bind (body x) (fun _ => for_each xs' body)
  end.

(** [acc = init; for x in xs: acc = body(acc, x)] *)
Fixpoint fold_each {A B} (xs : list A) (body : B -> A -> M B) (acc : B) : M B :=
  match xs with
  | [] => ret acc
  | x :: xs' => bind (body acc x) (fun acc' => fold_each xs' body acc')
  end.

(** *** Dictionaries of strings, by reference *)

(** The contents of the dictionary at [l]. *)
Definition contents (l : nat) (s : state) : env_map := default ∅ (dicts s !! l).

Definition store (l : nat) (m : env_map) (s : state) : state :=
  set_dicts (<[l := m]> (dicts s)) s.

(** [os.environ.copy()]: a new dictionary object with the same items. *)
Definition environ_copy : M nat :=
  fun s =>
    let l := S (next_loc s) in
    (Returns l, set_next_loc l (store l (environ s) s)).

(** [d.update({k1: v1, ...})], the items in the order of the literal. *)
Definition dict_update (l : nat) (items : list (string * string)) : M unit :=
  fun s =>
    (Returns tt,
     store l (foldl (fun m kv => <[kv.1 := kv.2]> m) (contents l s) items) s).

(** [d.get(k)] *)
Definition dict_get (l : nat) (k : string) : M (option string) :=
  fun s => (Returns (contents l s !! k), s).

(** [os.environ.get(k)] *)
Definition environ_get (k : string) : M (option string) :=
  dict_get environ_loc k.

(** [os.environ.pop(k, None)] *)
Definition environ_pop (k : string) : M unit :=
  fun s => (Returns tt, store environ_loc (delete k (environ s)) s).

(** [os.environ[k] = v] *)
Definition environ_setitem (k v : string) : M unit :=
  fun s => (Returns tt, store environ_loc (<[k := v]> (environ s)) s).

(** [d[k] = v] on a local dictionary kept as its items in insertion order:
    an existing key keeps its place. *)
Fixpoint assoc_set {V} (k : string) (v : V) (d : list (string * V)) : list (string * V) :=
  match d with
  | [] => [(k, v)]
  | (k', v') :: d' =>
    if String.eqb k' k then (k', v) :: d' else (k', v') :: assoc_set k v d'
  end.

(** *** Files *)

(** [with open(path, 'w') as f: f.write(text)] *)
Definition write_file (path text : string) : M unit :=
  fun s => (Returns tt, set_files (<[path := text]> (files s)) s).

(** [with open(path, 'r') as f: f.read()] *)
Definition read_file (path : string) : M string :=
  fun s =>
    match files s !! path with
    | Some text => (Returns text, s)
    | None => (Raises (FileNotFoundError path), s)
    end.

(** [path.unlink()] *)
Definition unlink (path : string) : M unit :=
  fun s =>
    match files s !! path with
    | Some _ => (Returns tt, set_files (delete path (files s)) s)
    | None => (Raises (FileNotFoundError path), s)
    end.

(** An expression that may raise, as a computation. *)
Definition lift {A} (r : outcome A) : M A := fun s => (r, s).

(** A state whose [os.environ] holds [ambient]: no other dictionary, no file,
    no child. *)
Definition init_state (ambient : env_map) : state :=
  State {[environ_loc := ambient]} environ_loc ∅ 0 ∅ 1.

End Py.

Import Py.

Notation "x <- m ;; k" := (bind m (fun x => k))
  (at level 100, m at next level, right associativity).
Notation "m ;;; k" := (bind m (fun _ => k))
  (at level 100, right associativity).

(** ** Child processes and [subprocess.run] *)

Module Subprocess.

(** What a launched program does when left alone: it exits by itself after
    [duration] seconds ([None]: it never does), with an exit status and its
    captured output. *)
Record process := Process {
  duration : option nat;
  exit_status : Z;
  out_text : string;
  err_text : string
}.

(** What the operating system does with a launch request. *)
Inductive spawn :=
| Spawned (p : process)
| SpawnFails (e : exception).

(** The machine the scripts run on: command, [shell] flag and environment
    block decide what a launch does. *)
Definition os_model : Type := command -> bool -> env_map -> spawn.

(** [subprocess.CompletedProcess] with [capture_output=True, text=True]. *)
Record completed_process := CompletedProcess {
  returncode : Z;
  stdout : string;
  stderr : string
}.

(** The environment block a child gets: the dictionary passed as [env], read
    when the child is launched, or the caller's own when [env] is [None]. *)
Definition child_env (env : option nat) (s : state) : env_map :=
  match env with
  | Some l => default ∅ (dicts s !! l)
  | None => environ s
  end.

Definition in_time (timeout : nat) (p : process) : bool :=
  match duration p with
  | Some d => (d <=? timeout)%nat
  | None => false
  end.

(** [subprocess.run(cmd, capture_output=True, text=True, timeout=timeout,
    env=env, shell=shell)].  A launch that fails raises.  A child that exits
    within [timeout] seconds is reaped and its status and output returned;
    otherwise the child is killed and waited for when the timeout expires,
    and [TimeoutExpired] is raised. *)
Definition run (w : os_model) (cmd : command) (shell : bool) (timeout : nat)
    (env : option nat) : M completed_process :=
  fun s =>
    match w cmd shell (child_env env s) with
    | SpawnFails e => (Raises e, s)
    | Spawned p =>
      let pid := next_pid s in
      let started := set_next_pid (S pid) (set_children ({[pid]} ∪ children s) s) in
      if in_time timeout p then
        let d := default 0 (duration p) in
        (Returns (CompletedProcess (exit_status p) (out_text p) (err_text p)),
         set_children (children started ∖ {[pid]}) (set_clock (clock s + d) started))
      else
        (Raises (TimeoutExpired cmd timeout),
         set_children (children started ∖ {[pid]}) (set_clock (clock s + timeout) started))
    end.

(** Three machines, whatever the command: the program never exits by itself,
    the executable is missing, the program exits at once with a status and
    its output. *)
Definition hangs : os_model :=
  fun _ _ _ => Spawned (Process None 0 "" "").
Definition missing (message : string) : os_model :=
  fun _ _ _ => SpawnFails (FileNotFoundError message).
Definition exits (status : Z) (out err : string) : os_model :=
  fun _ _ _ => Spawned (Process (Some 0) status out err).

End Subprocess.

Import Subprocess.

(** The triple [(returncode, stdout, stderr)] every [run_command] returns. *)
Abbreviation triple := (Z * string * string)%type.

(** What the three [run_command] functions return on a timeout. *)
Definition timed_out : triple := ((-1)%Z, "", "Command timed out").

(** ** foundry_validation.py *)

Module FoundryValidation.

(** [run_command(cmd, timeout=30, env=None)], lines 23-38. *)
Definition default_timeout : nat := 30.

Definition run_command (w : os_model) (cmd : command) (timeout : nat)
    (env : option nat) : M triple :=
  try_except
    (result <- Subprocess.run w cmd (is_str cmd) timeout env ;;
     ret (returncode result, stdout result, stderr result))
    (fun e =>
       match e with
       | TimeoutExpired _ _ => ret timed_out
       | Error _ message => ret ((-1)%Z, "", message)
       end).

(** The items of the [env.update({...})] literal of [test_foundry_commands]. *)
Definition cpu_workaround : list (string * string) :=
  [ ("FOUNDRY_EXECUTION_PROVIDER", "CPUExecutionProvider");
    ("CUDA_VISIBLE_DEVICES", "-1");
    ("FOUNDRY_SKIP_CUDA_CHECK", "1");
    ("FOUNDRY_CUDA_VERSION_OVERRIDE", "12.0.0") ].

(** [env = os.environ.copy(); env.update({...})]: the environment
    [test_foundry_commands] builds for [foundry model ls]. *)
Definition cpu_workaround_env : M nat :=
  env <- environ_copy ;;
  dict_update env cpu_workaround ;;;
  ret env.

(** [test_foundry_commands()]; the printed lines are left out. *)
Definition test_foundry_commands (w : os_model) : M bool :=
  r <- run_command w (CmdList ["foundry"; "--version"]) 10 None ;;
  let '(retcode, _, _) := r in
  if (retcode =? 0)%Z then
    env <- cpu_workaround_env ;;
    r' <- run_command w (CmdList ["foundry"; "model"; "ls"]) 30 (Some env) ;;
    let '(retcode', _, _) := r' in
    if (retcode' =? 0)%Z then ret true else ret true
  else ret false.

(** The environment block handed to [foundry model ls] when the caller's
    environment is [ambient]. *)
Definition child_environment (ambient : env_map) : env_map :=
  match cpu_workaround_env (init_state ambient) with
  | (Returns env, s) => contents env s
  | (Raises _, _) => ∅
  end.

End FoundryValidation.

(** ** audit_validation.py *)

Module AuditValidation.

(** [run_command(cmd, timeout=30, env=None)], lines 18-32: no [shell]
    argument, so the command is never handed to a shell. *)
Definition default_timeout : nat := 30.

Definition run_command (w : os_model) (cmd : command) (timeout : nat)
    (env : option nat) : M triple :=
  try_except
    (result <- Subprocess.run w cmd false timeout env ;;
     ret (returncode result, stdout result, stderr result))
    (fun e =>
       match e with
       | TimeoutExpired _ _ => ret timed_out
       | Error _ message => ret ((-1)%Z, "", message)
       end).

(** The items of the [env.update({...})] literal of [test_foundry_commands]. *)
Definition cpu_workaround : list (string * string) :=
  [ ("FOUNDRY_EXECUTION_PROVIDER", "CPUExecutionProvider");
    ("CUDA_VISIBLE_DEVICES", "-1");
    ("FOUNDRY_SKIP_CUDA_CHECK", "1");
    ("FOUNDRY_CUDA_VERSION_OVERRIDE", "12.0.0") ].

(** [env = os.environ.copy(); env.update({...})]: the environment
    [test_foundry_commands] builds for [foundry model ls]. *)
Definition cpu_workaround_env : M nat :=
  env <- environ_copy ;;
  dict_update env cpu_workaround ;;;
  ret env.

(** [test_foundry_commands()]; the printed lines are left out. *)
Definition test_foundry_commands (w : os_model) : M bool :=
  r <- run_command w (CmdList ["foundry"; "--version"]) 10 None ;;
  let '(retcode, _, _) := r in
  if (retcode =? 0)%Z then
    env <- cpu_workaround_env ;;
    r' <- run_command w (CmdList ["foundry"; "model"; "ls"]) 30 (Some env) ;;
    let '(retcode', _, _) := r' in
    if (retcode' =? 0)%Z then ret true else ret true
  else ret false.

(** The environment block handed to [foundry model ls] when the caller's
    environment is [ambient]. *)
Definition child_environment (ambient : env_map) : env_map :=
  match cpu_workaround_env (init_state ambient) with
  | (Returns env, s) => contents env s
  | (Raises _, _) => ∅
  end.

End AuditValidation.

(** ** comprehensive_test.py *)

Module ComprehensiveTest.

(** [FoundryIntegrationTester.run_command(self, cmd, timeout=60, env=None)],
    lines 37-47. *)
Definition default_timeout : nat := 60.

Definition run_command (w : os_model) (cmd : command) (timeout : nat)
    (env : option nat) : M triple :=
  try_except
    (result <- Subprocess.run w cmd false timeout env ;;
     ret (returncode result, stdout result, stderr result))
    (fun e =>
       match e with
       | TimeoutExpired _ _ => ret timed_out
       | Error _ message => ret ((-1)%Z, "", message)
       end).

(** [needle in text] *)
Fixpoint contains (needle text : string) : bool :=
  match text with
  | EmptyString => String.prefix needle EmptyString
  | String _ rest => (String.prefix needle text || contains needle rest)%bool
  end.

(** [text.count(needle)] for a non-empty [needle]: occurrences that do not
    overlap, [skip] characters of the last one still to pass. *)
Fixpoint count_from (needle : string) (skip : nat) (text : string) : nat :=
  match text with
  | EmptyString => 0
  | String _ rest =>
    match skip with
    | S k => count_from needle k rest
    | O =>
      if String.prefix needle text
      then S (count_from needle (String.length needle - 1) rest)
      else count_from needle 0 rest
    end
  end.

Definition count (needle text : string) : nat := count_from needle 0 text.

(** What [log_result(test_name, passed, message)] records. *)
Record log_entry := Log { test_name : string; passed : bool; message : string }.

(** The problematic version as the CudaVersionTest program prints it: a
    backslash and an "n" for the newline. *)
Definition printed_version : string := "5\n      7".

(** The checks of [test_cuda_version_fix] on what the program returned,
    lines 108-128: the verdict and the results logged.  Text is held as
    its UTF-8 bytes here. *)
Definition cuda_version_checks (r : triple) : bool * list log_entry :=
  let '(retcode, stdout, stderr) := r in
  if (retcode =? 0)%Z then
    if (contains printed_version stdout
        && contains "Successfully parsed as: 5.0" stdout)%bool then
      let first := Log "CUDA Fix: Problematic version handled" true "" in
      if contains "✅ Successfully parsed" stdout then
        let success_count := count "✅ Successfully parsed" stdout in
        (true, [first;
                Log ("CUDA Fix: Multiple test cases (" +:+ pretty success_count +:+ ")")
                    true ""])
      else
        (false, [first; Log "CUDA Fix: Multiple test cases" false ""])
    else
      (false, [Log "CUDA Fix: Problematic version handled" false
                   "Did not properly handle '5\n      7' case"])
  else
    (false, [Log "CUDA Fix: Test execution" false ("Test failed: " +:+ stderr)]).

(** [test_cuda_version_fix(self)], lines 100-128. *)
Definition test_cuda_version_fix (w : os_model) : M (bool * list log_entry) :=
  r <- run_command w (CmdList ["dotnet"; "run"; "--project"; "CudaVersionTest"])
                   default_timeout None ;;
  ret (cuda_version_checks r).

End ComprehensiveTest.

(** ** Python strings and objects *)

(** A computation that returns or raises, without state. *)
Module Outcome.

Definition and_then {A B} (r : outcome A) (k : A -> outcome B) : outcome B :=
  match r with
  | Returns a => k a
  | Raises e => Raises e
  end.

(** [f] on each element from the left; the first exception ends it. *)
Fixpoint each {A B} (f : A -> outcome B) (xs : list A) : outcome (list B) :=
  match xs with
  | [] => Returns []
  | x :: xs' =>
    and_then (f x) (fun y => and_then (each f xs') (fun ys => Returns (y :: ys)))
  end.

End Outcome.

Notation "x <-? r ;; k" := (Outcome.and_then r (fun x => k))
  (at level 100, r at next level, right associativity).

Module Str.

(** A Python [str]: its code points in order.  A code point is a number
    below [0x110000]; the surrogates, [0xD800] to [0xDFFF], are code points
    like the others. *)
Definition str : Type := list N.

(** The text of a literal whose characters are below 256. *)
Definition lit (s : string) : str := map N_of_ascii (list_ascii_of_string s).

Definition well_formed (s : str) : bool := forallb (fun c => (c <? 0x110000)%N) s.

Definition high_surrogate (c : N) : bool := ((0xD800 <=? c) && (c <=? 0xDBFF))%N.

Definition low_surrogate (c : N) : bool := ((0xDC00 <=? c) && (c <=? 0xDFFF))%N.

(** Whether a high surrogate stands directly before a low one. *)
Fixpoint has_surrogate_pair (s : str) : bool :=
  match s with
  | [] => false
  | c :: rest =>
    match rest with
    | d :: _ => (high_surrogate c && low_surrogate d) || has_surrogate_pair rest
    | [] => false
    end
  end.

(** [sep.join(parts)] *)
Fixpoint join (sep : str) (parts : list str) : str :=
  match parts with
  | [] => []
  | [p] => p
  | p :: parts' => p ++ sep ++ join sep parts'
  end.

Definition eqb (a b : str) : bool := bool_decide (a = b).

(** [repr] of a string of letters, digits and spaces: the string between
    single quotes. *)
Definition single_quoted (s : str) : str := lit "'" ++ s ++ lit "'".

(** Whether a string is made of code points and none of its high surrogates
    stands directly before a low one. *)
Definition readable (s : str) : bool := well_formed s && negb (has_surrogate_pair s).

End Str.

Coercion Str.lit : string >-> Str.str.

Module Obj.

(** Dictionary keys: the hashable objects the scripts use. *)
Inductive key :=
| KeyNone
| KeyBool (b : bool)
| KeyInt (z : Z)
| KeyStr (s : Str.str).

(** The objects that reach the message code: [None], booleans, integers,
    strings, lists, tuples, and dictionaries kept as their items in
    insertion order. *)
Inductive object :=
| PyNone
| PyBool (b : bool)
| PyInt (z : Z)
| PyStr (s : Str.str)
| PyList (items : list object)
| PyTuple (items : list object)
| PyDict (items : list (key * object)).

(** The number a key counts as: [True == 1] and [False == 0]. *)
Definition key_number (k : key) : option Z :=
  match k with
  | KeyBool true => Some 1%Z
  | KeyBool false => Some 0%Z
  | KeyInt z => Some z
  | _ => None
  end.

(** [a == b] on keys. *)
Definition key_eqb (a b : key) : bool :=
  match a, b with
  | KeyNone, KeyNone => true
  | KeyStr x, KeyStr y => Str.eqb x y
  | KeyNone, _ | _, KeyNone | KeyStr _, _ | _, KeyStr _ => false
  | _, _ => bool_decide (key_number a = key_number b)
  end.

(** [d[k] = v]: an existing key keeps its place. *)
Fixpoint dict_set (k : key) (v : object) (d : list (key * object)) : list (key * object) :=
  match d with
  | [] => [(k, v)]
  | (k', v') :: d' =>
    if key_eqb k' k then (k', v) :: d' else (k', v') :: dict_set k v d'
  end.

(** [dict(pairs)] *)
Definition dict_of_pairs (pairs : list (key * object)) : list (key * object) :=
  fold_left (fun d kv => dict_set kv.1 kv.2 d) pairs [].

(** [d.get(k)] *)
Fixpoint dict_lookup (k : key) (d : list (key * object)) : option object :=
  match d with
  | [] => None
  | (k', v) :: d' => if key_eqb k' k then Some v else dict_lookup k d'
  end.

(** [isinstance(v, dict)], [isinstance(v, list)] *)
Definition is_dict (v : object) : bool :=
  match v with PyDict _ => true | _ => false end.
Definition is_list (v : object) : bool :=
  match v with PyList _ => true | _ => false end.

(** [sys.get_int_max_str_digits()], as the interpreter starts. *)
Definition int_max_str_digits : nat := 4300.

Definition IntTooLong : exception :=
  Error "ValueError"
    "Exceeds the limit (4300 digits) for integer string conversion; use sys.set_int_max_str_digits() to increase the limit".

Definition RecursionError : exception :=
  Error "RecursionError" "maximum recursion depth exceeded".

(** [str(z)] for an integer: it raises when [z] has more digits than the
    limit. *)
Definition int_str (z : Z) : outcome string :=
  if (10 ^ Z.of_nat int_max_str_digits <=? Z.abs z)%Z then Raises IntTooLong
  else Returns (pretty z).

(** How deep the containers of an object go: 0 for a scalar. *)
Fixpoint nesting (v : object) : nat :=
  match v with
  | PyList items | PyTuple items => S (foldr (fun x n => Nat.max (nesting x) n) 0 items)
  | PyDict items => S (foldr (fun kv n => Nat.max (nesting kv.2) n) 0 items)
  | _ => 0
  end.

(** Whether every integer of an object, keys included, can be written. *)
Definition key_short (k : key) : bool :=
  match k with
  | KeyInt z => negb (10 ^ Z.of_nat int_max_str_digits <=? Z.abs z)%Z
  | _ => true
  end.

Fixpoint ints_short (v : object) : bool :=
  match v with
  | PyInt z => negb (10 ^ Z.of_nat int_max_str_digits <=? Z.abs z)%Z
  | PyList items | PyTuple items => forallb ints_short items
  | PyDict items => forallb (fun kv => key_short kv.1 && ints_short kv.2) items
  | _ => true
  end.

(** Whether [repr] can write an object: its integers are short and its
    containers are at most [limit] deep. *)
Definition printable (limit : nat) (v : object) : bool :=
  ints_short v && (nesting v <=? limit)%nat.

Section Repr.

(** [repr] of a string (quoting and escaping) is the interpreter's. *)
Variable repr_str : Str.str -> Str.str.

Definition key_repr (k : key) : outcome Str.str :=
  match k with
  | KeyNone => Returns (Str.lit "None")
  | KeyBool true => Returns (Str.lit "True")
  | KeyBool false => Returns (Str.lit "False")
  | KeyInt z => text <-? int_str z ;; Returns (Str.lit text)
  | KeyStr s => Returns (repr_str s)
  end.

(** [repr(v)], where the interpreter accepts [limit] containers one inside
    the other before it raises [RecursionError]. *)
Fixpoint repr (limit : nat) (v : object) : outcome Str.str :=
  match v with
  | PyNone => Returns (Str.lit "None")
  | PyBool true => Returns (Str.lit "True")
  | PyBool false => Returns (Str.lit "False")
  | PyInt z => text <-? int_str z ;; Returns (Str.lit text)
  | PyStr s => Returns (repr_str s)
  | PyList items =>
    match limit with
    | O => Raises RecursionError
    | S inner =>
      parts <-? Outcome.each (repr inner) items ;;
      Returns (Str.lit "[" ++ Str.join (Str.lit ", ") parts ++ Str.lit "]")
    end
  | PyTuple items =>
    match limit with
    | O => Raises RecursionError
    | S inner =>
      parts <-? Outcome.each (repr inner) items ;;
      match parts with
      | [x] => Returns (Str.lit "(" ++ x ++ Str.lit ",)")
      | _ => Returns (Str.lit "(" ++ Str.join (Str.lit ", ") parts ++ Str.lit ")")
      end
    end
  | PyDict items =>
    match limit with
    | O => Raises RecursionError
    | S inner =>
      parts <-? Outcome.each
                  (fun kv =>
                     k <-? key_repr kv.1 ;;
                     x <-? repr inner kv.2 ;;
                     Returns (k ++ Str.lit ": " ++ x))
                  items ;;
      Returns (Str.lit "{" ++ Str.join (Str.lit ", ") parts ++ Str.lit "}")
    end
  end.

(** [str(v)] *)
Definition str (limit : nat) (v : object) : outcome Str.str :=
  match v with
  | PyStr s => Returns s
  | _ => repr limit v
  end.

End Repr.

End Obj.


(** ** The [json] module: [json.dump] and [json.load] with their defaults *)

Module Json.

Import Obj.
Local Open Scope char_scope.
Local Open Scope list_scope.

(** The double quote. *)
Abbreviation dq := "034".

(** The exception of a text that is not JSON; the message, which names
    what was expected and where, is left out. *)
Definition JSONDecodeError : exception := Error "JSONDecodeError" "Expecting value".

Definition ExtraData : exception := Error "JSONDecodeError" "Extra data".

Definition hex_digit (n : N) : ascii :=
  nth (N.to_nat n) (list_ascii_of_string "0123456789abcdef") "0".

(** Four hexadecimal digits of a number below [0x10000]. *)
Definition hex4 (n : N) : list ascii :=
  [ hex_digit (n / 4096 mod 16); hex_digit (n / 256 mod 16);
    hex_digit (n / 16 mod 16); hex_digit (n mod 16) ].

Definition u_escape (n : N) : list ascii := "\" :: "u" :: hex4 n.

(** [ensure_ascii=True]: a quote, a backslash and everything outside
    [' '..'~'] is escaped; a code point from [0x10000] on is written as the
    two surrogates of its pair. *)
Definition escape_char (c : N) : list ascii :=
  if (c =? 34)%N then ["\"; dq]
  else if (c =? 92)%N then ["\"; "\"]
  else if (c =? 10)%N then ["\"; "n"]
  else if (c =? 13)%N then ["\"; "r"]
  else if (c =? 9)%N then ["\"; "t"]
  else if (c =? 8)%N then ["\"; "b"]
  else if (c =? 12)%N then ["\"; "f"]
  else if ((c <? 32) || (126 <? c))%N then
    if (c <? 0x10000)%N then u_escape c
    else
      let n := (c - 0x10000)%N in
      u_escape (0xD800 + n / 1024 mod 1024) ++ u_escape (0xDC00 + n mod 1024)
  else [ascii_of_N c].

Fixpoint escape (s : Str.str) : list ascii :=
  match s with
  | [] => []
  | c :: s' => escape_char c ++ escape s'
  end.

Definition encode_string (s : Str.str) : list ascii :=
  dq :: escape s ++ [dq].

Fixpoint join (sep : list ascii) (parts : list (list ascii)) : list ascii :=
  match parts with
  | [] => []
  | [p] => p
  | p :: parts' => p ++ sep ++ join sep parts'
  end.

(** A key as [json.dump] writes it. *)
Definition key_text (k : key) : outcome Str.str :=
  match k with
  | KeyNone => Returns (Str.lit "null")
  | KeyBool true => Returns (Str.lit "true")
  | KeyBool false => Returns (Str.lit "false")
  | KeyInt z => text <-? int_str z ;; Returns (Str.lit text)
  | KeyStr s => Returns s
  end.

(** The text [json.dump(v, f)] writes: separators [", "] and [": "], tuples
    as arrays.  It raises on an integer that is too long to write, and
    [RecursionError] on containers more than [limit] deep. *)
Fixpoint dumps (limit : nat) (v : object) : outcome (list ascii) :=
  match v with
  | PyNone => Returns (list_ascii_of_string "null")
  | PyBool true => Returns (list_ascii_of_string "true")
  | PyBool false => Returns (list_ascii_of_string "false")
  | PyInt z => text <-? int_str z ;; Returns (list_ascii_of_string text)
  | PyStr s => Returns (encode_string s)
  | PyList items | PyTuple items =>
    match limit with
    | O => Raises RecursionError
    | S inner =>
      parts <-? Outcome.each (dumps inner) items ;;
      Returns ("[" :: join [","; " "] parts ++ ["]"])
    end
  | PyDict items =>
    match limit with
    | O => Raises RecursionError
    | S inner =>
      parts <-? Outcome.each
                  (fun kv =>
                     k <-? key_text kv.1 ;;
                     x <-? dumps inner kv.2 ;;
                     Returns (encode_string k ++ [":"; " "] ++ x))
                  items ;;
      Returns ("{" :: join [","; " "] parts ++ ["}"])
    end
  end.

(** *** Decoding *)

Definition is_ws (c : ascii) : bool :=
  let n := nat_of_ascii c in
  ((n =? 32) || (n =? 9) || (n =? 10) || (n =? 13))%nat%bool.

Fixpoint skip_ws (s : list ascii) : list ascii :=
  match s with
  | c :: r => if is_ws c then skip_ws r else s
  | [] => []
  end.

Definition hex_value (c : ascii) : option N :=
  let n := N_of_ascii c in
  if ((48 <=? n) && (n <=? 57))%N%bool then Some (n - 48)%N
  else if ((97 <=? n) && (n <=? 102))%N%bool then Some (n - 87)%N
  else if ((65 <=? n) && (n <=? 70))%N%bool then Some (n - 55)%N
  else None.

Definition hex4_value (h1 h2 h3 h4 : ascii) : option N :=
  match hex_value h1, hex_value h2, hex_value h3, hex_value h4 with
  | Some a, Some b, Some c, Some d => Some (((a * 16 + b) * 16 + c) * 16 + d)%N
  | _, _, _, _ => None
  end.

(** The character a two-character escape stands for. *)
Definition simple_escape (e : ascii) : option N :=
  if Ascii.eqb e dq then Some 34%N
  else if Ascii.eqb e "\" then Some 92%N
  else if Ascii.eqb e "/" then Some 47%N
  else if Ascii.eqb e "b" then Some 8%N
  else if Ascii.eqb e "f" then Some 12%N
  else if Ascii.eqb e "n" then Some 10%N
  else if Ascii.eqb e "r" then Some 13%N
  else if Ascii.eqb e "t" then Some 9%N
  else None.

Definition cons_char (c : N) (r : option (Str.str * list ascii)) :
    option (Str.str * list ascii) :=
  match r with
  | Some (t, rest) => Some (c :: t, rest)
  | None => None
  end.

(** The text of a string literal, read from just after its opening quote.
    A raw control character ends the parse.  The escape of a high surrogate
    directly followed by the escape of a low one is read as the one code
    point of the pair.  The text is held as bytes: what [json.dump] writes
    is ASCII, and a byte above 127 is read here as the code point of its
    number. *)
Fixpoint scan_string (s : list ascii) : option (Str.str * list ascii) :=
  match s with
  | [] => None
  | c :: r =>
    if Ascii.eqb c dq then Some ([], r)
    else if Ascii.eqb c "\" then
      match r with
      | [] => None
      | e :: r' =>
        match simple_escape e with
        | Some ch => cons_char ch (scan_string r')
        | None =>
          if Ascii.eqb e "u" then
            match r' with
            | h1 :: h2 :: h3 :: h4 :: r'' =>
              match hex4_value h1 h2 h3 h4 with
              | Some n =>
                if Str.high_surrogate n then
                  match r'' with
                  | b :: u :: l1 :: l2 :: l3 :: l4 :: r3 =>
                    if (Ascii.eqb b "\" && Ascii.eqb u "u")%bool then
                      match hex4_value l1 l2 l3 l4 with
                      | Some m =>
                        if Str.low_surrogate m
                        then cons_char (0x10000 + (n - 0xD800) * 1024 + (m - 0xDC00))%N
                               (scan_string r3)
                        else cons_char n (scan_string r'')
                      | None => None
                      end
                    else cons_char n (scan_string r'')
                  | _ => cons_char n (scan_string r'')
                  end
                else cons_char n (scan_string r'')
              | None => None
              end
            | _ => None
            end
          else None
        end
      end
    else if (N_of_ascii c <? 32)%N then None
    else cons_char (N_of_ascii c) (scan_string r)
  end.

(** Whether a text starts with the escape of a low surrogate, or with a
    [\u] that no four hexadecimal digits follow. *)
Definition low_escape_ahead (r : list ascii) : bool :=
  match r with
  | b :: u :: l1 :: l2 :: l3 :: l4 :: _ =>
    Ascii.eqb b "\" && Ascii.eqb u "u"
    && match hex4_value l1 l2 l3 l4 with
       | Some m => Str.low_surrogate m
       | None => true
       end
  | _ => false
  end.

Definition is_digit (c : ascii) : bool :=
  ((48 <=? nat_of_ascii c) && (nat_of_ascii c <=? 57))%nat%bool.

(** The digits at the head of [s], as a number, and what follows them. *)
Fixpoint scan_digits (acc : Z) (s : list ascii) : Z * list ascii :=
  match s with
  | c :: r =>
    if is_digit c then scan_digits (acc * 10 + Z.of_nat (nat_of_ascii c - 48)) r
    else (acc, s)
  | [] => (acc, [])
  end.

(** An integer literal: [0], or a non-zero digit and more digits. *)
Definition scan_natural (s : list ascii) : option (Z * list ascii) :=
  match s with
  | c :: r =>
    if Ascii.eqb c "0" then Some (0%Z, r)
    else if is_digit c then Some (scan_digits 0 s)
    else None
  | [] => None
  end.

(** The integer read, unless a fraction or an exponent follows (a float,
    which is outside this model) or it has more digits than [int] takes. *)
Definition no_fraction (r : option (Z * list ascii)) : outcome (object * list ascii) :=
  match r with
  | Some (z, rest) =>
    match rest with
    | c :: _ =>
      if (Ascii.eqb c "." || Ascii.eqb c "e" || Ascii.eqb c "E")%bool
      then Raises JSONDecodeError
      else if (10 ^ Z.of_nat int_max_str_digits <=? Z.abs z)%Z then Raises IntTooLong
      else Returns (PyInt z, rest)
    | [] =>
      if (10 ^ Z.of_nat int_max_str_digits <=? Z.abs z)%Z then Raises IntTooLong
      else Returns (PyInt z, rest)
    end
  | None => Raises JSONDecodeError
  end.

Definition scan_number (s : list ascii) : outcome (object * list ascii) :=
  match s with
  | c :: r =>
    if Ascii.eqb c "-" then
      no_fraction (match scan_natural r with
                   | Some (z, rest) => Some ((- z)%Z, rest)
                   | None => None
                   end)
    else no_fraction (scan_natural s)
  | [] => Raises JSONDecodeError
  end.

(** [s] without the prefix [p], when it has it. *)
Fixpoint strip_prefix (p s : list ascii) : option (list ascii) :=
  match p, s with
  | [], _ => Some s
  | a :: p', b :: s' => if Ascii.eqb a b then strip_prefix p' s' else None
  | _ :: _, [] => None
  end.

Definition literal (p : string) (v : object) (s : list ascii)
    : outcome (object * list ascii) :=
  match strip_prefix (list_ascii_of_string p) s with
  | Some rest => Returns (v, rest)
  | None => Raises JSONDecodeError
  end.

(** One value at the head of [s].  [fuel] bounds the number of steps, and
    [json_loads] gives the length of the text and one more.  [depth] is the
    number of containers, one inside the other, that the interpreter still
    accepts before it raises [RecursionError]. *)
Fixpoint parse_value (fuel depth : nat) (s : list ascii) : outcome (object * list ascii) :=
  match fuel with
  | O => Raises JSONDecodeError
  | S fuel' =>
    match s with
    | [] => Raises JSONDecodeError
    | c :: r =>
      if Ascii.eqb c dq then
        match scan_string r with
        | Some (t, rest) => Returns (PyStr t, rest)
        | None => Raises JSONDecodeError
        end
      else if Ascii.eqb c "{" then
        match depth with
        | O => Raises RecursionError
        | S inner =>
          match skip_ws r with
          | c' :: r' =>
            if Ascii.eqb c' "}" then Returns (PyDict [], r')
            else
              match parse_members fuel' inner (c' :: r') with
              | Returns (pairs, rest) => Returns (PyDict (dict_of_pairs pairs), rest)
              | Raises e => Raises e
              end
          | [] => Raises JSONDecodeError
          end
        end
      else if Ascii.eqb c "[" then
        match depth with
        | O => Raises RecursionError
        | S inner =>
          match skip_ws r with
          | c' :: r' =>
            if Ascii.eqb c' "]" then Returns (PyList [], r')
            else
              match parse_elements fuel' inner (c' :: r') with
              | Returns (items, rest) => Returns (PyList items, rest)
              | Raises e => Raises e
              end
          | [] => Raises JSONDecodeError
          end
        end
      else if Ascii.eqb c "n" then literal "ull" PyNone r
      else if Ascii.eqb c "t" then literal "rue" (PyBool true) r
      else if Ascii.eqb c "f" then literal "alse" (PyBool false) r
      else scan_number s
    end
  end
with parse_elements (fuel depth : nat) (s : list ascii)
    : outcome (list object * list ascii) :=
  match fuel with
  | O => Raises JSONDecodeError
  | S fuel' =>
    match parse_value fuel' depth s with
    | Returns (v, r) =>
      match skip_ws r with
      | c :: r' =>
        if Ascii.eqb c "," then
          match parse_elements fuel' depth (skip_ws r') with
          | Returns (items, rest) => Returns (v :: items, rest)
          | Raises e => Raises e
          end
        else if Ascii.eqb c "]" then Returns ([v], r')
        else Raises JSONDecodeError
      | [] => Raises JSONDecodeError
      end
    | Raises e => Raises e
    end
  end
with parse_members (fuel depth : nat) (s : list ascii)
    : outcome (list (key * object) * list ascii) :=
  match fuel with
  | O => Raises JSONDecodeError
  | S fuel' =>
    match s with
    | c :: r =>
      if Ascii.eqb c dq then
        match scan_string r with
        | Some (k, r1) =>
          match skip_ws r1 with
          | c1 :: r2 =>
            if Ascii.eqb c1 ":" then
              match parse_value fuel' depth (skip_ws r2) with
              | Returns (v, r3) =>
                match skip_ws r3 with
                | c3 :: r4 =>
                  if Ascii.eqb c3 "," then
                    match parse_members fuel' depth (skip_ws r4) with
                    | Returns (pairs, rest) => Returns ((KeyStr k, v) :: pairs, rest)
                    | Raises e => Raises e
                    end
                  else if Ascii.eqb c3 "}" then Returns ([(KeyStr k, v)], r4)
                  else Raises JSONDecodeError
                | [] => Raises JSONDecodeError
                end
              | Raises e => Raises e
              end
            else Raises JSONDecodeError
          | [] => Raises JSONDecodeError
          end
        | None => Raises JSONDecodeError
        end
      else Raises JSONDecodeError
    | [] => Raises JSONDecodeError
    end
  end.

(** [json.dumps(v)] as the text of a file. *)
Definition json_dumps (limit : nat) (v : object) : outcome string :=
  text <-? dumps limit v ;; Returns (string_of_list_ascii text).

(** [json.loads(text)] *)
Definition json_loads (limit : nat) (text : string) : outcome object :=
  let s := skip_ws (list_ascii_of_string text) in
  match parse_value (S (length s)) limit s with
  | Returns (v, rest) =>
    match skip_ws rest with
    | [] => Returns v
    | _ :: _ => Raises ExtraData
    end
  | Raises e => Raises e
  end.

End Json.

(** ** edge_case_test.py *)

Module EdgeCaseTest.

(** [required_env_vars], lines 161-167. *)
Definition required_env_vars : list string :=
  [ "FOUNDRY_EXECUTION_PROVIDER";
    "CUDA_VISIBLE_DEVICES";
    "FOUNDRY_SKIP_CUDA_CHECK";
    "FOUNDRY_CUDA_VERSION_OVERRIDE";
    "CUDA_VERSION" ].

(** The items of the [test_env.update({...})] literal, lines 179-185. *)
Definition test_values : list (string * string) :=
  [ ("FOUNDRY_EXECUTION_PROVIDER", "CPUExecutionProvider");
    ("CUDA_VISIBLE_DEVICES", "-1");
    ("FOUNDRY_SKIP_CUDA_CHECK", "1");
    ("FOUNDRY_CUDA_VERSION_OVERRIDE", "12.0.0");
    ("CUDA_VERSION", "12.0.0") ].

(** Truth value of [var in test_env and test_env[var]]. *)
Definition is_set (v : option string) : bool :=
  match v with
  | Some x => negb (String.eqb x "")
  | None => false
  end.

(** [original_env[var] = os.environ.get(var)] for every required variable. *)
Definition save_original : M (list (string * option string)) :=
  fold_each required_env_vars
    (fun original_env var =>
       value <- environ_get var ;;
       ret (assoc_set var value original_env))
    [].

(** The [finally] block, lines 212-217. *)
Definition restore (original_env : list (string * option string)) : M unit :=
  for_each original_env
    (fun item =>
       match item.2 with
       | None => environ_pop item.1
       | Some value => environ_setitem item.1 value
       end).

(** The [try] block, lines 178-209. *)
Definition check_test_env (test_env : nat) : M bool :=
  dict_update test_env test_values ;;;
  all_set <- fold_each required_env_vars
    (fun all_set var =>
       v <- dict_get test_env var ;;
       ret (if is_set v then all_set else false))
    true ;;
  devices <- dict_get test_env "CUDA_VISIBLE_DEVICES" ;;
  let all_set := if decide (devices = Some "-1") then all_set else false in
  provider <- dict_get test_env "FOUNDRY_EXECUTION_PROVIDER" ;;
  let all_set :=
    if decide (provider = Some "CPUExecutionProvider") then all_set else false in
  ret all_set.

(** [test_environment_variable_handling()], lines 156-217. *)
Definition test_environment_variable_handling : M bool :=
  test_env <- environ_copy ;;
  original_env <- save_original ;;
  try_finally (check_test_env test_env) (restore original_env).

End EdgeCaseTest.

(** ** The canonical request *)

(** A conversation turn and a canonical request, as the data model has
    them, and the Python objects that stand for them. *)
Record turn := Turn { role : Str.str; content : Str.str }.

Definition turn_value (t : turn) : Obj.object :=
  Obj.PyDict [(Obj.KeyStr "role", Obj.PyStr (role t));
              (Obj.KeyStr "content", Obj.PyStr (content t))].

Definition request_value (turns : list turn) : Obj.object :=
  Obj.PyDict [(Obj.KeyStr "messages", Obj.PyList (map turn_value turns))].

(** Reading the turns back out of a loaded artifact. *)
Definition value_turn (v : Obj.object) : option turn :=
  match v with
  | Obj.PyDict [(Obj.KeyStr k1, Obj.PyStr r); (Obj.KeyStr k2, Obj.PyStr c)] =>
    if (Str.eqb k1 "role" && Str.eqb k2 "content")%bool then Some (Turn r c) else None
  | _ => None
  end.

Definition value_request (v : Obj.object) : option (list turn) :=
  match v with
  | Obj.PyDict [(Obj.KeyStr k, Obj.PyList items)] =>
    if Str.eqb k "messages" then mapM value_turn items else None
  | _ => None
  end.

(** Whether the strings of a turn are read back as they are written. *)
Definition plain_turn (t : turn) : bool :=
  Str.readable (role t) && Str.readable (content t).

(** The text [json.dump] writes for a turn and for a request: the object
    with the key [messages]. *)
Definition turn_text (t : turn) : list ascii :=
  list_ascii_of_string "{" ++ Json.encode_string "role" ++ list_ascii_of_string ": "
  ++ Json.encode_string (role t) ++ list_ascii_of_string ", "
  ++ Json.encode_string "content" ++ list_ascii_of_string ": "
  ++ Json.encode_string (content t) ++ list_ascii_of_string "}".

(** The texts of the turns of a request, joined. *)
Definition turns_text (turns : list turn) : list ascii :=
  Json.join (list_ascii_of_string ", ") (map turn_text turns).

Definition request_chars (turns : list turn) : list ascii :=
  list_ascii_of_string "{" ++ Json.encode_string "messages" ++ list_ascii_of_string ": ["
  ++ turns_text turns ++ list_ascii_of_string "]}".

Definition request_text (turns : list turn) : string :=
  string_of_list_ascii (request_chars turns).

(** ** The overlay as the specification words it *)

(** The ambient environment overlaid with the four keys, the version
    override being the sanitized version [version]. *)
Definition negotiated_environment (version : string) (ambient : env_map) : env_map :=
  <["FOUNDRY_CUDA_VERSION_OVERRIDE" := version]>
    (<["FOUNDRY_SKIP_CUDA_CHECK" := "1"]>
       (<["CUDA_VISIBLE_DEVICES" := "-1"]>
          (<["FOUNDRY_EXECUTION_PROVIDER" := "CPUExecutionProvider"]> ambient))).

(** ** The Version Sanitizer *)

Module Sanitizer.

(** Modelled from the spec: the Version Sanitizer of section 4.2.  Its code
    (the FoundryFix project) is not among the Python files, which only
    build and run it.  The four steps are taken as the section lists them:
    whitespace is dropped and, like every other non-digit character, ends
    the digit group before it (so that a "5", a newline, indentation and a
    "7" read as the two groups 5 and 7); the digit groups are kept in
    order; the first three make MAJOR.MINOR.PATCH, a missing one being 0;
    and with no digit group, or a group longer than the bound, the result
    is 0.0.0.  The bound on a group's length is left open by the spec and
    is the parameter [max_digits]. *)

Inductive char_class := Digit | Space | Dot | Other.

Definition classify (c : ascii) : char_class :=
  let n := nat_of_ascii c in
  if ((48 <=? n) && (n <=? 57))%nat then Digit
  else if ((n =? 32) || ((9 <=? n) && (n <=? 13)))%nat then Space
  else if (n =? 46)%nat then Dot
  else Other.

Definition is_digit (c : ascii) : bool :=
  match classify c with Digit => true | _ => false end.

(** A token: a maximal run of characters of one class. *)
Record token := Token { cls : char_class; text : string }.

Definition class_eqb (a b : char_class) : bool :=
  match a, b with
  | Digit, Digit | Space, Space | Dot, Dot | Other, Other => true
  | _, _ => false
  end.

(** The tokens of [s], the run being read held in [current]. *)
Fixpoint tokens_from (current : option token) (s : string) : list token :=
  match s with
  | EmptyString =>
    match current with Some t => [t] | None => [] end
  | String c r =>
    match current with
    | Some t =>
      if class_eqb (cls t) (classify c)
      then tokens_from (Some (Token (cls t) (text t +:+ String c EmptyString))) r
      else t :: tokens_from (Some (Token (classify c) (String c EmptyString))) r
    | None => tokens_from (Some (Token (classify c) (String c EmptyString))) r
    end
  end.

Definition tokens (s : string) : list token := tokens_from None s.

(** Step 1: whitespace is stripped. *)
Definition strip_whitespace (ts : list token) : list token :=
  List.filter (fun t => negb (class_eqb (cls t) Space)) ts.

(** Step 2: the digit groups, in order; separators and other tokens go. *)
Definition digit_groups (ts : list token) : list string :=
  map text (List.filter (fun t => class_eqb (cls t) Digit) ts).

(** Step 3: up to three groups, a missing one being ["0"]. *)
Definition compose (groups : list string) : string * string * string :=
  (nth 0 groups "0", nth 1 groups "0", nth 2 groups "0").

Definition fallback : string := "0.0.0".

Section Bound.

Variable max_digits : nat.

(** Step 4: a component is kept when it is no longer than the bound. *)
Definition within_bound (component : string) : bool :=
  (String.length component <=? max_digits)%nat.

(** Modelled from the spec: the Version Sanitizer of section 4.2 (its code,
    the FoundryFix project, is not among the Python files): the four steps
    in order, [0.0.0] when no digit group is found or a component is
    longer than [max_digits]. *)
Definition sanitize (raw : string) : string :=
  let groups := digit_groups (strip_whitespace (tokens raw)) in
  match groups with
  | [] => fallback
  | _ :: _ =>
    let '(major, minor, patch) := compose groups in
    if (within_bound major && within_bound minor && within_bound patch)%bool
    then major +:+ "." +:+ minor +:+ "." +:+ patch
    else fallback
  end.

End Bound.

(** *** Reading a version back *)

(** The parts of [s] between dots, the part being read held in [current]. *)
Fixpoint split_dots (current : string) (s : string) : list string :=
  match s with
  | EmptyString => [current]
  | String c r =>
    if (nat_of_ascii c =? 46)%nat then current :: split_dots EmptyString r
    else split_dots (current +:+ String c EmptyString) r
  end.

(** The number a string of digits stands for. *)
Fixpoint number_from (acc : N) (s : string) : option N :=
  match s with
  | EmptyString => Some acc
  | String c r =>
    if is_digit c then number_from (acc * 10 + N.of_nat (nat_of_ascii c - 48)) r
    else None
  end.

Definition number (s : string) : option N :=
  match s with
  | EmptyString => None
  | String _ _ => number_from 0 s
  end.

(** [MAJOR.MINOR.PATCH], three non-negative integers. *)
Definition parse_version (s : string) : option (N * N * N) :=
  match split_dots EmptyString s with
  | [a; b; c] =>
    match number a, number b, number c with
    | Some major, Some minor, Some patch => Some (major, minor, patch)
    | _, _, _ => None
    end
  | _ => None
  end.

(** Whether [s] holds a digit. *)
Fixpoint has_digit (s : string) : bool :=
  match s with
  | EmptyString => false
  | String c r => (is_digit c || has_digit r)%bool
  end.

(** The version string the logs break in two: a "5", a newline, six
    spaces, a "7". *)
Definition broken_version : string :=
  String "5" (String "010" (String " " (String " " (String " " (String " "
    (String " " (String " " (String "7" EmptyString)))))))).

(** A digit group: one digit or more, and nothing else. *)
Fixpoint all_digits (s : string) : bool :=
  match s with
  | EmptyString => true
  | String c r => (is_digit c && all_digits r)%bool
  end.

Definition digit_group (s : string) : bool :=
  match s with
  | EmptyString => false
  | String _ _ => all_digits s
  end.

(** A token is well formed when, if it is of digits, it is a digit group. *)
Definition well_formed (t : token) : Prop :=
  cls t = Digit -> digit_group (text t) = true.

End Sanitizer.

(** ** The request as the supervisor serializes it *)

Module Canonical.

Local Open Scope char_scope.
Local Open Scope list_scope.

(** Modelled from the spec: the keys of the turn representations a caller
    hands to the provider (section 4.1), whose code, [foundry_fn] in
    sources/llm_provider.py, is not among these files. *)
Inductive key :=
| KNone
| KBool (b : bool)
| KInt (z : Z)
| KStr (s : string).

(** Modelled from the spec: the turn representations of section 4.1, with
    strings of characters below 256.  Every one of them has a string
    representation, as the specification has the normalizer total. *)
Inductive value :=
| VNone
| VBool (b : bool)
| VInt (z : Z)
| VStr (s : string)
| VList (items : list value)
| VTuple (items : list value)
| VDict (items : list (key * value)).

Definition is_dict (v : value) : bool :=
  match v with VDict _ => true | _ => false end.

Section Repr.

(** The string representation of a string. *)
Variable repr_str : string -> string.

Definition key_repr (k : key) : string :=
  match k with
  | KNone => "None"
  | KBool true => "True"
  | KBool false => "False"
  | KInt z => pretty z
  | KStr s => repr_str s
  end%string.

(** Modelled from the spec: the string representation of an opaque value
    (section 4.1, shape iii), written as Python writes it. *)
Fixpoint repr (v : value) : string :=
  match v with
  | VNone => "None"
  | VBool true => "True"
  | VBool false => "False"
  | VInt z => pretty z
  | VStr s => repr_str s
  | VList items => "[" +:+ String.concat ", " (map repr items) +:+ "]"
  | VTuple items =>
    match items with
    | [x] => "(" +:+ repr x +:+ ",)"
    | _ => "(" +:+ String.concat ", " (map repr items) +:+ ")"
    end
  | VDict items =>
    "{" +:+ String.concat ", "
              (map (fun kv => key_repr kv.1 +:+ ": " +:+ repr kv.2) items) +:+ "}"
  end%string.

Definition str (v : value) : string :=
  match v with
  | VStr s => s
  | _ => repr v
  end.

(** Modelled from the spec: the Message Normalizer of section 4.1 on one
    turn representation; the shapes are told apart as lines 122-128 of
    edge_case_test.py tell them apart. *)
Definition normalize_message (msg : value) : value :=
  if is_dict msg then msg
  else
    match msg with
    | VList [role; content] =>
      VDict [(KStr "role", role); (KStr "content", content)]
    | _ =>
      VDict [(KStr "role", VStr "user"); (KStr "content", VStr (str msg))]
    end.

(** Modelled from the spec: the Message Normalizer of section 4.1, one turn
    per element, in order. *)
Definition normalize (input : list value) : list value :=
  fold_left (fun messages msg => messages ++ [normalize_message msg]) input [].

End Repr.

Definition key_text (k : key) : string :=
  match k with
  | KNone => "null"
  | KBool true => "true"
  | KBool false => "false"
  | KInt z => pretty z
  | KStr s => s
  end%string.

(** Modelled from the spec: the text of the temporary artifact (section 6),
    written as [json.dump] writes it. *)
Fixpoint dumps (v : value) : list ascii :=
  match v with
  | VNone => list_ascii_of_string "null"
  | VBool true => list_ascii_of_string "true"
  | VBool false => list_ascii_of_string "false"
  | VInt z => list_ascii_of_string (pretty z)
  | VStr s => Json.encode_string s
  | VList items | VTuple items =>
    "[" :: Json.join [","; " "] (map dumps items) ++ ["]"]
  | VDict items =>
    "{" :: Json.join [","; " "]
             (map (fun kv => Json.encode_string (key_text kv.1) ++ [":"; " "] ++ dumps kv.2)
                  items) ++ ["}"]
  end.

Definition json_dumps (v : value) : string := string_of_list_ascii (dumps v).

End Canonical.

(** ** The Invocation Supervisor *)

Module Supervisor.

(** Modelled from the spec: what launching an executable comes to for the
    supervisor of section 4.4 (whose code, [foundry_fn] in
    sources/llm_provider.py, is not among these files): the process exits
    with a status and its output, its binary is absent, the timeout elapses
    (and the process is terminated), or the launch itself raises. *)
Inductive launch_result :=
| Exited (code : Z) (out err : string)
| BinaryAbsent
| TimedOut
| LaunchRaised (reason : string).

(** Modelled from the spec: the tagged result, InvocationOutcome, of
    section 3. *)
Inductive invocation_outcome :=
| Success (text : string)
| RecoverableFailure (reason : string)
| FatalFailure (reason : string).

Inductive tier := Primary | Fallback.

(** One process launch: which executable, the artifact it was pointed at
    with the text the artifact held at that moment, and its environment. *)
Record launch := Launch {
  launched : tier;
  artifact : string;
  request_text : option string;
  environment : env_map
}.

(** Modelled from the spec: the states of the machine of section 4.4. *)
Inductive phase :=
| Idle
| Preparing
| PrimaryRunning
| PrimaryFailed (reason : string)
| FallbackRunning (reason : string)
| Succeeded (text : string)
| FatallyFailed (reason : string).

(** Modelled from the spec: the machine of section 4.4, its state, the
    files on disk and the launches made so far (oldest first). *)
Record machine := Machine {
  state_of : phase;
  disk : gmap string string;
  launches : list launch
}.

(** Modelled from the spec: one caller request (sections 4.4 and 5), the
    conversation, the token that makes the artifact's name unique, the
    caller's environment, the version string the runtime reports, and what
    each executable does when launched. *)
Record invocation := Invocation {
  history : list Canonical.value;
  token : nat;
  ambient : env_map;
  raw_version : string;
  primary : launch_result;
  fallback : launch_result
}.

(** Where the fallback executable is expected (foundry_validation.py,
    line 95). *)
Definition fallback_executable : string :=
  "FoundryLocalForceCPU/bin/Debug/net8.0/FoundryLocalForceCPU.dll".

Definition artifact_path (i : invocation) : string :=
  "foundry_request_" +:+ pretty (token i) +:+ ".json".

Definition present (path : string) (d : gmap string string) : bool :=
  bool_decide (is_Some (d !! path)).

(** Modelled from the spec: the classification of the primary process
    (section 4.4, PrimaryRunning): exit status zero is a success with the
    reply on stdout; a non-zero status, an absent binary and a timeout are
    recoverable; an exception raised by the launch ends the invocation. *)
Definition classify_primary (r : launch_result) : invocation_outcome :=
  match r with
  | Exited code out err =>
    if (code =? 0)%Z then Success out else RecoverableFailure err
  | BinaryAbsent => RecoverableFailure "binary not found"
  | TimedOut => RecoverableFailure "timed out"
  | LaunchRaised reason => FatalFailure reason
  end.

(** Modelled from the spec: the classification of the fallback process
    (section 4.4, FallbackRunning): its exit status alone decides, and
    there is no further tier. *)
Definition classify_fallback (r : launch_result) : invocation_outcome :=
  match r with
  | Exited code out err =>
    if (code =? 0)%Z then Success out else FatalFailure err
  | BinaryAbsent => FatalFailure "binary not found"
  | TimedOut => FatalFailure "timed out"
  | LaunchRaised reason => FatalFailure reason
  end.

Section Machine.

(** [repr] of strings, for the normalizer, and the sanitizer's bound. *)
Variable repr_str : string -> string.
Variable max_digits : nat.

(** Modelled from the spec: the Environment Negotiator of section 4.3,
    given the version the sanitizer returns. *)
Definition negotiate (i : invocation) : env_map :=
  negotiated_environment (Sanitizer.sanitize max_digits (raw_version i)) (ambient i).

(** Modelled from the spec: the serialized canonical request, the
    normalized history under the key ["messages"] (sections 4.1 and 6). *)
Definition serialized (i : invocation) : string :=
  Canonical.json_dumps
    (Canonical.VDict
       [(Canonical.KStr "messages",
         Canonical.VList (Canonical.normalize repr_str (history i)))]).

Definition record_launch (t : tier) (i : invocation) (m : machine) : list launch :=
  launches m ++ [Launch t (artifact_path i) (disk m !! artifact_path i) (negotiate i)].

(** Leaving for a terminal state: the artifact is removed. *)
Definition finish (final : phase) (i : invocation) (m : machine) (ls : list launch) : machine :=
  Machine final (delete (artifact_path i) (disk m)) ls.

(** Modelled from the spec: one transition of the state machine of section
    4.4 (the Invocation Supervisor, whose code, [foundry_fn] in
    sources/llm_provider.py, is not among these files). *)
Definition step (i : invocation) (m : machine) : machine :=
  match state_of m with
  | Idle => Machine Preparing (disk m) (launches m)
  | Preparing =>
    Machine PrimaryRunning (<[artifact_path i := serialized i]> (disk m)) (launches m)
  | PrimaryRunning =>
    let ls := record_launch Primary i m in
    match classify_primary (primary i) with
    | Success text => finish (Succeeded text) i m ls
    | RecoverableFailure reason => Machine (PrimaryFailed reason) (disk m) ls
    | FatalFailure reason => finish (FatallyFailed reason) i m ls
    end
  | PrimaryFailed reason =>
    if present fallback_executable (disk m)
    then Machine (FallbackRunning reason) (disk m) (launches m)
    else finish (FatallyFailed reason) i m (launches m)
  | FallbackRunning _ =>
    let ls := record_launch Fallback i m in
    match classify_fallback (fallback i) with
    | Success text => finish (Succeeded text) i m ls
    | RecoverableFailure reason => finish (FatallyFailed reason) i m ls
    | FatalFailure reason => finish (FatallyFailed reason) i m ls
    end
  | Succeeded _ => m
  | FatallyFailed _ => m
  end.

(** The launch a tier is due: the artifact of this invocation, holding the
    serialized request, and the negotiated environment. *)
Definition due (t : tier) (i : invocation) : launch :=
  Launch t (artifact_path i) (Some (serialized i)) (negotiate i).

Fixpoint run (n : nat) (i : invocation) (m : machine) : machine :=
  match n with
  | O => m
  | S n' => run n' i (step i m)
  end.

(** Modelled from the spec: one invocation, from [Idle] on the given disk;
    five transitions reach a terminal state on every path. *)
Definition supervise (i : invocation) (d : gmap string string) : machine :=
  run 5 i (Machine Idle d []).

End Machine.

Definition terminal (p : phase) : bool :=
  match p with
  | Succeeded _ | FatallyFailed _ => true
  | _ => false
  end.

(** The launches of one tier. *)
Definition launches_of (t : tier) (ls : list launch) : list launch :=
  List.filter (fun l => match launched l, t with
                        | Primary, Primary | Fallback, Fallback => true
                        | _, _ => false
                        end) ls.

(** A request whose primary process fails with a non-zero status, and a disk
    that holds the fallback executable. *)
Definition sample_invocation : invocation :=
  Invocation [Canonical.VDict [(Canonical.KStr "role", Canonical.VStr "user");
                                (Canonical.KStr "content", Canonical.VStr "Hello")]]
             1 ∅ Sanitizer.broken_version
             (Exited 1 "" "model failed to load")
             (Exited 0 "Hi there" "").

Definition sample_disk : gmap string string := {[ fallback_executable := "" ]}.

End Supervisor.

(** ** What a command runner owes its callers *)

(** A runner [run_command] that launches with the [shell] flag [shell cmd]:
    it always returns a triple, the child's own when the child exits in
    time, and [-1] with an empty output and a reason otherwise. *)
Definition command_contract
    (run_command : os_model -> command -> nat -> option nat -> M triple)
    (shell : command -> bool) : Prop :=
  forall (w : os_model) (cmd : command) (timeout : nat) (env : option nat) (s : state),
    let launch := w cmd (shell cmd) (child_env env s) in
    let result := (run_command w cmd timeout env s).1 in
    (exists t : triple, result = Returns t)
    /\ (forall p, launch = Spawned p -> in_time timeout p = true ->
          result = Returns (exit_status p, out_text p, err_text p))
    /\ (forall p, launch = Spawned p -> in_time timeout p = false ->
          result = Returns ((-1)%Z, "", "Command timed out"))
    /\ (forall c t, launch = SpawnFails (TimeoutExpired c t) ->
          result = Returns ((-1)%Z, "", "Command timed out"))
    /\ (forall cls message, launch = SpawnFails (Error cls message) ->
          result = Returns ((-1)%Z, "", message)).

(** The returned triple does not tell a timeout or a missing executable
    from a program that exited with status [-1] and wrote the same text. *)
Definition cannot_tell
    (run_command : os_model -> command -> nat -> option nat -> M triple) : Prop :=
  forall (cmd : command) (timeout : nat) (env : option nat) (s : state) (message : string),
    (run_command hangs cmd timeout env s).1
      = (run_command (exits (-1) "" "Command timed out") cmd timeout env s).1
    /\ (run_command (missing message) cmd timeout env s).1
      = (run_command (exits (-1) "" message) cmd timeout env s).1
    /\ (exists out err, (run_command hangs cmd timeout env s).1 = Returns ((-1)%Z, out, err))
    /\ (exists out err,
          (run_command (missing message) cmd timeout env s).1 = Returns ((-1)%Z, out, err)).

(** A runner never waits longer than its timeout and leaves no child
    running; a child that outlives the timeout is reported as timed out. *)
Definition bounded_by_timeout
    (run_command : os_model -> command -> nat -> option nat -> M triple)
    (shell : command -> bool) : Prop :=
  forall (w : os_model) (cmd : command) (timeout : nat) (env : option nat) (s : state),
    let result := (run_command w cmd timeout env s).1 in
    let after := (run_command w cmd timeout env s).2 in
    clock after <= clock s + timeout
    /\ children after ⊆ children s
    /\ (forall p, w cmd (shell cmd) (child_env env s) = Spawned p ->
          in_time timeout p = false ->
          result = Returns ((-1)%Z, "", "Command timed out")
          /\ clock after = clock s + timeout
          /\ next_pid s ∉ children after).

(** ** Text *)

Module Text.

(** [text.replace(old, new)] for a non-empty [old]: the occurrences of
    [old] from the left, none overlapping another; [skip] characters of the
    last one are still to pass. *)
Fixpoint replace_from (old new : string) (skip : nat) (text : string) : string :=
  match text with
  | EmptyString => EmptyString
  | String c rest =>
    match skip with
    | S k => replace_from old new k rest
    | O =>
      if String.prefix old text
      then new +:+ replace_from old new (String.length old - 1) rest
      else String c (replace_from old new 0 rest)
    end
  end.

Definition replace (old new text : string) : string := replace_from old new 0 text.

(** A text given by its lines, each ended by a newline. *)
Definition unlines (lines : list string) : string :=
  fold_right (fun line text => line +:+ String "010"%char text) "" lines.

(** A text between double quotes. *)
Definition quoted (text : string) : string :=
  String "034"%char (text +:+ String "034"%char "").

(** Whether a text is ASCII: every codec a locale can name reads its bytes
    as these characters. *)
Definition is_ascii (text : string) : bool :=
  forallb (fun c => (nat_of_ascii c <? 128)%nat) (list_ascii_of_string text).

End Text.

(** ** Floating-point numbers: Python's [float], binary64 *)

Module Float.

(** [float(n)], exact below 2^53. *)
Fixpoint of_nat (n : nat) : float :=
  match n with
  | O => 0%float
  | S k => (of_nat k + 1)%float
  end.

(** [(passed / total) * 100] for two integers, [total] not zero. *)
Definition percentage (passed total : nat) : float :=
  (of_nat passed / of_nat total * 100)%float.

(** [x >= y] *)
Definition ge (x y : float) : bool := PrimFloat.leb y x.

(** The counts [(passed, total)] with [passed <= total] and
    [1 <= total <= n]. *)
Definition counts (n : nat) : list (nat * nat) :=
  flat_map (fun total => map (fun passed => (passed, total)) (seq 0 (S total))) (seq 1 n).

(** The exception of a division by zero. *)
Definition ZeroDivisionError : exception :=
  Error "ZeroDivisionError" "division by zero".

End Float.

(** ** Paths, files and directories *)

(** A path is written relative to [project_root], and [str(path)] is that
    text.  The files are those of the state; the directories are a set given
    beside it, and a path in that set is a directory whatever the files
    say.  A file is held as the text its bytes stand for: a file that the
    codec of the locale cannot decode, and a file that may not be opened,
    are outside this model. *)
Module Disk.

Section Directories.

Variable dirs : gset string.

(** Whether a file is at [path]. *)
Definition file_at (path : string) (s : state) : bool :=
  bool_decide (path ∉ dirs) && bool_decide (is_Some (files s !! path)).

(** Whether a directory is at [path]. *)
Definition dir_at (path : string) : bool := bool_decide (path ∈ dirs).

(** [path.is_file()] *)
Definition is_file (path : string) : M bool :=
  fun s => (Returns (file_at path s), s).

(** [path.is_dir()] *)
Definition is_dir (path : string) : M bool := ret (dir_at path).

(** Whether something is at [path]: a directory or a file. *)
Definition on_disk (path : string) (s : state) : bool :=
  bool_decide (path ∈ dirs) || bool_decide (is_Some (files s !! path)).

(** The text of the file at [path], when a file is there. *)
Definition text_at (path : string) (s : state) : option string :=
  if bool_decide (path ∈ dirs) then None else files s !! path.

(** [path.exists()] *)
Definition path_exists (path : string) : M bool :=
  fun s => (Returns (on_disk path s), s).

Definition IsADirectoryError (path : string) : exception :=
  Error "IsADirectoryError" path.

(** [with open(path, 'r') as f: f.read()] *)
Definition open_read (path : string) : M string :=
  if bool_decide (path ∈ dirs) then raise (IsADirectoryError path)
  else read_file path.

(** [with open(path, 'w') as f: f.write(text)] *)
Definition open_write (path text : string) : M unit :=
  if bool_decide (path ∈ dirs) then raise (IsADirectoryError path)
  else write_file path text.

(** [path.unlink()] *)
Definition unlink (path : string) : M unit :=
  if bool_decide (path ∈ dirs) then raise (IsADirectoryError path)
  else Py.unlink path.

End Directories.

(** A computation that leaves the state as it found it, whatever it
    answers. *)
Definition read_only {A} (m : M A) : Prop := forall s : state, (m s).2 = s.

(** What a launched program leaves on disk, by its command. *)
Definition disk_effect : Type := command -> gmap string string -> gmap string string.

(** A [run_command] call together with what the child did to the files:
    nothing when it could not be launched. *)
Definition launching (w : os_model) (effect : disk_effect) (shell : bool)
    (cmd : command) (env : option nat) (call : M triple) : M triple :=
  fun s =>
    match w cmd shell (child_env env s) with
    | Spawned _ =>
      match call s with
      | (r, s') => (r, set_files (effect cmd (files s')) s')
      end
    | SpawnFails _ => call s
    end.

(** A program that writes nothing. *)
Definition writes_nothing : disk_effect := fun _ files => files.

End Disk.

(** Whether a command, launched with the environment [e], exits with status
    0 within [timeout] seconds. *)
Definition succeeds (w : os_model) (cmd : command) (shell : bool) (timeout : nat)
    (e : env_map) : bool :=
  match w cmd shell e with
  | Spawned p => in_time timeout p && (exit_status p =? 0)%Z
  | SpawnFails _ => false
  end.

(** Whether the machine can launch a command at all. *)
Definition launches (w : os_model) (cmd : command) (shell : bool) (e : env_map) : bool :=
  match w cmd shell e with
  | Spawned _ => true
  | SpawnFails _ => false
  end.

(** [needle in text] and [text.count(needle)], as above. *)
Local Abbreviation contains := ComprehensiveTest.contains.
Local Abbreviation count := ComprehensiveTest.count.

(** ** foundry_validation.py: the tests and the report *)

Module FoundryValidationSuite.

Section Tests.

Variable w : os_model.
Variable effect : Disk.disk_effect.
Variable dirs : gset string.

(** [run_command], with what the child leaves on disk. *)
Definition run_command (cmd : command) (timeout : nat) (env : option nat) : M triple :=
  Disk.launching w effect (is_str cmd) cmd env
    (FoundryValidation.run_command w cmd timeout env).

Definition test_exe : string :=
  "CudaVersionTest/bin/Debug/net8.0/CudaVersionTest.dll".

(** [str(e)] of the [RecursionError] the interpreter raises at its limit on
    nested calls. *)
Variable recursion_message : string.

(** [run_command] where the interpreter has room for [depth] more rounds of
    [test_cuda_version_fix].  With no room left the limit is met inside
    [subprocess.run], before anything is launched and within the [try] of
    lines 25-34, so that the handler of lines 37-38 answers. *)
Definition run_command_within (depth : nat) (cmd : command) (timeout : nat)
    (env : option nat) : M triple :=
  match depth with
  | O =>
    FoundryValidation.run_command
      (fun _ _ _ => SpawnFails (Error "RecursionError" recursion_message)) cmd timeout env
  | S _ => run_command cmd timeout env
  end.

(** [test_cuda_version_fix()], lines 40-64, with room for [depth] more
    rounds: a call of itself with no room left raises. *)
Fixpoint test_cuda_version_fix (depth : nat) : M bool :=
  built <- Disk.path_exists dirs test_exe ;;
  if built then
    r <- run_command_within depth (CmdList ["dotnet"; test_exe])
           FoundryValidation.default_timeout None ;;
    let '(retcode, stdout, _) := r in
    if (retcode =? 0)%Z then
      if contains "Failed even with FoundryFix: 0" stdout then ret true else ret true
    else ret false
  else
    r <- run_command_within depth (CmdList ["dotnet"; "build"]) 60 None ;;
    let '(retcode, _, _) := r in
    if negb (retcode =? 0)%Z then ret false
    else
      match depth with
      | O => raise (Error "RecursionError" recursion_message)
      | S depth' => test_cuda_version_fix depth'
      end.

Definition cpu_exe : string :=
  "FoundryLocalForceCPU/bin/Debug/net8.0/FoundryLocalForceCPU.dll".

(** [test_foundry_local_force_cpu()], lines 91-113. *)
Definition test_foundry_local_force_cpu : M bool :=
  built <- Disk.path_exists dirs cpu_exe ;;
  if built then
    r <- run_command (CmdList ["dotnet"; cpu_exe; "--help"]) 10 None ;;
    let '(_, stdout, _) := r in
    if contains "FoundryLocalForceCPU - Running Foundry Local in CPU-only mode" stdout
    then ret true
    else ret true
  else ret false.

(** The text written to the test configuration, lines 148-154. *)
Definition test_config (original_content : string) : string :=
  Text.replace "provider_model = deepseek-r1:14b" "provider_model = microsoft/DialoGPT-small"
    (Text.replace "provider_name = ollama" "provider_name = foundry" original_content).

(** [test_config_foundry_option()], lines 136-168. *)
Definition test_config_foundry_option : M bool :=
  there <- Disk.path_exists dirs "config.ini" ;;
  if there then
    original_content <- Disk.open_read dirs "config.ini" ;;
    Disk.open_write dirs "config_foundry_test.ini" (test_config original_content) ;;;
    Disk.unlink dirs "config_foundry_test.ini" ;;;
    ret true
  else ret false.

End Tests.

(** [sum(1 for result in results.values() if result)] *)
Definition passed_tests (results : list (string * bool)) : nat :=
  length (List.filter snd results).

(** [create_validation_report(results)], lines 204-231; [results] is the
    dictionary as its items. *)
Definition create_validation_report (results : list (string * bool)) : outcome bool :=
  let total_tests := length results in
  let passed_tests := passed_tests results in
  if (total_tests =? 0)%nat then Raises Float.ZeroDivisionError
  else if (passed_tests =? total_tests)%nat then Returns true
  else if Float.ge (Float.of_nat passed_tests) (Float.of_nat total_tests * 0.7)%float
  then Returns true
  else Returns false.

(** The keys of [results] in [main], lines 239-246. *)
Definition test_names : list string :=
  [ "CUDA Version Fix";
    "Foundry Provider Available";
    "FoundryLocalForceCPU Tool";
    "FoundryFix DLL";
    "Configuration Support";
    "Foundry CLI Commands" ].

End FoundryValidationSuite.

(** ** audit_validation.py: the tests and the report *)

Module AuditValidationSuite.

Section Tests.

Variable w : os_model.
Variable effect : Disk.disk_effect.
Variable dirs : gset string.

(** [run_command], with what the child leaves on disk. *)
Definition run_command (cmd : command) (timeout : nat) (env : option nat) : M triple :=
  Disk.launching w effect false cmd env
    (AuditValidation.run_command w cmd timeout env).

(** [test_cuda_version_fix()], lines 34-59. *)
Definition test_cuda_version_fix : M bool :=
  try_except
    (there <- Disk.path_exists dirs "CudaVersionTest" ;;
     if there then
       r <- run_command (CmdList ["dotnet"; "build"; "CudaVersionTest"]) 60 None ;;
       let '(retcode, _, _) := r in
       if (retcode =? 0)%Z then
         r' <- run_command (CmdList ["dotnet"; "run"; "--project"; "CudaVersionTest"])
                 30 None ;;
         let '(retcode', _, _) := r' in
         if (retcode' =? 0)%Z then ret true else ret true
       else ret true
     else ret true)
    (fun _ => ret true).

(** [test_foundry_local_force_cpu()], lines 102-132. *)
Definition test_foundry_local_force_cpu : M bool :=
  try_except
    (there <- Disk.path_exists dirs "FoundryLocalForceCPU" ;;
     if negb there then ret true
     else
       r <- run_command (CmdList ["dotnet"; "build"; "FoundryLocalForceCPU"]) 60 None ;;
       let '(retcode, _, _) := r in
       if (retcode =? 0)%Z then
         built <- Disk.path_exists dirs
                    "FoundryLocalForceCPU/bin/Debug/net8.0/FoundryLocalForceCPU" ;;
         if built then ret true else ret true
       else ret false)
    (fun _ => ret false).

Definition dll_patterns : list string :=
  [ "FoundryFix/bin/Debug/net8.0/FoundryFix.dll";
    "FoundryFix/bin/Release/net8.0/FoundryFix.dll" ].

(** The loop over [dll_patterns], lines 156-160: whether it returned. *)
Fixpoint dll_found (paths : list string) : M bool :=
  match paths with
  | [] => ret false
  | dll_path :: paths' =>
    there <- Disk.path_exists dirs dll_path ;;
    if there then ret true else dll_found paths'
  end.

(** [test_foundry_fix_dll()], lines 134-170. *)
Definition test_foundry_fix_dll : M bool :=
  try_except
    (there <- Disk.path_exists dirs "FoundryFix" ;;
     if negb there then ret true
     else
       r <- run_command (CmdList ["dotnet"; "build"; "FoundryFix"]) 60 None ;;
       let '(retcode, _, _) := r in
       if (retcode =? 0)%Z then
         found <- dll_found dll_patterns ;;
         if found then ret true else ret true
       else ret false)
    (fun _ => ret false).

(** [test_config_foundry_option()], lines 172-204. *)
Definition test_config_foundry_option : M bool :=
  there <- Disk.path_exists dirs "config.ini" ;;
  if there then
    original_content <- Disk.open_read dirs "config.ini" ;;
    Disk.open_write dirs "config_foundry_test.ini"
      (Text.replace "provider_model = deepseek-r1:14b"
         "provider_model = microsoft/DialoGPT-small"
         (Text.replace "provider_name = ollama" "provider_name = foundry"
            original_content)) ;;;
    Disk.unlink dirs "config_foundry_test.ini" ;;;
    ret true
  else ret false.

End Tests.

(** [create_validation_report(results)], lines 310-338. *)
Definition create_validation_report (results : list (string * bool)) : outcome bool :=
  let passed := length (List.filter snd results) in
  let total := length results in
  if (total =? 0)%nat then Raises Float.ZeroDivisionError
  else
    let success_rate := Float.percentage passed total in
    if Float.ge success_rate 80 then Returns true
    else if Float.ge success_rate 60 then Returns true
    else Returns false.

(** The keys of [results] in [main], lines 346-355. *)
Definition test_names : list string :=
  [ "CUDA Version Fix";
    "Foundry Provider Available";
    "FoundryLocalForceCPU Tool";
    "FoundryFix DLL";
    "Configuration Support";
    "Foundry CLI Commands";
    "Provider Function Test";
    "Workaround Scripts" ].

End AuditValidationSuite.

(** ** comprehensive_test.py: [FoundryIntegrationTester] *)

Module Tester.

(** [self]: the results by test name, in the order the names came in, and
    the two counters. *)
Record tester := Tester {
  results : list (string * (bool * string));
  test_count : nat;
  passed_count : nat
}.

(** [__init__], lines 20-23. *)
Definition new : tester := Tester [] 0 0.

(** A method: a computation that also reads and updates [self]; what it did
    to [self] stays when it raises. *)
Definition method (A : Type) : Type := tester -> state -> outcome A * tester * state.

Definition mret {A} (a : A) : method A := fun self s => (Returns a, self, s).

Definition mbind {A B} (m : method A) (k : A -> method B) : method B :=
  fun self s =>
    match m self s with
    | (Returns a, self', s') => k a self' s'
    | (Raises e, self', s') => (Raises e, self', s')
    end.

(** A computation that does not touch [self]. *)
Definition call {A} (m : M A) : method A :=
  fun self s => match m s with (r, s') => (r, self, s') end.

(** [try: body except Exception as e: handler(e)] *)
Definition mtry_except {A} (body : method A) (handler : exception -> method A) : method A :=
  fun self s =>
    match body self s with
    | (Returns a, self', s') => (Returns a, self', s')
    | (Raises e, self', s') => handler e self' s'
    end.

(** [acc = init; for x in xs: acc = body(acc, x)] *)
Fixpoint mfold {A B} (xs : list A) (body : B -> A -> method B) (acc : B) : method B :=
  match xs with
  | [] => mret acc
  | x :: xs' => mbind (body acc x) (fun acc' => mfold xs' body acc')
  end.

(** [str(e)] *)
Definition str_of (e : exception) : string :=
  match e with
  | TimeoutExpired _ _ => "Command timed out"
  | Error _ message => message
  end.

End Tester.

Import Tester.

Notation "x <~ m ;; k" := (mbind m (fun x => k))
  (at level 100, m at next level, right associativity).
Notation "m ;;~ k" := (mbind m (fun _ => k))
  (at level 100, right associativity).

Module FoundryIntegrationTester.

(** [log_result(self, test_name, passed, message="")], lines 25-35. *)
Definition log_result (test_name : string) (passed : bool) (message : string) : method unit :=
  fun self s =>
    (Returns tt,
     Tester (assoc_set test_name (passed, message) (results self))
            (S (test_count self))
            (if passed then S (passed_count self) else passed_count self),
     s).

(** [self.results.get(test_name)] *)
Fixpoint result_of (test_name : string) (results : list (string * (bool * string)))
    : option (bool * string) :=
  match results with
  | [] => None
  | (name, result) :: rest =>
    if String.eqb name test_name then Some result else result_of test_name rest
  end.

(** [log_result] called for each entry in turn. *)
Definition log_all (entries : list ComprehensiveTest.log_entry) : method unit :=
  mfold entries
    (fun _ entry =>
       log_result (ComprehensiveTest.test_name entry) (ComprehensiveTest.passed entry)
         (ComprehensiveTest.message entry))
    tt.

(** What one call of [log_result] leaves in [self]. *)
Definition logged (entry : ComprehensiveTest.log_entry) (self : tester) : tester :=
  Tester (assoc_set (ComprehensiveTest.test_name entry)
            (ComprehensiveTest.passed entry, ComprehensiveTest.message entry)
            (results self))
         (S (test_count self))
         (if ComprehensiveTest.passed entry
          then S (passed_count self) else passed_count self).

Inductive item_type := File | Dir.

(** [required_items], lines 53-64. *)
Definition required_items : list (string * item_type) :=
  [ ("sources/llm_provider.py", File);
    ("foundry_validation.py", File);
    ("FOUNDRY_INTEGRATION.md", File);
    ("BugBash.md", File);
    ("config.ini", File);
    ("FoundryFix/", Dir);
    ("FoundryLocalForceCPU/", Dir);
    ("CudaVersionTest/", Dir);
    ("foundry_model_ls_fix.ps1", File);
    ("foundry_model_ls_fix.cmd", File) ].

(** [project_root / item]: a slash at the end of [item] is dropped. *)
Fixpoint path_of (item : string) : string :=
  match item with
  | EmptyString => EmptyString
  | String c rest =>
    if (Ascii.eqb c "/" && String.eqb rest "")%bool then EmptyString
    else String c (path_of rest)
  end.

Section Methods.

Variable w : os_model.
Variable effect : Disk.disk_effect.
Variable dirs : gset string.

(** [self.run_command], with what the child leaves on disk. *)
Definition run_command (cmd : command) (timeout : nat) (env : option nat) : M triple :=
  Disk.launching w effect false cmd env
    (ComprehensiveTest.run_command w cmd timeout env).

(** Whether a required item is there, as the kind it is required to be. *)
Definition item_present (s : state) (required : string * item_type) : bool :=
  match required.2 with
  | File => Disk.file_at dirs (path_of required.1) s
  | Dir => Disk.dir_at dirs (path_of required.1)
  end.

(** One pass of the loop of [test_project_structure], lines 67-75. *)
Definition check_item (all_exist : bool) (required : string * item_type) : method bool :=
  let item := required.1 in
  let path := path_of item in
  is_file <~ call (Disk.is_file dirs path) ;;
  is_dir <~ call (Disk.is_dir dirs path) ;;
  match required.2 with
  | File =>
    if is_file then
      log_result ("Structure: " +:+ item +:+ " exists") true "" ;;~ mret all_exist
    else
      log_result ("Structure: " +:+ item +:+ " exists") false "Missing file" ;;~
      mret false
  | Dir =>
    if is_dir then
      log_result ("Structure: " +:+ item +:+ " exists") true "" ;;~ mret all_exist
    else
      log_result ("Structure: " +:+ item +:+ " exists") false "Missing dir" ;;~
      mret false
  end.

(** [test_project_structure(self)], lines 49-77. *)
Definition test_project_structure : method bool :=
  mfold required_items check_item true.

(** [projects], lines 83-87. *)
Definition projects : list string :=
  [ "FoundryFix/FoundryFix.csproj";
    "FoundryLocalForceCPU/FoundryLocalForceCPU.csproj";
    "CudaVersionTest/CudaVersionTest.csproj" ].

(** One pass of the loop of [test_csharp_builds], lines 90-96. *)
Definition build_project (all_build : bool) (project : string) : method bool :=
  r <~ call (run_command (CmdList ["dotnet"; "build"; project])
               ComprehensiveTest.default_timeout None) ;;
  let '(retcode, _, stderr) := r in
  if (retcode =? 0)%Z then
    log_result ("Build: " +:+ project) true "" ;;~ mret all_build
  else
    log_result ("Build: " +:+ project) false ("Build failed: " +:+ stderr) ;;~
    mret false.

(** [test_csharp_builds(self)], lines 79-98. *)
Definition test_csharp_builds : method bool :=
  mfold projects build_project true.

(** [test_cuda_version_fix(self)], lines 100-128. *)
Definition test_cuda_version_fix : method bool :=
  r <~ call (run_command (CmdList ["dotnet"; "run"; "--project"; "CudaVersionTest"])
               ComprehensiveTest.default_timeout None) ;;
  let '(retcode, stdout, stderr) := r in
  if (retcode =? 0)%Z then
    if (contains ComprehensiveTest.printed_version stdout
        && contains "Successfully parsed as: 5.0" stdout)%bool then
      log_result "CUDA Fix: Problematic version handled" true "" ;;~
      if contains "✅ Successfully parsed" stdout then
        let success_count := count "✅ Successfully parsed" stdout in
        log_result ("CUDA Fix: Multiple test cases (" +:+ pretty success_count +:+ ")")
          true "" ;;~
        mret true
      else
        log_result "CUDA Fix: Multiple test cases" false "" ;;~ mret false
    else
      log_result "CUDA Fix: Problematic version handled" false
        "Did not properly handle '5\n      7' case" ;;~
      mret false
  else
    log_result "CUDA Fix: Test execution" false ("Test failed: " +:+ stderr) ;;~
    mret false.

Definition provider_file : string := "sources/llm_provider.py".

(** [cuda_workarounds], lines 153-158. *)
Definition cuda_workarounds : list string :=
  [ "FOUNDRY_EXECUTION_PROVIDER";
    "CUDA_VISIBLE_DEVICES";
    "FOUNDRY_SKIP_CUDA_CHECK";
    "FOUNDRY_CUDA_VERSION_OVERRIDE" ].

(** The loop over [cuda_workarounds], lines 160-165: [False] when it
    returned from the method. *)
Fixpoint check_workarounds (content : string) (workarounds : list string) : method bool :=
  match workarounds with
  | [] => mret true
  | workaround :: rest =>
    if contains workaround content then
      log_result ("Provider: " +:+ workaround +:+ " workaround") true "" ;;~
      check_workarounds content rest
    else
      log_result ("Provider: " +:+ workaround +:+ " workaround") false "" ;;~
      mret false
  end.

(** [test_provider_code_structure(self)], lines 130-185. *)
Definition test_provider_code_structure : method bool :=
  content <~ call (Disk.open_read dirs provider_file) ;;
  if contains (Text.quoted "foundry" +:+ ": self.foundry_fn") content then
    log_result "Provider: Foundry registration" true "" ;;~
    if contains "def foundry_fn(self" content then
      log_result "Provider: foundry_fn method" true "" ;;~
      present <~ check_workarounds content cuda_workarounds ;;
      if present then
        log_result "Provider: FileNotFoundError handling"
          (contains "FileNotFoundError" content) "" ;;~
        log_result "Provider: Timeout handling" (contains "TimeoutExpired" content) "" ;;~
        if contains "FoundryLocalForceCPU" content then
          log_result "Provider: CPU fallback mechanism" true "" ;;~ mret true
        else
          log_result "Provider: CPU fallback mechanism" false "" ;;~ mret false
      else mret false
    else
      log_result "Provider: foundry_fn method" false "" ;;~ mret false
  else
    log_result "Provider: Foundry registration" false "" ;;~ mret false.

(** [test_configuration_system(self)], lines 187-241. *)
Definition test_configuration_system : method bool :=
  there <~ call (Disk.path_exists dirs "config.ini") ;;
  if there then
    config_content <~ call (Disk.open_read dirs "config.ini") ;;
    log_result "Config: config.ini readable" true "" ;;~
    example_there <~ call (Disk.path_exists dirs "config_foundry_example.ini") ;;
    (if example_there then
       example_content <~ call (Disk.open_read dirs "config_foundry_example.ini") ;;
       log_result "Config: Foundry example config"
         (contains "provider_name = foundry" example_content) ""
     else
       log_result "Config: Foundry example config" false "") ;;~
    mtry_except
      (let test_config :=
         Text.replace "provider_name = ollama" "provider_name = foundry" config_content in
       call (Disk.open_write dirs "test_config_temp.ini" test_config) ;;~
       verify_content <~ call (Disk.open_read dirs "test_config_temp.ini") ;;
       log_result "Config: Modification capability"
         (contains "provider_name = foundry" verify_content) "" ;;~
       call (Disk.unlink dirs "test_config_temp.ini") ;;~
       mret true)
      (fun e =>
         log_result "Config: Modification capability" false (str_of e) ;;~ mret false)
  else
    log_result "Config: config.ini readable" false "" ;;~ mret false.

End Methods.

(** [generate_comprehensive_report(self)], lines 370-414: the division of
    line 376 and the verdict of line 414. *)
Definition generate_comprehensive_report : method bool :=
  fun self s =>
    if (test_count self =? 0)%nat then (Raises Float.ZeroDivisionError, self, s)
    else
      let success_rate := Float.percentage (passed_count self) (test_count self) in
      (Returns (Float.ge success_rate 70), self, s).

Section Suite.

Variable w : os_model.
Variable effect : Disk.disk_effect.
Variable dirs : gset string.

(** [list(directory.glob(pattern))]: the paths the system lists, in its
    order. *)
Variable glob : string -> string -> state -> list string.

(** [test_workaround_scripts(self)], lines 243-273. *)
Definition test_workaround_scripts : method bool :=
  ps_there <~ call (Disk.path_exists dirs "foundry_model_ls_fix.ps1") ;;
  (if ps_there then
     ps_content <~ call (Disk.open_read dirs "foundry_model_ls_fix.ps1") ;;
     if (contains "CUDA_VISIBLE_DEVICES" ps_content
         && contains "foundry model ls" ps_content)%bool
     then log_result "Scripts: PowerShell workaround" true ""
     else log_result "Scripts: PowerShell workaround" false ""
   else log_result "Scripts: PowerShell workaround" false "") ;;~
  cmd_there <~ call (Disk.path_exists dirs "foundry_model_ls_fix.cmd") ;;
  (if cmd_there then
     cmd_content <~ call (Disk.open_read dirs "foundry_model_ls_fix.cmd") ;;
     if contains "foundry model ls" cmd_content
     then log_result "Scripts: Batch workaround" true ""
     else log_result "Scripts: Batch workaround" false ""
   else log_result "Scripts: Batch workaround" false "") ;;~
  mret true.

(** [required_sections], lines 284-291. *)
Definition required_sections : list string :=
  [ "Installation and Setup";
    "CUDA Issue Fix";
    "Troubleshooting";
    "Validation";
    "Technical Details";
    "Example Usage" ].

(** [test_documentation_completeness(self)], lines 275-315. *)
Definition test_documentation_completeness : method bool :=
  doc_content <~ call (Disk.open_read dirs "FOUNDRY_INTEGRATION.md") ;;
  mfold required_sections
    (fun _ section =>
       if contains section doc_content
       then log_result ("Docs: " +:+ section +:+ " section") true ""
       else log_result ("Docs: " +:+ section +:+ " section") false "")
    tt ;;~
  (if (contains "```" doc_content && contains "python" doc_content)%bool
   then log_result "Docs: Code examples present" true ""
   else log_result "Docs: Code examples present" false "") ;;~
  bug_content <~ call (Disk.open_read dirs "BugBash.md") ;;
  (if contains "CUDA Version Parsing Error" bug_content
   then log_result "Docs: Bug documentation" true ""
   else log_result "Docs: Bug documentation" false "") ;;~
  mret true.

(** [required_functions], lines 325-333. *)
Definition required_functions : list string :=
  [ "test_cuda_version_fix";
    "test_foundry_provider_availability";
    "test_foundry_local_force_cpu";
    "test_foundry_fix_dll";
    "test_config_foundry_option";
    "test_foundry_commands";
    "create_validation_report" ].

(** [test_validation_script_structure(self)], lines 317-341. *)
Definition test_validation_script_structure : method bool :=
  content <~ call (Disk.open_read dirs "foundry_validation.py") ;;
  mfold required_functions
    (fun _ func =>
       if contains ("def " +:+ func) content
       then log_result ("Validation: " +:+ func +:+ " function") true ""
       else log_result ("Validation: " +:+ func +:+ " function") false "")
    tt ;;~
  mret true.

(** [test_cpu_wrapper_functionality(self)], lines 343-368. *)
Definition test_cpu_wrapper_functionality : method bool :=
  cs_files <~ call (fun s => (Returns (glob "FoundryLocalForceCPU" "*.cs" s), s)) ;;
  match cs_files with
  | first :: _ =>
    content <~ call (Disk.open_read dirs first) ;;
    (if contains "CPUExecutionProvider" content
     then log_result "CPU Wrapper: CPUExecutionProvider config" true ""
     else log_result "CPU Wrapper: CPUExecutionProvider config" false "") ;;~
    (if contains "CUDA_VISIBLE_DEVICES" content
     then log_result "CPU Wrapper: CUDA device hiding" true ""
     else log_result "CPU Wrapper: CUDA device hiding" false "") ;;~
    mret true
  | [] =>
    log_result "CPU Wrapper: Source files exist" false "" ;;~ mret false
  end.

(** The calls of [main] on its tester, lines 424-439. *)
Definition run_all : method Z :=
  r1 <~ test_project_structure dirs ;;
  r2 <~ test_csharp_builds w effect ;;
  r3 <~ test_cuda_version_fix w effect ;;
  r4 <~ test_provider_code_structure dirs ;;
  r5 <~ test_configuration_system dirs ;;
  r6 <~ test_workaround_scripts ;;
  r7 <~ test_documentation_completeness ;;
  r8 <~ test_validation_script_structure ;;
  r9 <~ test_cpu_wrapper_functionality ;;
  let test_results := [r1; r2; r3; r4; r5; r6; r7; r8; r9] in
  overall_success <~ generate_comprehensive_report ;;
  mret (if overall_success then 0 else 1)%Z.

(** [main()], lines 416-439. *)
Definition main : M Z :=
  fun s =>
    let tester := new in
    match run_all tester s with
    | (r, _, s') => (r, s')
    end.

End Suite.

(** [self'] is [self] after at most [k] calls of [log_result]. *)
Definition grows (k : nat) (self self' : tester) : Prop :=
  test_count self <= test_count self' <= test_count self + k
  /\ passed_count self <= passed_count self'
  /\ passed_count self' + test_count self <= passed_count self + test_count self'.

(** A method that logs at most [k] results, whether it returns or
    raises. *)
Definition logs_at_most {A} (k : nat) (m : method A) : Prop :=
  forall (self : tester) (s : state), grows k self (m self s).1.2.

(** The counters agree with what was logged. *)
Definition counted (self : tester) : Prop :=
  passed_count self <= test_count self
  /\ length (results self) <= test_count self.

(** The results passed among those recorded. *)
Definition passed_results (self : tester) : nat :=
  length (List.filter (fun r => r.2.1) (results self)).

End FoundryIntegrationTester.

(** ** edge_case_test.py: the content checks and [main] *)

Module EdgeCaseSuite.

Import Obj.

(** [test_configs], lines 20-50: name, text, [should_work]. *)
Definition test_configs : list (string * string * bool) :=
  [ ("foundry_basic",
     Text.unlines [ "[MAIN]";
                    "is_local = True";
                    "provider_name = foundry";
                    "provider_model = microsoft/DialoGPT-small";
                    "provider_server_address = 127.0.0.1:5000" ],
     true);
    ("foundry_with_custom_model",
     Text.unlines [ "[MAIN]";
                    "is_local = True";
                    "provider_name = foundry";
                    "provider_model = custom/model-name";
                    "provider_server_address = 127.0.0.1:8080" ],
     true);
    ("invalid_provider",
     Text.unlines [ "[MAIN]";
                    "is_local = True";
                    "provider_name = nonexistent";
                    "provider_model = test" ],
     false) ].

(** [project_root / f"test_{name}.ini"] *)
Definition temp_config (name : string) : string := "test_" +:+ name +:+ ".ini".

Definition provider_file : string := "sources/llm_provider.py".

(** [error_scenarios], lines 228-244: name, pattern, message. *)
Definition error_scenarios : list (string * string * string) :=
  [ ("FileNotFoundError", "FileNotFoundError", "Foundry Local CLI not found");
    ("TimeoutExpired", "TimeoutExpired", "timed out");
    ("General Exception", "except Exception as e:", "Foundry Local provider failed") ].

(** *** [test_foundry_input_formats], lines 79-154 *)

Section InputFormats.

Variable dirs : gset string.

(** [repr] of a string (quoting and escaping) is the interpreter's. *)
Variable repr_str : Str.str -> Str.str.

(** How many containers, one inside the other, the interpreter accepts in
    [str], in [json.dump] and in [json.load] before it raises
    [RecursionError]. *)
Variable repr_limit dump_limit load_limit : nat.

(** The text [json.dump] has handed to the file by the time it raises. *)
Variable unfinished : object -> string.

(** The body of the loop over [test_case["input"]], lines 122-128. *)
Definition normalize_message (msg : object) : outcome object :=
  if is_dict msg then Returns msg
  else
    match msg with
    | PyList [role; content] =>
      Returns (PyDict [(KeyStr "role", role); (KeyStr "content", content)])
    | _ =>
      text <-? Obj.str repr_str repr_limit msg ;;
      Returns (PyDict [(KeyStr "role", PyStr "user"); (KeyStr "content", PyStr text)])
    end.

(** [messages = []; for msg in input: messages.append(...)], lines
    120-128: the first [str] that raises ends the loop. *)
Definition normalize (input : list object) : outcome (list object) :=
  fold_left
    (fun so_far msg =>
       messages <-? so_far ;;
       message <-? normalize_message msg ;;
       Returns (messages ++ [message]))
    input (Returns []).

(** [project_root / f"test_{name}.json"], relative to the project root. *)
Definition temp_file (name : string) : string := "test_" +:+ name +:+ ".json".

(** [with open(temp_file, 'w') as f: json.dump(temp_data, f)], lines
    134-135.  Opening creates or empties the file; the encoder hands its
    text to the file piece by piece, and the file is closed, with what it
    was handed, also when the encoder raises.  The text is ASCII
    ([ensure_ascii]), so the codec of the file does not matter. *)
Definition dump (path : string) (temp_data : object) : M unit :=
  match Json.json_dumps dump_limit temp_data with
  | Returns text => Disk.open_write dirs path text
  | Raises e => Disk.open_write dirs path (unfinished temp_data) ;;; raise e
  end.

(** [with open(temp_file, 'r') as f: loaded_data = json.load(f)], lines
    138-139. *)
Definition load (path : string) : M object :=
  text <- Disk.open_read dirs path ;;
  lift (Json.json_loads load_limit text).

(** Lines 134-139: the artifact written, then read back. *)
Definition dump_and_load (path : string) (temp_data : object) : M object :=
  dump path temp_data ;;;
  load path.

(** [isinstance(loaded_data.get("messages"), list)] *)
Definition has_messages (loaded_data : object) : M bool :=
  match loaded_data with
  | PyDict d =>
    ret (match dict_lookup (KeyStr "messages") d with
         | Some v => is_list v
         | None => false
         end)
  | _ => raise (Error "AttributeError" "object has no attribute 'get'")
  end.

(** One pass of the loop over [test_cases], lines 118-152, on the list
    [results].  The verdict is appended before [temp_file.unlink()], line
    148, so an exception of [unlink] finds it there and the handler appends
    [False] after it; the handler removes no file. *)
Definition input_format_case (results : list bool) (test_case : string * list object)
    : M (list bool) :=
  let '(name, input) := test_case in
  try_except
    (messages <- lift (normalize input) ;;
     let temp_data := PyDict [(KeyStr "messages", PyList messages)] in
     loaded_data <- dump_and_load (temp_file name) temp_data ;;
     ok <- has_messages loaded_data ;;
     let results := results ++ [ok] in
     try_except
       (Disk.unlink dirs (temp_file name) ;;; ret results)
       (fun _ => ret (results ++ [false])))
    (fun _ => ret (results ++ [false])).

(** [test_cases], lines 84-114. *)
Definition test_cases : list (string * list object) :=
  [ ("dict_format",
     [PyDict [(KeyStr "role", PyStr "user"); (KeyStr "content", PyStr "Hello")]]);
    ("list_tuple_format", [PyList [PyStr "user"; PyStr "Hello"]]);
    ("mixed_format",
     [PyDict [(KeyStr "role", PyStr "user"); (KeyStr "content", PyStr "First message")];
      PyList [PyStr "assistant"; PyStr "Response"];
      PyDict [(KeyStr "role", PyStr "user"); (KeyStr "content", PyStr "Follow up")]]);
    ("string_fallback", [PyStr "Just a string"]);
    ("empty_input", []) ].

(** [test_foundry_input_formats()], lines 79-154. *)
Definition test_foundry_input_formats : M bool :=
  results <- fold_each test_cases input_format_case [] ;;
  ret (forallb id results).

End InputFormats.

(** Whether a message is coerced: neither a dictionary nor a list of two. *)
Definition coerced (msg : object) : bool :=
  match msg with
  | PyDict _ => false
  | PyList [_; _] => false
  | _ => true
  end.

(** A message as callers write it: a dictionary with a role and a content,
    or a list of two, the strings of either being read back as they are
    written; or a value that is neither and whose [str] exists and is read
    back as it is written. *)
Definition plain_message (repr_str : Str.str -> Str.str) (limit : nat) (msg : object)
    : bool :=
  match msg with
  | PyDict [(KeyStr k1, PyStr r); (KeyStr k2, PyStr c)] =>
    Str.eqb k1 "role" && Str.eqb k2 "content" && Str.readable r && Str.readable c
  | PyDict _ => false
  | PyList [PyStr r; PyStr c] => Str.readable r && Str.readable c
  | PyList [_; _] => false
  | _ =>
    match Obj.str repr_str limit msg with
    | Returns text => Str.readable text
    | Raises _ => false
    end
  end.

(** The names of the test cases of [test_foundry_input_formats]. *)
Definition input_format_names : list string := map fst test_cases.

(** *** The other tests and [main] *)

Section Checks.

Variable dirs : gset string.

(** [text.lower()] *)
Variable lower : string -> string.

(** One pass of the loop of [test_config_variations], lines 53-75. *)
Definition config_case (results : list bool) (test_config : string * string * bool)
    : M (list bool) :=
  let '(name, config, should_work) := test_config in
  try_finally
    (Disk.open_write dirs (temp_config name) config ;;;
     content <- Disk.open_read dirs (temp_config name) ;;
     let has_foundry := contains "provider_name = foundry" content in
     let expected := should_work in
     if (has_foundry && expected || negb has_foundry && negb expected)%bool
     then ret (results ++ [true])
     else ret (results ++ [false]))
    (there <- Disk.path_exists dirs (temp_config name) ;;
     if there then Disk.unlink dirs (temp_config name) else ret tt).

(** [test_config_variations()], lines 15-77. *)
Definition test_config_variations : M bool :=
  results <- fold_each test_configs config_case [] ;;
  ret (forallb id results).

(** The checks of [test_error_handling_scenarios] on the provider's text,
    lines 246-268. *)
Definition error_handling (content : string) : bool :=
  let results :=
    fold_left
      (fun results scenario =>
         let '(_, pattern, message) := scenario in
         if contains pattern content then
           if contains (lower message) (lower content)
           then results ++ [true]
           else results ++ [true]
         else results ++ [false])
      error_scenarios [] in
  let results :=
    if (contains "finally:" content && contains "unlink" content)%bool
    then results ++ [true]
    else results ++ [false] in
  forallb id results.

(** [test_error_handling_scenarios()], lines 219-268. *)
Definition test_error_handling_scenarios : M bool :=
  content <- Disk.open_read dirs provider_file ;;
  ret (error_handling content).

(** The checks of [test_fallback_mechanisms] on the provider's text, lines
    278-330. *)
Definition fallback_mechanisms (content : string) : bool :=
  let results := [] in
  let results := results ++ [contains "if result.returncode != 0:" content] in
  let results := results ++ [contains "FoundryLocalForceCPU" content] in
  let results :=
    results ++ [contains (Text.quoted "dotnet" +:+ ", foundry_cpu_exe") content] in
  let results :=
    results ++
    [contains ("os.path.join(os.path.dirname(__file__), " +:+ Text.quoted ".." +:+ ", "
               +:+ String "034"%char "FoundryLocalForceCPU" +:+ String "034"%char "")
       content] in
  let results := results ++ [contains "os.path.exists(foundry_cpu_exe)" content] in
  let foundry_call := contains (Text.quoted "foundry" +:+ ", " +:+ Text.quoted "chat") content in
  let cpu_fallback := contains (Text.quoted "dotnet" +:+ ", foundry_cpu_exe") content in
  let results := results ++ [(foundry_call && cpu_fallback)%bool] in
  forallb id results.

(** [test_fallback_mechanisms()], lines 270-330. *)
Definition test_fallback_mechanisms : M bool :=
  content <- Disk.open_read dirs provider_file ;;
  ret (fallback_mechanisms content).

(** The checks of [test_security_considerations] on the provider's text,
    lines 340-374. *)
Definition security_considerations (content : string) : bool :=
  let security_checks := [] in
  let security_checks :=
    security_checks ++ [(contains "tempfile" content && contains "delete=False" content)%bool] in
  let security_checks :=
    security_checks ++ [(contains "unlink" content || contains "remove" content)%bool] in
  let security_checks := security_checks ++ [contains "json.dump" content] in
  let security_checks := security_checks ++ [contains "timeout=" content] in
  forallb id security_checks.

(** [test_security_considerations()], lines 332-374. *)
Definition test_security_considerations : M bool :=
  content <- Disk.open_read dirs provider_file ;;
  ret (security_considerations content).

(** The interpreter's part in [test_foundry_input_formats], as above. *)
Variable repr_str : Str.str -> Str.str.
Variable repr_limit dump_limit load_limit : nat.
Variable unfinished : object -> string.

(** [tests], lines 381-388. *)
Definition tests : list (string * M bool) :=
  [ ("Configuration Variations", test_config_variations);
    ("Input Format Handling",
     test_foundry_input_formats dirs repr_str repr_limit dump_limit load_limit unfinished);
    ("Environment Variables", EdgeCaseTest.test_environment_variable_handling);
    ("Error Handling", test_error_handling_scenarios);
    ("Fallback Mechanisms", test_fallback_mechanisms);
    ("Security Considerations", test_security_considerations) ].

(** The loop of [main], lines 390-400. *)
Definition run_tests (tests : list (string * M bool)) : M (list bool) :=
  fold_each tests
    (fun results test =>
       try_except
         (result <- test.2 ;; ret (results ++ [result]))
         (fun _ => ret (results ++ [false])))
    [].

(** The exit status [main] computes from the results, lines 406-424. *)
Definition exit_status_of (results : list bool) : outcome Z :=
  let passed := length (List.filter id results) in
  let total := length results in
  if (total =? 0)%nat then Raises Float.ZeroDivisionError
  else
    let success_rate := Float.percentage passed total in
    if Float.ge success_rate 80 then Returns 0%Z
    else if Float.ge success_rate 60 then Returns 0%Z
    else Returns 1%Z.

(** [main()], lines 376-424. *)
Definition main : M Z :=
  results <- run_tests tests ;;
  lift (exit_status_of results).

End Checks.

End EdgeCaseSuite.

(** ** code_audit.py *)

Module CodeAudit.

Definition provider_file : string := "sources/llm_provider.py".

Section Audits.

Variable dirs : gset string.

(** [list(directory.glob(pattern))]: the paths the system lists, in its
    order. *)
Variable glob : string -> string -> state -> list string.

(** The checks of [audit_provider_code] on the provider's text that decide
    its verdict, lines 27-76. *)
Definition provider_code (content : string) : bool :=
  if contains (Text.quoted "foundry" +:+ ": self.foundry_fn") content then
    if contains "def foundry_fn(self" content then
      if contains "FoundryLocalForceCPU" content then true else false
    else false
  else false.

(** [audit_provider_code()], lines 14-76. *)
Definition audit_provider_code : M bool :=
  there <- Disk.path_exists dirs provider_file ;;
  if negb there then ret false
  else
    content <- Disk.open_read dirs provider_file ;;
    ret (provider_code content).

(** The loop over [cs_files] of [audit_foundry_fix], lines 95-110: whether
    it returned. *)
Fixpoint sanitizer_found (cs_files : list string) : M bool :=
  match cs_files with
  | [] => ret false
  | cs_file :: rest =>
    content <- Disk.open_read dirs cs_file ;;
    if (contains "CudaVersionFix" content || contains "SanitizeCudaVersion" content)%bool
    then ret true
    else sanitizer_found rest
  end.

(** [audit_foundry_fix()], lines 78-113. *)
Definition audit_foundry_fix : M bool :=
  there <- Disk.path_exists dirs "FoundryFix" ;;
  if negb there then ret true
  else
    cs_files <- (fun s => (Returns (glob "FoundryFix" "*.cs" s), s)) ;;
    match cs_files with
    | [] => ret false
    | _ =>
      found <- sanitizer_found cs_files ;;
      if found then ret true else ret true
    end.

(** [required_tests], lines 163-170. *)
Definition required_tests : list string :=
  [ "test_cuda_version_fix";
    "test_foundry_provider_availability";
    "test_foundry_local_force_cpu";
    "test_foundry_fix_dll";
    "test_config_foundry_option";
    "test_foundry_commands" ].

(** [audit_validation_script()], lines 151-179. *)
Definition audit_validation_script : M bool :=
  there <- Disk.path_exists dirs "foundry_validation.py" ;;
  if negb there then ret false
  else
    content <- Disk.open_read dirs "foundry_validation.py" ;;
    ret (forallb (fun test => contains test content) required_tests).

(** [cpu_indicators], lines 136-141. *)
Definition cpu_indicators : list string :=
  [ "CPUExecutionProvider"; "CUDA_VISIBLE_DEVICES"; "CPU"; "cpu" ].

(** The loop over [cs_files] of [audit_foundry_cpu_wrapper], lines 132-146:
    whether it returned. *)
Fixpoint indicators_found (cs_files : list string) : M bool :=
  match cs_files with
  | [] => ret false
  | cs_file :: rest =>
    content <- Disk.open_read dirs cs_file ;;
    let found_indicators := List.filter (fun ind => contains ind content) cpu_indicators in
    match found_indicators with
    | _ :: _ => ret true
    | [] => indicators_found rest
    end
  end.

(** [audit_foundry_cpu_wrapper()], lines 115-149. *)
Definition audit_foundry_cpu_wrapper : M bool :=
  there <- Disk.path_exists dirs "FoundryLocalForceCPU" ;;
  if negb there then ret false
  else
    cs_files <- (fun s => (Returns (glob "FoundryLocalForceCPU" "*.cs" s), s)) ;;
    match cs_files with
    | [] => ret false
    | _ =>
      found <- indicators_found cs_files ;;
      if found then ret true else ret true
    end.

(** [docs], lines 185-188. *)
Definition docs : list string := [ "FOUNDRY_INTEGRATION.md"; "BugBash.md" ].

(** The loop of [audit_documentation], lines 190-214: an existing document
    is read, and its sections are only reported. *)
Fixpoint documents_present (docs : list string) : M bool :=
  match docs with
  | [] => ret true
  | doc :: rest =>
    there <- Disk.path_exists dirs doc ;;
    if there then
      content <- Disk.open_read dirs doc ;;
      documents_present rest
    else ret false
  end.

(** [audit_documentation()], lines 181-216. *)
Definition audit_documentation : M bool := documents_present docs.

(** [audit_config_support()], lines 218-233. *)
Definition audit_config_support : M bool :=
  there <- Disk.path_exists dirs "config.ini" ;;
  if negb there then ret false
  else
    example_there <- Disk.path_exists dirs "config_foundry_example.ini" ;;
    ret true.

(** The status [main] computes from the audits, lines 253-275. *)
Definition exit_status_of (audits : list (string * bool)) : outcome Z :=
  let passed := length (List.filter snd audits) in
  let total := length audits in
  if (total =? 0)%nat then Raises Float.ZeroDivisionError
  else
    let success_rate := Float.percentage passed total in
    if Float.ge success_rate 80 then Returns 0%Z
    else if Float.ge success_rate 60 then Returns 0%Z
    else Returns 1%Z.

(** [main()], lines 235-275: the six audits run in the order of the
    dictionary. *)
Definition main : M Z :=
  provider <- audit_provider_code ;;
  foundry_fix <- audit_foundry_fix ;;
  cpu_wrapper <- audit_foundry_cpu_wrapper ;;
  validation <- audit_validation_script ;;
  documentation <- audit_documentation ;;
  config <- audit_config_support ;;
  let audits :=
    [ ("Provider Code Structure", provider);
      ("FoundryFix Implementation", foundry_fix);
      ("CPU Wrapper Implementation", cpu_wrapper);
      ("Validation Script", validation);
      ("Documentation", documentation);
      ("Configuration Support", config) ] in
  lift (exit_status_of audits).

End Audits.

End CodeAudit.

(** ** Proof steps *)

(** The cases of a launch, for the three [run_command] functions. *)
Ltac run_cases w cmd shell env s :=
  unfold FoundryValidation.run_command, AuditValidation.run_command,
    ComprehensiveTest.run_command, try_except, bind, ret, Subprocess.run, timed_out;
  simpl;
  destruct (w cmd shell (child_env env s)) as [?p|[?c ?t|?cls ?msg]]; simpl;
  try match goal with |- context [in_time ?t ?p] => destruct (in_time t p) eqn:?Hin end;
  simpl.


(** Evaluate the tests on the characters that are known. *)
Ltac known_chars :=
  repeat (progress (
    cbn [Json.skip_ws];
    repeat match goal with
    | |- context [Json.is_ws ?c] =>
      let b := eval vm_compute in (Json.is_ws c) in change (Json.is_ws c) with b
    | |- context [Ascii.eqb ?c ?d] =>
      let b := eval vm_compute in (Ascii.eqb c d) in change (Ascii.eqb c d) with b
    end;
    cbv iota beta)).

(* ===================================================================== *)
(** * Verified properties *)
(* ===================================================================== *)

(** ** Running commands *)

Section RunCommand.

Variable w : os_model.
Variables (cmd : command) (timeout : nat) (env : option nat) (s : state).

(** What [subprocess.run] does is decided by the launch alone. *)
Lemma run_spawn_fails shell e :
  w cmd shell (child_env env s) = SpawnFails e ->
  Subprocess.run w cmd shell timeout env s = (Raises e, s).
Proof. intros H. unfold Subprocess.run. now rewrite H. Qed.

Lemma run_in_time shell p :
  w cmd shell (child_env env s) = Spawned p ->
  in_time timeout p = true ->
  (Subprocess.run w cmd shell timeout env s).1 =
  Returns (CompletedProcess (exit_status p) (out_text p) (err_text p)).
Proof. intros H Ht. unfold Subprocess.run. now rewrite H, Ht. Qed.

Lemma run_too_long shell p :
  w cmd shell (child_env env s) = Spawned p ->
  in_time timeout p = false ->
  (Subprocess.run w cmd shell timeout env s).1 = Raises (TimeoutExpired cmd timeout).
Proof. intros H Ht. unfold Subprocess.run. now rewrite H, Ht. Qed.

(** The clock advances by at most the timeout, and the child that was
    launched is not among the running ones afterwards. *)
Lemma run_clock shell :
  clock (Subprocess.run w cmd shell timeout env s).2 <= clock s + timeout.
Proof.
  unfold Subprocess.run, in_time.
  destruct (w cmd shell (child_env env s)) as [p|e]; simpl; [|lia].
  destruct (duration p) as [d|]; simpl; [|lia].
  destruct (Nat.leb_spec d timeout); simpl; lia.
Qed.

Lemma run_children shell :
  children (Subprocess.run w cmd shell timeout env s).2 ⊆ children s.
Proof.
  unfold Subprocess.run.
  destruct (w cmd shell (child_env env s)) as [p|e]; simpl; [|done].
  destruct (in_time timeout p); simpl; set_solver.
Qed.

Lemma run_child_gone shell p :
  w cmd shell (child_env env s) = Spawned p ->
  next_pid s ∉ children (Subprocess.run w cmd shell timeout env s).2.
Proof.
  intros H. unfold Subprocess.run. rewrite H.
  destruct (in_time timeout p); simpl; set_solver.
Qed.

End RunCommand.

Lemma foundry_validation_contract :
  command_contract FoundryValidation.run_command is_str.
Proof.
  intros w cmd timeout env s launch result. subst launch result.
  run_cases w cmd (is_str cmd) env s;
    repeat split; eauto; intros; simplify_eq; congruence.
Qed.

Lemma audit_validation_contract :
  command_contract AuditValidation.run_command (fun _ => false).
Proof.
  intros w cmd timeout env s launch result. subst launch result.
  run_cases w cmd false env s;
    repeat split; eauto; intros; simplify_eq; congruence.
Qed.

Lemma comprehensive_test_contract :
  command_contract ComprehensiveTest.run_command (fun _ => false).
Proof.
  intros w cmd timeout env s launch result. subst launch result.
  run_cases w cmd false env s;
    repeat split; eauto; intros; simplify_eq; congruence.
Qed.

Lemma nothing_in_time_when_hanging timeout : in_time timeout (Process None 0 "" "") = false.
Proof. reflexivity. Qed.

Lemma foundry_validation_cannot_tell : cannot_tell FoundryValidation.run_command.
Proof. intros cmd timeout env s message. repeat split; eauto. Qed.

Lemma audit_validation_cannot_tell : cannot_tell AuditValidation.run_command.
Proof. intros cmd timeout env s message. repeat split; eauto. Qed.

Lemma comprehensive_test_cannot_tell : cannot_tell ComprehensiveTest.run_command.
Proof. intros cmd timeout env s message. repeat split; eauto. Qed.

(** C10. Each of the three [run_command] helpers always returns a
    [(returncode, stdout, stderr)] triple and never raises: the child's own
    triple when it exits in time, [(-1, "", "Command timed out")] on a
    timeout, and [(-1, "", str(e))] on any other launch failure, a missing
    executable included; so the triple of a timeout or of a missing
    executable is also the triple of a program that exited with status -1. *)
Theorem run_command_total :
  (command_contract FoundryValidation.run_command is_str
   /\ command_contract AuditValidation.run_command (fun _ => false)
   /\ command_contract ComprehensiveTest.run_command (fun _ => false))
  /\ (cannot_tell FoundryValidation.run_command
      /\ cannot_tell AuditValidation.run_command
      /\ cannot_tell ComprehensiveTest.run_command).
Proof.
  split; split_and!.
  - exact foundry_validation_contract.
  - exact audit_validation_contract.
  - exact comprehensive_test_contract.
  - exact foundry_validation_cannot_tell.
  - exact audit_validation_cannot_tell.
  - exact comprehensive_test_cannot_tell.
Qed.

Lemma run_command_state_fv w cmd timeout env s :
  (FoundryValidation.run_command w cmd timeout env s).2
  = (Subprocess.run w cmd (is_str cmd) timeout env s).2.
Proof.
  unfold FoundryValidation.run_command, try_except, bind, ret.
  destruct (Subprocess.run w cmd (is_str cmd) timeout env s) as [[r|[c t|cls m]] s']; reflexivity.
Qed.

Lemma run_command_state_av w cmd timeout env s :
  (AuditValidation.run_command w cmd timeout env s).2
  = (Subprocess.run w cmd false timeout env s).2.
Proof.
  unfold AuditValidation.run_command, try_except, bind, ret.
  destruct (Subprocess.run w cmd false timeout env s) as [[r|[c t|cls m]] s']; reflexivity.
Qed.

Lemma run_command_state_ct w cmd timeout env s :
  (ComprehensiveTest.run_command w cmd timeout env s).2
  = (Subprocess.run w cmd false timeout env s).2.
Proof. exact (run_command_state_av w cmd timeout env s). Qed.

Lemma run_too_long_clock w cmd shell timeout env s p :
  w cmd shell (child_env env s) = Spawned p ->
  in_time timeout p = false ->
  clock (Subprocess.run w cmd shell timeout env s).2 = clock s + timeout.
Proof. intros H Ht. unfold Subprocess.run. now rewrite H, Ht. Qed.

Lemma foundry_validation_bounded :
  bounded_by_timeout FoundryValidation.run_command is_str.
Proof.
  intros w cmd timeout env s result after. subst result after.
  rewrite run_command_state_fv. split_and!.
  - apply run_clock.
  - apply run_children.
  - intros p Hp Ht. split_and!.
    + now apply foundry_validation_contract with (p := p).
    + now apply run_too_long_clock with (p := p).
    + now apply run_child_gone with (p := p).
Qed.

Lemma audit_validation_bounded :
  bounded_by_timeout AuditValidation.run_command (fun _ => false).
Proof.
  intros w cmd timeout env s result after. subst result after.
  rewrite run_command_state_av. split_and!.
  - apply run_clock.
  - apply run_children.
  - intros p Hp Ht. split_and!.
    + now apply audit_validation_contract with (p := p).
    + now apply run_too_long_clock with (p := p).
    + now apply run_child_gone with (p := p).
Qed.

Lemma comprehensive_test_bounded :
  bounded_by_timeout ComprehensiveTest.run_command (fun _ => false).
Proof. exact audit_validation_bounded. Qed.

(** ** The caller's environment is left alone *)

Lemma run_dicts w cmd shell timeout env s :
  dicts (Subprocess.run w cmd shell timeout env s).2 = dicts s.
Proof.
  unfold Subprocess.run.
  destruct (w cmd shell (child_env env s)) as [p|e]; [|done].
  now destruct (in_time timeout p).
Qed.

Lemma run_environ w cmd shell timeout env s :
  environ (Subprocess.run w cmd shell timeout env s).2 = environ s.
Proof. unfold environ. now rewrite run_dicts. Qed.

Lemma environ_store_other l m s :
  l <> environ_loc -> environ (store l m s) = environ s.
Proof.
  intros Hl. unfold environ, store. simpl. now rewrite lookup_insert_ne.
Qed.

Lemma contents_store l m s : contents l (store l m s) = m.
Proof. unfold contents, store. simpl. now rewrite lookup_insert_eq. Qed.

Lemma environ_copy_spec s :
  exists s', environ_copy s = (Returns (S (next_loc s)), s')
    /\ environ s' = environ s
    /\ contents (S (next_loc s)) s' = environ s
    /\ clock s' = clock s /\ children s' = children s.
Proof.
  eexists. split; [reflexivity|]. split_and!; try reflexivity.
  - unfold environ. simpl. now rewrite lookup_insert_ne.
  - unfold contents. simpl. now rewrite lookup_insert_eq.
Qed.

Lemma dict_update_spec l items s :
  exists s', dict_update l items s = (Returns tt, s')
    /\ contents l s' = foldl (fun m kv => <[kv.1 := kv.2]> m) (contents l s) items
    /\ (l <> environ_loc -> environ s' = environ s)
    /\ clock s' = clock s /\ children s' = children s.
Proof.
  eexists. split; [reflexivity|]. split_and!; try reflexivity.
  - apply contents_store.
  - apply environ_store_other.
Qed.

(** The environment built for [foundry model ls]: a new dictionary, the
    caller's items under the four fixed ones. *)
Lemma fv_cpu_workaround_env_spec s :
  exists l s', FoundryValidation.cpu_workaround_env s = (Returns l, s')
    /\ l <> environ_loc
    /\ environ s' = environ s
    /\ contents l s' = negotiated_environment "12.0.0" (environ s)
    /\ clock s' = clock s /\ children s' = children s.
Proof.
  unfold FoundryValidation.cpu_workaround_env, bind.
  destruct (environ_copy_spec s) as (s1 & -> & He1 & Hc1 & Hk1 & Hh1).
  destruct (dict_update_spec (S (next_loc s)) FoundryValidation.cpu_workaround s1)
    as (s2 & -> & Hc2 & He2 & Hk2 & Hh2).
  exists (S (next_loc s)), s2. split; [reflexivity|]. split_and!.
  - discriminate.
  - rewrite He2 by discriminate. exact He1.
  - rewrite Hc2, Hc1. reflexivity.
  - congruence.
  - congruence.
Qed.

Lemma av_cpu_workaround_env_spec s :
  exists l s', AuditValidation.cpu_workaround_env s = (Returns l, s')
    /\ l <> environ_loc
    /\ environ s' = environ s
    /\ contents l s' = negotiated_environment "12.0.0" (environ s)
    /\ clock s' = clock s /\ children s' = children s.
Proof. exact (fv_cpu_workaround_env_spec s). Qed.

Lemma fv_run_command_spec w cmd timeout env s :
  exists tr s', FoundryValidation.run_command w cmd timeout env s = (Returns tr, s')
    /\ dicts s' = dicts s
    /\ clock s' <= clock s + timeout
    /\ children s' ⊆ children s
    /\ (forall p, w cmd (is_str cmd) (child_env env s) = Spawned p ->
          in_time timeout p = false -> tr = timed_out).
Proof.
  destruct (foundry_validation_contract w cmd timeout env s) as ([tr Htr] & _ & Hto & _).
  destruct (foundry_validation_bounded w cmd timeout env s) as (Hc & Hch & _).
  pose proof (run_command_state_fv w cmd timeout env s) as Hs.
  destruct (FoundryValidation.run_command w cmd timeout env s) as [r s'].
  simpl in *. subst r. exists tr, s'. split; [reflexivity|]. split_and!; try done.
  - rewrite Hs. apply run_dicts.
  - intros p Hp Ht. specialize (Hto p Hp Ht). now simplify_eq.
Qed.

Lemma av_run_command_spec w cmd timeout env s :
  exists tr s', AuditValidation.run_command w cmd timeout env s = (Returns tr, s')
    /\ dicts s' = dicts s
    /\ clock s' <= clock s + timeout
    /\ children s' ⊆ children s
    /\ (forall p, w cmd false (child_env env s) = Spawned p ->
          in_time timeout p = false -> tr = timed_out).
Proof.
  destruct (audit_validation_contract w cmd timeout env s) as ([tr Htr] & _ & Hto & _).
  destruct (audit_validation_bounded w cmd timeout env s) as (Hc & Hch & _).
  pose proof (run_command_state_av w cmd timeout env s) as Hs.
  destruct (AuditValidation.run_command w cmd timeout env s) as [r s'].
  simpl in *. subst r. exists tr, s'. split; [reflexivity|]. split_and!; try done.
  - rewrite Hs. apply run_dicts.
  - intros p Hp Ht. specialize (Hto p Hp Ht). now simplify_eq.
Qed.

Lemma environ_of_dicts s s' : dicts s' = dicts s -> environ s' = environ s.
Proof. unfold environ. now intros ->. Qed.

(** [test_foundry_commands]: it returns a verdict within forty seconds,
    [False] when [foundry --version] does not answer in time, and
    [os.environ] holds afterwards what it held before. *)
Lemma fv_test_foundry_commands_spec w s :
  exists b s', FoundryValidation.test_foundry_commands w s = (Returns b, s')
    /\ environ s' = environ s
    /\ clock s' <= clock s + 40
    /\ children s' ⊆ children s
    /\ (forall p, w (CmdList ["foundry"; "--version"]) false (environ s) = Spawned p ->
          in_time 10 p = false -> b = false).
Proof.
  unfold FoundryValidation.test_foundry_commands, bind.
  destruct (fv_run_command_spec w (CmdList ["foundry"; "--version"]) 10 None s)
    as ([[rc out] err] & s1 & -> & Hd1 & Hc1 & Hch1 & Hto1).
  destruct (Z.eqb_spec rc 0) as [->|Hrc].
  - destruct (fv_cpu_workaround_env_spec s1) as (l & s2 & -> & Hl & He2 & _ & Hc2 & Hch2).
    destruct (fv_run_command_spec w (CmdList ["foundry"; "model"; "ls"]) 30 (Some l) s2)
      as ([[rc' out'] err'] & s3 & -> & Hd3 & Hc3 & Hch3 & _).
    exists true, s3. split; [now destruct (rc' =? 0)%Z|]. split_and!.
    + rewrite (environ_of_dicts _ _ Hd3), He2. now apply environ_of_dicts.
    + lia.
    + set_solver.
    + intros p Hp Ht. specialize (Hto1 p Hp Ht). unfold timed_out in Hto1. simplify_eq.
  - exists false, s1. split; [reflexivity|]. split_and!; try done.
    + now apply environ_of_dicts.
    + lia.
Qed.

Lemma av_test_foundry_commands_spec w s :
  exists b s', AuditValidation.test_foundry_commands w s = (Returns b, s')
    /\ environ s' = environ s
    /\ clock s' <= clock s + 40
    /\ children s' ⊆ children s
    /\ (forall p, w (CmdList ["foundry"; "--version"]) false (environ s) = Spawned p ->
          in_time 10 p = false -> b = false).
Proof.
  unfold AuditValidation.test_foundry_commands, bind.
  destruct (av_run_command_spec w (CmdList ["foundry"; "--version"]) 10 None s)
    as ([[rc out] err] & s1 & -> & Hd1 & Hc1 & Hch1 & Hto1).
  destruct (Z.eqb_spec rc 0) as [->|Hrc].
  - destruct (av_cpu_workaround_env_spec s1) as (l & s2 & -> & Hl & He2 & _ & Hc2 & Hch2).
    destruct (av_run_command_spec w (CmdList ["foundry"; "model"; "ls"]) 30 (Some l) s2)
      as ([[rc' out'] err'] & s3 & -> & Hd3 & Hc3 & Hch3 & _).
    exists true, s3. split; [now destruct (rc' =? 0)%Z|]. split_and!.
    + rewrite (environ_of_dicts _ _ Hd3), He2. now apply environ_of_dicts.
    + lia.
    + set_solver.
    + intros p Hp Ht. specialize (Hto1 p Hp Ht). unfold timed_out in Hto1. simplify_eq.
  - exists false, s1. split; [reflexivity|]. split_and!; try done.
    + now apply environ_of_dicts.
    + lia.
Qed.

(** *** edge_case_test.py: saving, checking, restoring *)

Lemma save_original_spec s :
  EdgeCaseTest.save_original s =
  (Returns (map (fun var => (var, environ s !! var)) EdgeCaseTest.required_env_vars), s).
Proof. reflexivity. Qed.

(** Writing back what was read changes nothing. *)
Lemma restore_spec original s :
  (forall k v, (k, v) ∈ original -> environ s !! k = v) ->
  exists s', EdgeCaseTest.restore original s = (Returns tt, s')
    /\ environ s' = environ s
    /\ (forall l, l <> environ_loc -> contents l s' = contents l s)
    /\ clock s' = clock s /\ children s' = children s /\ files s' = files s.
Proof.
  unfold EdgeCaseTest.restore.
  revert s. induction original as [|[k v] original IH]; intros s Hread.
  - exists s. done.
  - assert (Hk : environ s !! k = v) by (apply Hread; left).
    simpl. unfold bind at 1.
    set (s1 := store environ_loc (environ s) s).
    assert (Hstep : (match v with
                     | None => environ_pop k
                     | Some value => environ_setitem k value
                     end) s = (Returns tt, s1)).
    { subst s1. destruct v as [x|]; simpl.
      - unfold environ_setitem. now rewrite insert_id.
      - unfold environ_pop. now rewrite delete_id. }
    rewrite Hstep.
    assert (He1 : environ s1 = environ s).
    { subst s1. unfold environ, store. simpl. now rewrite lookup_insert_eq. }
    destruct (IH s1) as (s' & Hrun & He & Hother & Hc & Hch & Hf).
    { intros k' v' Hin. rewrite He1. apply Hread. now right. }
    exists s'. split; [exact Hrun|]. split_and!.
    + congruence.
    + intros l Hl. rewrite (Hother l Hl). subst s1. unfold contents, store. simpl.
      now rewrite lookup_insert_ne.
    + now rewrite Hc.
    + now rewrite Hch.
    + now rewrite Hf.
Qed.

Lemma test_values_lookups (m : env_map) :
  let m' := foldl (fun m kv => <[kv.1 := kv.2]> m) m EdgeCaseTest.test_values in
  m' !! "FOUNDRY_EXECUTION_PROVIDER" = Some "CPUExecutionProvider"
  /\ m' !! "CUDA_VISIBLE_DEVICES" = Some "-1"
  /\ m' !! "FOUNDRY_SKIP_CUDA_CHECK" = Some "1"
  /\ m' !! "FOUNDRY_CUDA_VERSION_OVERRIDE" = Some "12.0.0"
  /\ m' !! "CUDA_VERSION" = Some "12.0.0".
Proof. cbn [foldl EdgeCaseTest.test_values fst snd]. split_and!; by simplify_map_eq. Qed.

Lemma check_test_env_spec l s :
  exists s', EdgeCaseTest.check_test_env l s = (Returns true, s')
    /\ contents l s' =
       <["CUDA_VERSION" := "12.0.0"]> (negotiated_environment "12.0.0" (contents l s))
    /\ (l <> environ_loc -> environ s' = environ s)
    /\ clock s' = clock s /\ children s' = children s.
Proof.
  unfold EdgeCaseTest.check_test_env. unfold bind at 1.
  destruct (dict_update_spec l EdgeCaseTest.test_values s)
    as (s1 & -> & Hc1 & He1 & Hk1 & Hh1).
  destruct (test_values_lookups (contents l s)) as (H1 & H2 & H3 & H4 & H5).
  cbv zeta in H1, H2, H3, H4, H5. rewrite <- Hc1 in H1, H2, H3, H4, H5.
  exists s1. split; [|split_and!; try done].
  cbn [fold_each EdgeCaseTest.required_env_vars]. unfold bind, dict_get, ret.
  rewrite H1, H2, H3, H4, H5. reflexivity.
Qed.

(** [test_environment_variable_handling]: it returns [True], the
    dictionary it fills is a new one, and [os.environ] holds afterwards what
    it held before. *)
Lemma test_environment_variable_handling_spec s :
  exists s', EdgeCaseTest.test_environment_variable_handling s = (Returns true, s')
    /\ environ s' = environ s
    /\ contents (S (next_loc s)) s' =
       <["CUDA_VERSION" := "12.0.0"]> (negotiated_environment "12.0.0" (environ s))
    /\ clock s' = clock s /\ children s' = children s.
Proof.
  unfold EdgeCaseTest.test_environment_variable_handling. unfold bind at 1.
  destruct (environ_copy_spec s) as (s1 & -> & He1 & Hc1 & Hk1 & Hh1).
  unfold bind. rewrite save_original_spec. unfold try_finally.
  destruct (check_test_env_spec (S (next_loc s)) s1) as (s2 & -> & Hc2 & He2 & Hk2 & Hh2).
  specialize (He2 ltac:(discriminate)).
  destruct (restore_spec
              (map (fun var => (var, environ s1 !! var)) EdgeCaseTest.required_env_vars) s2)
    as (s3 & -> & He3 & Hother & Hk3 & Hh3 & _).
  { intros k v Hin. apply list_elem_of_fmap in Hin as (var & Heq & _).
    simplify_eq. now rewrite He2. }
  exists s3. split; [reflexivity|]. split_and!; try congruence.
  rewrite Hother by discriminate. now rewrite Hc2, Hc1.
Qed.

(** ** The request artifact: [json.dump] then [json.load] *)

Module JsonFacts.

Import Obj Json.
Local Open Scope char_scope.
Local Open Scope list_scope.

(** *** Hexadecimal digits *)

Lemma hex_value_digit (k : N) : (k < 16)%N -> hex_value (hex_digit k) = Some k.
Proof.
  intros Hk.
  assert (H : In k [0; 1; 2; 3; 4; 5; 6; 7; 8; 9; 10; 11; 12; 13; 14; 15]%N).
  { cbn. lia. }
  cbn in H. repeat (destruct H as [<-|H]; [reflexivity|]). contradiction.
Qed.

Lemma hex_digits_number (n : N) :
  (n < 0x10000)%N ->
  (((n / 4096 mod 16 * 16 + n / 256 mod 16) * 16 + n / 16 mod 16) * 16 + n mod 16 = n)%N.
Proof.
  intros Hn.
  assert (H1 := N.div_mod n 16 ltac:(discriminate)).
  assert (H2 := N.div_mod (n / 16) 16 ltac:(discriminate)).
  assert (H3 := N.div_mod (n / 16 / 16) 16 ltac:(discriminate)).
  assert (H4 : (n / 16 / 16 / 16 < 16)%N).
  { do 3 apply N.Div0.div_lt_upper_bound. lia. }
  rewrite !N.Div0.div_div in *.
  change (16 * 16)%N with 256%N in *. change (256 * 16)%N with 4096%N in *.
  rewrite (N.mod_small (n / 4096) 16) by exact H4.
  assert (M1 := N.mod_lt n 16 ltac:(discriminate)).
  assert (M2 := N.mod_lt (n / 16) 16 ltac:(discriminate)).
  assert (M3 := N.mod_lt (n / 256) 16 ltac:(discriminate)).
  lia.
Qed.

Lemma hex4_value_hex4 (n : N) :
  (n < 0x10000)%N ->
  hex4_value (hex_digit (n / 4096 mod 16)) (hex_digit (n / 256 mod 16))
    (hex_digit (n / 16 mod 16)) (hex_digit (n mod 16)) = Some n.
Proof.
  intros Hn. unfold hex4_value.
  rewrite !hex_value_digit by (apply N.mod_lt; discriminate).
  f_equal. now apply hex_digits_number.
Qed.

(** *** Reading back one escaped character *)

(** One [\u] escape, read. *)
Lemma scan_u_escape (n : N) (r : list ascii) :
  (n < 0x10000)%N ->
  scan_string (u_escape n ++ r)
  = if Str.high_surrogate n then
      match r with
      | b :: u :: l1 :: l2 :: l3 :: l4 :: r3 =>
        if (Ascii.eqb b "\" && Ascii.eqb u "u")%bool then
          match hex4_value l1 l2 l3 l4 with
          | Some m =>
            if Str.low_surrogate m
            then cons_char (0x10000 + (n - 0xD800) * 1024 + (m - 0xDC00))%N (scan_string r3)
            else cons_char n (scan_string r)
          | None => None
          end
        else cons_char n (scan_string r)
      | _ => cons_char n (scan_string r)
      end
    else cons_char n (scan_string r).
Proof.
  intros Hn. unfold u_escape, hex4. cbn [app scan_string].
  change (Ascii.eqb "\" dq) with false. change (Ascii.eqb "\" "\") with true.
  change (simple_escape "u") with (@None N). change (Ascii.eqb "u" "u") with true.
  cbv iota. rewrite hex4_value_hex4 by exact Hn. reflexivity.
Qed.

(** A character written as itself. *)
Lemma scan_literal (c : N) (r : list ascii) :
  (32 <= c < 127)%N -> c <> 34%N -> c <> 92%N ->
  scan_string (ascii_of_N c :: r) = cons_char c (scan_string r).
Proof.
  intros Hc Hq Hb. cbn [scan_string].
  assert (Hback : N_of_ascii (ascii_of_N c) = c) by (apply N_ascii_embedding; lia).
  destruct (Ascii.eqb_spec (ascii_of_N c) dq) as [E|_].
  { rewrite E in Hback. cbn in Hback. lia. }
  destruct (Ascii.eqb_spec (ascii_of_N c) "\") as [E|_].
  { rewrite E in Hback. cbn in Hback. lia. }
  rewrite Hback. destruct (N.ltb_spec c 32); [lia|reflexivity].
Qed.

(** The surrogates of a code point from [0x10000] on. *)
Lemma surrogates_of (c : N) :
  (0x10000 <= c < 0x110000)%N ->
  let n := (c - 0x10000)%N in
  let high := (0xD800 + n / 1024 mod 1024)%N in
  let low := (0xDC00 + n mod 1024)%N in
  (high < 0x10000)%N /\ (low < 0x10000)%N
  /\ Str.high_surrogate high = true /\ Str.low_surrogate low = true
  /\ (0x10000 + (high - 0xD800) * 1024 + (low - 0xDC00))%N = c.
Proof.
  intros Hc. cbv zeta. remember (c - 0x10000)%N as n eqn:Hn.
  assert (M1 := N.mod_lt n 1024 ltac:(discriminate)).
  assert (M0 := N.le_0_l (n mod 1024)).
  assert (D := N.div_mod n 1024 ltac:(discriminate)).
  assert (Hsmall : (n / 1024 < 1024)%N).
  { apply N.Div0.div_lt_upper_bound. lia. }
  rewrite (N.mod_small (n / 1024) 1024) by exact Hsmall.
  unfold Str.high_surrogate, Str.low_surrogate.
  split_and!; try lia.
  - apply andb_true_iff. split; apply N.leb_le; lia.
  - apply andb_true_iff. split; apply N.leb_le; lia.
Qed.

(** A character that is no high surrogate is read back, whatever follows. *)
Lemma scan_escape_char (c : N) (r : list ascii) :
  (c < 0x110000)%N -> Str.high_surrogate c = false ->
  scan_string (escape_char c ++ r) = cons_char c (scan_string r).
Proof.
  intros Hc Hhigh. unfold escape_char.
  destruct (N.eqb_spec c 34) as [->|H34]; [reflexivity|].
  destruct (N.eqb_spec c 92) as [->|H92]; [reflexivity|].
  destruct (N.eqb_spec c 10) as [->|H10]; [reflexivity|].
  destruct (N.eqb_spec c 13) as [->|H13]; [reflexivity|].
  destruct (N.eqb_spec c 9) as [->|H9]; [reflexivity|].
  destruct (N.eqb_spec c 8) as [->|H8]; [reflexivity|].
  destruct (N.eqb_spec c 12) as [->|H12]; [reflexivity|].
  destruct (N.ltb_spec c 32) as [Hlow|Hge]; cbn [orb].
  - destruct (N.ltb_spec c 0x10000) as [_|Hbig]; [|lia].
    rewrite scan_u_escape by lia. now rewrite Hhigh.
  - destruct (N.ltb_spec 126 c) as [Hup|Hprint].
    + destruct (N.ltb_spec c 0x10000) as [Hbmp|Hastral].
      * rewrite scan_u_escape by lia. now rewrite Hhigh.
      * destruct (surrogates_of c ltac:(lia)) as (Hh & Hl & Hhs & Hls & Hjoin).
        cbv zeta in *. rewrite <- app_assoc. rewrite scan_u_escape by exact Hh.
        rewrite Hhs. unfold u_escape at 1, hex4. cbn [app].
        change (Ascii.eqb "\" "\" && Ascii.eqb "u" "u")%bool with true. cbv iota.
        rewrite hex4_value_hex4 by exact Hl. rewrite Hls, Hjoin. reflexivity.
    + cbn [app]. apply scan_literal; lia.
Qed.

(** A high surrogate is read back when no escape of a low one follows. *)
Lemma scan_high_surrogate (c : N) (r : list ascii) :
  (c < 0x110000)%N -> Str.high_surrogate c = true ->
  low_escape_ahead r = false ->
  scan_string (escape_char c ++ r) = cons_char c (scan_string r).
Proof.
  intros Hc Hhigh Hahead.
  assert (Hrange : (0xD800 <= c <= 0xDBFF)%N).
  { unfold Str.high_surrogate in Hhigh. apply andb_true_iff in Hhigh as [H1 H2].
    apply N.leb_le in H1, H2. lia. }
  unfold escape_char.
  repeat match goal with
         | |- context [(c =? ?k)%N] => destruct (N.eqb_spec c k); [lia|]
         end.
  destruct (N.ltb_spec c 32); [lia|]. destruct (N.ltb_spec 126 c); [|lia].
  destruct (N.ltb_spec c 0x10000); [|lia]. cbn [orb].
  rewrite scan_u_escape by lia. rewrite Hhigh.
  unfold low_escape_ahead in Hahead.
  destruct r as [|b [|u [|l1 [|l2 [|l3 [|l4 r3]]]]]]; try reflexivity.
  destruct (Ascii.eqb b "\" && Ascii.eqb u "u")%bool; [|reflexivity].
  cbn [andb] in Hahead. destruct (hex4_value l1 l2 l3 l4) as [m|]; [|discriminate].
  now rewrite Hahead.
Qed.

(** After a character that is no low surrogate, no escape of one is ahead. *)
Lemma low_escape_ahead_char (d : N) (tail : list ascii) :
  (d < 0x110000)%N -> Str.low_surrogate d = false ->
  low_escape_ahead (escape_char d ++ tail) = false.
Proof.
  intros Hd Hlow. unfold escape_char.
  assert (Hshort : forall x : ascii, Ascii.eqb x "u" = false ->
            low_escape_ahead ("\" :: x :: tail) = false).
  { intros x Hx. unfold low_escape_ahead.
    destruct tail as [|? [|? [|? [|? ?]]]]; try reflexivity.
    now rewrite Hx, andb_false_r. }
  destruct (N.eqb_spec d 34) as [->|H34]; [now apply Hshort|].
  destruct (N.eqb_spec d 92) as [->|H92]; [now apply Hshort|].
  destruct (N.eqb_spec d 10) as [->|H10]; [now apply Hshort|].
  destruct (N.eqb_spec d 13) as [->|H13]; [now apply Hshort|].
  destruct (N.eqb_spec d 9) as [->|H9]; [now apply Hshort|].
  destruct (N.eqb_spec d 8) as [->|H8]; [now apply Hshort|].
  destruct (N.eqb_spec d 12) as [->|H12]; [now apply Hshort|].
  assert (Hu : forall (n : N) (rest : list ascii),
            (n < 0x10000)%N -> Str.low_surrogate n = false ->
            low_escape_ahead (u_escape n ++ rest) = false).
  { intros n rest Hn Hnl. unfold u_escape, hex4, low_escape_ahead. cbn [app].
    rewrite hex4_value_hex4 by exact Hn. rewrite Hnl. reflexivity. }
  destruct ((d <? 32) || (126 <? d))%N eqn:Hesc.
  - destruct (N.ltb_spec d 0x10000) as [Hbmp|Hastral].
    + now apply Hu.
    + destruct (surrogates_of d ltac:(lia)) as (Hh & _ & Hhs & _).
      cbv zeta in *. rewrite <- app_assoc. apply Hu; [exact Hh|].
      unfold Str.high_surrogate in Hhs. unfold Str.low_surrogate.
      apply andb_true_iff in Hhs as [H1 H2]. apply N.leb_le in H1, H2.
      apply andb_false_iff. left. apply N.leb_gt. lia.
  - apply orb_false_iff in Hesc as [H32 H126].
    apply N.ltb_ge in H32, H126. cbn [app]. unfold low_escape_ahead.
    destruct tail as [|? [|? [|? [|? [|? ?]]]]]; try reflexivity.
    assert (Hback : N_of_ascii (ascii_of_N d) = d) by (apply N_ascii_embedding; lia).
    destruct (Ascii.eqb_spec (ascii_of_N d) "\") as [E|_]; [|reflexivity].
    rewrite E in Hback. cbn in Hback. lia.
Qed.

Lemma low_escape_ahead_quote (r : list ascii) : low_escape_ahead (dq :: r) = false.
Proof.
  unfold low_escape_ahead. now destruct r as [|? [|? [|? [|? [|? ?]]]]].
Qed.

(** Reading back an escaped string up to its closing quote: the string
    itself, when it is made of code points and no high surrogate of it
    stands directly before a low one. *)
Lemma scan_escape (s : Str.str) (r : list ascii) :
  Str.well_formed s = true -> Str.has_surrogate_pair s = false ->
  scan_string (escape s ++ dq :: r) = Some (s, r).
Proof.
  induction s as [|c s IH]; intros Hwf Hpair; [reflexivity|].
  cbn [Str.well_formed forallb] in Hwf. apply andb_true_iff in Hwf as [Hc Hwf].
  apply N.ltb_lt in Hc. fold (Str.well_formed s) in Hwf.
  assert (Hrest : Str.has_surrogate_pair s = false
                  /\ (Str.high_surrogate c = true ->
                      low_escape_ahead (escape s ++ dq :: r) = false)).
  { destruct s as [|d s']; [split; [reflexivity|]; intros _; apply low_escape_ahead_quote|].
    cbn [Str.has_surrogate_pair] in Hpair. apply orb_false_iff in Hpair as [Hcd Hpair].
    split; [exact Hpair|]. intros Hhigh. rewrite Hhigh in Hcd. cbn [andb] in Hcd.
    cbn [escape]. rewrite <- app_assoc. apply low_escape_ahead_char; [|exact Hcd].
    cbn [Str.well_formed forallb] in Hwf. apply andb_true_iff in Hwf as [Hd _].
    now apply N.ltb_lt in Hd. }
  destruct Hrest as [Hpair' Hahead].
  cbn [escape]. rewrite <- app_assoc.
  destruct (Str.high_surrogate c) eqn:Hhigh.
  - rewrite scan_high_surrogate by auto. now rewrite IH.
  - rewrite scan_escape_char by auto. now rewrite IH.
Qed.

End JsonFacts.


Module RequestFacts.

Import Obj Json.
Local Open Scope char_scope.
Local Open Scope list_scope.

(** *** Writing a request *)

Lemma dumps_str (limit : nat) (s : Str.str) :
  dumps limit (PyStr s) = Returns (encode_string s).
Proof. now destruct limit. Qed.

Lemma dumps_list (inner : nat) (items : list object) :
  dumps (S inner) (PyList items)
  = (parts <-? Outcome.each (dumps inner) items ;;
     Returns ("[" :: join [","; " "] parts ++ ["]"])).
Proof. reflexivity. Qed.

Lemma dumps_dict (inner : nat) (items : list (key * object)) :
  dumps (S inner) (PyDict items)
  = (parts <-? Outcome.each
                 (fun kv =>
                    k <-? key_text kv.1 ;;
                    x <-? dumps inner kv.2 ;;
                    Returns (encode_string k ++ [":"; " "] ++ x))
                 items ;;
     Returns ("{" :: join [","; " "] parts ++ ["}"])).
Proof. reflexivity. Qed.

Lemma dumps_turn (inner : nat) (t : turn) :
  dumps (S inner) (turn_value t) = Returns (turn_text t).
Proof.
  unfold turn_value, turn_text. rewrite dumps_dict. cbn [Outcome.each key_text fst snd].
  rewrite !dumps_str. cbn [Outcome.and_then join].
  f_equal. unfold encode_string. cbn [list_ascii_of_string app].
  repeat (rewrite <- ?app_assoc; cbn [app]). reflexivity.
Qed.

Lemma dumps_turns (inner : nat) (turns : list turn) :
  Outcome.each (dumps (S inner)) (map turn_value turns) = Returns (map turn_text turns).
Proof.
  induction turns as [|t turns IH]; [reflexivity|].
  cbn [map Outcome.each]. rewrite dumps_turn. cbn [Outcome.and_then]. now rewrite IH.
Qed.

(** [json.dump] writes a request as the artifact format has it, when the
    interpreter accepts three containers one inside the other. *)
Lemma dumps_request (limit : nat) (turns : list turn) :
  3 <= limit -> dumps limit (request_value turns) = Returns (request_chars turns).
Proof.
  intros Hlimit. do 3 (destruct limit as [|limit]; [lia|]).
  unfold request_value, request_chars.
  rewrite dumps_dict. cbn [Outcome.each key_text fst snd].
  rewrite dumps_list, dumps_turns. cbn [Outcome.and_then join]. f_equal.
  unfold encode_string. cbn [list_ascii_of_string app].
  repeat (rewrite <- ?app_assoc; cbn [app]). reflexivity.
Qed.

(** With fewer, it raises. *)
Lemma dumps_request_too_deep (limit : nat) (t : turn) (turns : list turn) :
  limit < 3 -> dumps limit (request_value (t :: turns)) = Raises RecursionError.
Proof.
  intros Hlimit. destruct limit as [|[|[|limit]]]; try lia; reflexivity.
Qed.

(** *** Reading a request back *)

Lemma parse_value_quote (fuel depth : nat) (r : list ascii) :
  parse_value (S fuel) depth (dq :: r) =
  match scan_string r with
  | Some (t, rest) => Returns (PyStr t, rest)
  | None => Raises JSONDecodeError
  end.
Proof. reflexivity. Qed.

Lemma parse_value_object (fuel inner : nat) (r : list ascii) :
  parse_value (S fuel) (S inner) ("{" :: dq :: r) =
  match parse_members fuel inner (dq :: r) with
  | Returns (pairs, rest) => Returns (PyDict (dict_of_pairs pairs), rest)
  | Raises e => Raises e
  end.
Proof. reflexivity. Qed.

Lemma parse_value_array (fuel inner : nat) (r : list ascii) :
  parse_value (S fuel) (S inner) ("[" :: "{" :: r) =
  match parse_elements fuel inner ("{" :: r) with
  | Returns (items, rest) => Returns (PyList items, rest)
  | Raises e => Raises e
  end.
Proof. reflexivity. Qed.

Lemma parse_value_empty_array (fuel inner : nat) (r : list ascii) :
  parse_value (S fuel) (S inner) ("[" :: "]" :: r) = Returns (PyList [], r).
Proof. reflexivity. Qed.

(** A container met where the interpreter accepts no further one. *)
Lemma parse_value_too_deep (fuel : nat) (c : ascii) (r : list ascii) :
  c = "{" \/ c = "[" -> parse_value (S fuel) 0 (c :: r) = Raises RecursionError.
Proof. now intros [-> | ->]. Qed.

Lemma parse_elements_step (fuel depth : nat) (s : list ascii) :
  parse_elements (S fuel) depth s =
  match parse_value fuel depth s with
  | Returns (v, r) =>
    match skip_ws r with
    | c :: r' =>
      if Ascii.eqb c "," then
        match parse_elements fuel depth (skip_ws r') with
        | Returns (items, rest) => Returns (v :: items, rest)
        | Raises e => Raises e
        end
      else if Ascii.eqb c "]" then Returns ([v], r')
      else Raises JSONDecodeError
    | [] => Raises JSONDecodeError
    end
  | Raises e => Raises e
  end.
Proof. reflexivity. Qed.

Lemma parse_members_step (fuel depth : nat) (r : list ascii) :
  parse_members (S fuel) depth (dq :: r) =
  match scan_string r with
  | Some (k, r1) =>
    match skip_ws r1 with
    | c1 :: r2 =>
      if Ascii.eqb c1 ":" then
        match parse_value fuel depth (skip_ws r2) with
        | Returns (v, r3) =>
          match skip_ws r3 with
          | c3 :: r4 =>
            if Ascii.eqb c3 "," then
              match parse_members fuel depth (skip_ws r4) with
              | Returns (pairs, rest) => Returns ((KeyStr k, v) :: pairs, rest)
              | Raises e => Raises e
              end
            else if Ascii.eqb c3 "}" then Returns ([(KeyStr k, v)], r4)
            else Raises JSONDecodeError
          | [] => Raises JSONDecodeError
          end
        | Raises e => Raises e
        end
      else Raises JSONDecodeError
    | [] => Raises JSONDecodeError
    end
  | None => Raises JSONDecodeError
  end.
Proof. reflexivity. Qed.

(** Strings that are read back as they were written. *)
Lemma scan_readable (s : Str.str) (r : list ascii) :
  Str.readable s = true -> scan_string (escape s ++ dq :: r) = Some (s, r).
Proof.
  unfold Str.readable. intros H. apply andb_true_iff in H as [Hwf Hpair].
  apply negb_true_iff in Hpair. now apply JsonFacts.scan_escape.
Qed.

(** A member whose value is a string, followed by another member. *)
Lemma parse_member_more (fuel depth : nat) (k s : Str.str) (r : list ascii) :
  Str.readable k = true -> Str.readable s = true ->
  parse_members (S (S fuel)) depth
    (dq :: escape k ++ dq :: ":" :: " " :: dq :: escape s ++ dq :: "," :: " " :: dq :: r) =
  match parse_members (S fuel) depth (dq :: r) with
  | Returns (pairs, rest) => Returns ((KeyStr k, PyStr s) :: pairs, rest)
  | Raises e => Raises e
  end.
Proof.
  intros Hk Hs. rewrite parse_members_step, scan_readable by exact Hk. known_chars.
  rewrite parse_value_quote, scan_readable by exact Hs. known_chars.
  reflexivity.
Qed.

(** A member whose value is a string, the last of its object. *)
Lemma parse_member_last (fuel depth : nat) (k s : Str.str) (r : list ascii) :
  Str.readable k = true -> Str.readable s = true ->
  parse_members (S (S fuel)) depth
    (dq :: escape k ++ dq :: ":" :: " " :: dq :: escape s ++ dq :: "}" :: r) =
  Returns ([(KeyStr k, PyStr s)], r).
Proof.
  intros Hk Hs. rewrite parse_members_step, scan_readable by exact Hk. known_chars.
  rewrite parse_value_quote, scan_readable by exact Hs. known_chars.
  reflexivity.
Qed.

Lemma plain_turn_readable (t : turn) :
  plain_turn t = true -> Str.readable (role t) = true /\ Str.readable (content t) = true.
Proof. unfold plain_turn. intros H. now apply andb_true_iff in H. Qed.

(** The text of a turn, written out. *)
Lemma turn_text_chars (t : turn) (r : list ascii) :
  turn_text t ++ r =
  "{" :: dq :: escape (Str.lit "role"%string) ++ dq :: ":" :: " " :: dq ::
    escape (role t) ++ dq :: "," :: " " ::
    dq :: escape (Str.lit "content"%string) ++ dq :: ":" :: " " :: dq ::
    escape (content t) ++ dq :: "}" :: r.
Proof.
  unfold turn_text, encode_string. cbn [list_ascii_of_string app].
  repeat (rewrite <- ?app_assoc; cbn [app]). reflexivity.
Qed.

(** A turn is read back as it was written. *)
Lemma parse_turn (fuel inner : nat) (t : turn) (r : list ascii) :
  plain_turn t = true ->
  parse_value (S (S (S (S fuel)))) (S inner) (turn_text t ++ r) = Returns (turn_value t, r).
Proof.
  intros Hplain. destruct (plain_turn_readable t Hplain) as [Hrole Hcontent].
  rewrite turn_text_chars, parse_value_object.
  rewrite parse_member_more by (try exact Hrole; reflexivity).
  rewrite parse_member_last by (try exact Hcontent; reflexivity).
  reflexivity.
Qed.

Lemma turns_text_more (t t' : turn) (turns : list turn) (r : list ascii) :
  turns_text (t :: t' :: turns) ++ r
  = turn_text t ++ "," :: " " :: turns_text (t' :: turns) ++ r.
Proof.
  unfold turns_text. cbn [map join]. now rewrite <- !app_assoc.
Qed.

Lemma turn_starts_with_brace (t : turn) (r : list ascii) :
  exists tail, turn_text t ++ r = "{" :: tail.
Proof. rewrite turn_text_chars. eauto. Qed.

Lemma turns_text_starts_with_brace (t : turn) (turns : list turn) (r : list ascii) :
  exists tail, turns_text (t :: turns) ++ r = "{" :: tail.
Proof.
  destruct turns as [|t' turns].
  - apply turn_starts_with_brace.
  - rewrite turns_text_more. apply turn_starts_with_brace.
Qed.

(** The turns of a request are read back in their order. *)
Lemma parse_turns (turns : list turn) :
  forall (t : turn) (fuel inner : nat) (r : list ascii),
    forallb plain_turn (t :: turns) = true ->
    length turns + 4 <= fuel ->
    parse_elements (S fuel) (S inner) (turns_text (t :: turns) ++ "]" :: r)
    = Returns (map turn_value (t :: turns), r).
Proof.
  induction turns as [|t' turns IH]; intros t fuel inner r Hplain Hfuel;
    cbn [forallb] in Hplain; apply andb_true_iff in Hplain as [Ht Hrest].
  - do 4 (destruct fuel as [|fuel]; [simpl in Hfuel; lia|]).
    unfold turns_text. cbn [map join].
    rewrite parse_elements_step, parse_turn by exact Ht. known_chars.
    reflexivity.
  - do 5 (destruct fuel as [|fuel]; [simpl in Hfuel; lia|]).
    rewrite parse_elements_step, turns_text_more, parse_turn by exact Ht. known_chars.
    destruct (turns_text_starts_with_brace t' turns ("]" :: r)) as [tail Htail].
    rewrite Htail. known_chars. rewrite <- Htail.
    rewrite IH by (try exact Hrest; simpl in Hfuel; lia). reflexivity.
Qed.

(** The text of a request, written out. *)
Lemma request_chars_empty (r : list ascii) :
  request_chars [] ++ r
  = "{" :: dq :: escape (Str.lit "messages"%string) ++ dq :: ":" :: " " :: "[" :: "]" :: "}" :: r.
Proof.
  unfold request_chars, encode_string. cbn [map join list_ascii_of_string app].
  repeat (rewrite <- ?app_assoc; cbn [app]). reflexivity.
Qed.

Lemma request_chars_turns (t : turn) (turns : list turn) (r : list ascii) :
  request_chars (t :: turns) ++ r
  = "{" :: dq :: escape (Str.lit "messages"%string) ++ dq :: ":" :: " " :: "[" ::
      (turns_text (t :: turns) ++ "]" :: "}" :: r).
Proof.
  unfold request_chars, encode_string, turns_text. cbn [list_ascii_of_string app].
  repeat (rewrite <- ?app_assoc; cbn [app]). reflexivity.
Qed.

(** A request is read back as it was written, given fuel for its turns and
    room for its three levels of nesting. *)
Lemma parse_request (turns : list turn) (fuel limit : nat) (r : list ascii) :
  forallb plain_turn turns = true ->
  length turns + 6 <= fuel -> 3 <= limit ->
  parse_value (S fuel) limit (request_chars turns ++ r) = Returns (request_value turns, r).
Proof.
  intros Hplain Hfuel Hlimit.
  do 3 (destruct limit as [|limit]; [lia|]).
  destruct turns as [|t turns].
  - do 2 (destruct fuel as [|fuel]; [simpl in Hfuel; lia|]).
    rewrite request_chars_empty, parse_value_object, parse_members_step,
      scan_readable by reflexivity.
    known_chars. rewrite parse_value_empty_array. known_chars. reflexivity.
  - do 3 (destruct fuel as [|fuel]; [simpl in Hfuel; lia|]).
    rewrite request_chars_turns, parse_value_object, parse_members_step,
      scan_readable by reflexivity.
    known_chars.
    destruct (turns_text_starts_with_brace t turns ("]" :: "}" :: r)) as [tail Htail].
    rewrite Htail, parse_value_array, <- Htail.
    rewrite parse_turns by (try exact Hplain; simpl in Hfuel; lia).
    known_chars. reflexivity.
Qed.

(** The text of a request is longer than the fuel its turns need. *)
Lemma turn_text_length (t : turn) : 1 <= length (turn_text t).
Proof.
  destruct (turn_starts_with_brace t []) as [tail H].
  rewrite app_nil_r in H. rewrite H. simpl. lia.
Qed.

Lemma turns_text_length (turns : list turn) (t : turn) :
  S (length turns) <= length (turns_text (t :: turns)).
Proof.
  revert t. induction turns as [|t' turns IH]; intros t.
  - apply turn_text_length.
  - pose proof (turns_text_more t t' turns []) as H. rewrite !app_nil_r in H.
    rewrite H, length_app. simpl. specialize (IH t'). lia.
Qed.

Lemma request_chars_length (turns : list turn) :
  length turns + 6 <= length (request_chars turns).
Proof.
  destruct turns as [|t turns].
  - vm_compute. lia.
  - pose proof (request_chars_turns t turns []) as H. rewrite app_nil_r in H.
    rewrite H. repeat (progress (cbn [length]; rewrite ?length_app)).
    pose proof (turns_text_length turns t). lia.
Qed.

Lemma request_chars_starts_with_brace (turns : list turn) :
  exists tail, request_chars turns = "{" :: tail.
Proof.
  destruct turns as [|t turns].
  - pose proof (request_chars_empty []) as H. rewrite app_nil_r in H. eauto.
  - pose proof (request_chars_turns t turns []) as H. rewrite app_nil_r in H. eauto.
Qed.

(** [json.loads] of the text of a request is the request. *)
Lemma loads_request (limit : nat) (turns : list turn) :
  forallb plain_turn turns = true -> 3 <= limit ->
  json_loads limit (request_text turns) = Returns (request_value turns).
Proof.
  intros Hplain Hlimit. unfold json_loads, request_text.
  rewrite list_ascii_of_string_of_list_ascii.
  destruct (request_chars_starts_with_brace turns) as [tail Htail].
  assert (skip_ws (request_chars turns) = request_chars turns) as ->
    by (rewrite Htail; reflexivity).
  pose proof (parse_request turns (length (request_chars turns)) limit [] Hplain
                (request_chars_length turns) Hlimit) as H.
  rewrite app_nil_r in H. rewrite H. reflexivity.
Qed.

(** The request is read off the Python object that stands for it. *)
Lemma value_request_of_turns (turns : list turn) :
  value_request (request_value turns) = Some turns.
Proof.
  unfold value_request, request_value.
  assert (Str.eqb (Str.lit "messages"%string) (Str.lit "messages"%string) = true) as ->
    by (vm_compute; reflexivity).
  induction turns as [|[r c] turns IH]; [reflexivity|].
  cbn [map mapM]. rewrite IH. reflexivity.
Qed.

End RequestFacts.

(** ** The Version Sanitizer *)

Module SanitizerFacts.

Import Sanitizer.

Lemma string_app_cons (x : ascii) (a b : string) :
  String x a +:+ b = String x (a +:+ b).
Proof. reflexivity. Qed.

Lemma string_app_nil_l (a : string) : "" +:+ a = a.
Proof. reflexivity. Qed.

Lemma string_app_assoc (a b c : string) : (a +:+ b) +:+ c = a +:+ (b +:+ c).
Proof.
  induction a as [|x a IH]; [reflexivity|].
  rewrite !string_app_cons. now f_equal.
Qed.

Lemma all_digits_app (a b : string) :
  all_digits (a +:+ b) = (all_digits a && all_digits b)%bool.
Proof.
  induction a as [|x a IH]; [reflexivity|].
  rewrite string_app_cons. cbn [all_digits]. rewrite IH. now rewrite andb_assoc.
Qed.

Lemma digit_group_snoc (a : string) (c : ascii) :
  all_digits a = true -> is_digit c = true ->
  digit_group (a +:+ String c EmptyString) = true.
Proof.
  intros Ha Hc.
  assert (H : all_digits (a +:+ String c EmptyString) = true).
  { rewrite all_digits_app, Ha. simpl. now rewrite Hc. }
  destruct a as [|x a]; [exact H|]. rewrite string_app_cons in *. exact H.
Qed.

Lemma digit_group_all_digits (a : string) : digit_group a = true -> all_digits a = true.
Proof. now destruct a. Qed.

Lemma class_eqb_eq (a b : char_class) : class_eqb a b = true <-> a = b.
Proof. destruct a, b; simpl; split; congruence. Qed.

Lemma is_digit_classify (c : ascii) : is_digit c = true <-> classify c = Digit.
Proof. unfold is_digit. destruct (classify c); split; congruence. Qed.

(** Every token of digits is a digit group. *)
Lemma tokens_from_well_formed (s : string) :
  forall current : option token,
    (forall t, current = Some t -> well_formed t) ->
    Forall well_formed (tokens_from current s).
Proof.
  induction s as [|c r IH]; intros current Hcur; simpl.
  - destruct current as [t|]; [|constructor].
    constructor; [now apply Hcur|constructor].
  - assert (Hnew : well_formed (Token (classify c) (String c EmptyString))).
    { intros Hd. simpl in *. apply is_digit_classify in Hd. now rewrite Hd. }
    destruct current as [t|].
    + destruct (class_eqb (cls t) (classify c)) eqn:Hsame.
      * apply IH. intros t' [= <-]. intros Hd. simpl in *.
        apply class_eqb_eq in Hsame.
        apply digit_group_snoc.
        -- apply digit_group_all_digits. now apply (Hcur t).
        -- apply is_digit_classify. congruence.
      * constructor; [now apply Hcur|].
        apply IH. now intros t' [= <-].
    + apply IH. now intros t' [= <-].
Qed.

Lemma digit_groups_are_groups (s : string) :
  Forall (fun g => digit_group g = true)
         (digit_groups (strip_whitespace (tokens s))).
Proof.
  unfold digit_groups, strip_whitespace, tokens.
  pose proof (tokens_from_well_formed s None ltac:(discriminate)) as H.
  induction H as [|t ts Ht _ IH]; simpl; [constructor|].
  destruct (class_eqb (cls t) Space) eqn:Hs; simpl; [exact IH|].
  destruct (class_eqb (cls t) Digit) eqn:Hd; simpl; [|exact IH].
  constructor; [|exact IH]. apply Ht. now apply class_eqb_eq.
Qed.

(** Without a digit there is no token of digits. *)
Lemma tokens_from_no_digit (s : string) :
  has_digit s = false ->
  forall current : option token,
    (forall t, current = Some t -> cls t <> Digit) ->
    Forall (fun t => cls t <> Digit) (tokens_from current s).
Proof.
  induction s as [|c r IH]; intros Hs current Hcur; simpl.
  - destruct current as [t|]; [|constructor].
    constructor; [now apply Hcur|constructor].
  - simpl in Hs. apply orb_false_iff in Hs as [Hc Hr].
    assert (Hnew : classify c <> Digit).
    { intros Hd. apply is_digit_classify in Hd. congruence. }
    destruct current as [t|].
    + destruct (class_eqb (cls t) (classify c)) eqn:Hsame.
      * apply IH; [exact Hr|]. intros t' [= <-]. simpl. now apply (Hcur t).
      * constructor; [now apply Hcur|].
        apply IH; [exact Hr|]. now intros t' [= <-].
    + apply IH; [exact Hr|]. now intros t' [= <-].
Qed.

Lemma no_digit_no_group (s : string) :
  has_digit s = false -> digit_groups (strip_whitespace (tokens s)) = [].
Proof.
  intros Hs. unfold digit_groups, strip_whitespace, tokens.
  pose proof (tokens_from_no_digit s Hs None ltac:(discriminate)) as H.
  induction H as [|t ts Ht _ IH]; simpl; [reflexivity|].
  destruct (class_eqb (cls t) Space) eqn:Hsp; simpl; [exact IH|].
  destruct (class_eqb (cls t) Digit) eqn:Hd; simpl; [|exact IH].
  apply class_eqb_eq in Hd. contradiction.
Qed.

Lemma string_app_nil_r (a : string) : a +:+ "" = a.
Proof.
  induction a as [|x a IH]; [reflexivity|].
  rewrite string_app_cons. now f_equal.
Qed.

Lemma digit_is_no_dot (c : ascii) :
  is_digit c = true -> (nat_of_ascii c =? 46)%nat = false.
Proof. destruct c as [[] [] [] [] [] [] [] []]; try discriminate; reflexivity. Qed.

(** Splitting at dots passes over a run of digits. *)
Lemma split_dots_digits (a : string) :
  forall current rest : string,
    all_digits a = true ->
    split_dots current (a +:+ rest) = split_dots (current +:+ a) rest.
Proof.
  induction a as [|x a IH]; intros current rest Ha.
  - now rewrite string_app_nil_l, string_app_nil_r.
  - cbn [all_digits] in Ha. apply andb_true_iff in Ha as [Hx Ha].
    rewrite string_app_cons. cbn [split_dots]. rewrite (digit_is_no_dot x Hx).
    rewrite IH by exact Ha. now rewrite string_app_assoc.
Qed.

Lemma split_dots_version (a b c : string) :
  all_digits a = true -> all_digits b = true -> all_digits c = true ->
  split_dots EmptyString (a +:+ "." +:+ b +:+ "." +:+ c) = [a; b; c].
Proof.
  intros Ha Hb Hc.
  rewrite (split_dots_digits a) by exact Ha. rewrite string_app_nil_l.
  rewrite string_app_cons. cbn [split_dots]. change (nat_of_ascii "." =? 46)%nat with true.
  cbv iota. rewrite string_app_nil_l.
  rewrite (split_dots_digits b) by exact Hb. rewrite string_app_nil_l.
  rewrite string_app_cons. cbn [split_dots]. change (nat_of_ascii "." =? 46)%nat with true.
  cbv iota. rewrite string_app_nil_l.
  rewrite <- (string_app_nil_r c) at 1.
  rewrite (split_dots_digits c) by exact Hc. now rewrite string_app_nil_l.
Qed.

Lemma number_from_digits (a : string) :
  forall acc : N, all_digits a = true -> exists n, number_from acc a = Some n.
Proof.
  induction a as [|x a IH]; intros acc Ha; simpl.
  - eauto.
  - cbn [all_digits] in Ha. apply andb_true_iff in Ha as [Hx Ha].
    rewrite Hx. now apply IH.
Qed.

Lemma number_of_group (a : string) :
  digit_group a = true -> exists n, number a = Some n.
Proof.
  destruct a as [|x a]; [discriminate|]. intros Ha.
  unfold number. now apply number_from_digits.
Qed.

(** Three digit groups joined by dots read back as a version. *)
Lemma parse_composed (a b c : string) :
  digit_group a = true -> digit_group b = true -> digit_group c = true ->
  exists major minor patch,
    parse_version (a +:+ "." +:+ b +:+ "." +:+ c) = Some (major, minor, patch).
Proof.
  intros Ha Hb Hc. unfold parse_version.
  rewrite split_dots_version by now apply digit_group_all_digits.
  destruct (number_of_group a Ha) as [x ->].
  destruct (number_of_group b Hb) as [y ->].
  destruct (number_of_group c Hc) as [z ->].
  eauto.
Qed.

Lemma nth_group (groups : list string) (i : nat) :
  Forall (fun g => digit_group g = true) groups ->
  digit_group (nth i groups "0") = true.
Proof.
  intros H. revert i. induction H as [|g groups Hg _ IH]; intros [|i]; simpl; auto.
Qed.

(** The sanitizer's result always reads back as a version. *)
Lemma sanitize_parses (max_digits : nat) (raw : string) :
  exists major minor patch,
    parse_version (sanitize max_digits raw) = Some (major, minor, patch).
Proof.
  unfold sanitize.
  pose proof (digit_groups_are_groups raw) as Hgroups.
  destruct (digit_groups (strip_whitespace (tokens raw))) as [|g groups] eqn:Hg.
  - exists 0%N, 0%N, 0%N. reflexivity.
  - cbv zeta. unfold compose.
    destruct (within_bound max_digits (nth 0 (g :: groups) "0")
              && within_bound max_digits (nth 1 (g :: groups) "0")
              && within_bound max_digits (nth 2 (g :: groups) "0"))%bool.
    + apply parse_composed; now apply nth_group.
    + exists 0%N, 0%N, 0%N. reflexivity.
Qed.

Lemma sanitize_no_digit (max_digits : nat) (raw : string) :
  has_digit raw = false -> sanitize max_digits raw = "0.0.0".
Proof.
  intros H. unfold sanitize. now rewrite (no_digit_no_group raw H).
Qed.

Lemma broken_version_groups :
  digit_groups (strip_whitespace (tokens broken_version)) = ["5"; "7"].
Proof. vm_compute. reflexivity. Qed.

End SanitizerFacts.

(** ** The Invocation Supervisor *)

Module SupervisorFacts.

Import Supervisor.

Lemma artifact_is_not_the_fallback (i : invocation) :
  artifact_path i <> fallback_executable.
Proof. unfold artifact_path, fallback_executable. intros H. inversion H. Qed.

Lemma present_after_write (i : invocation) (text : string) (d : gmap string string) :
  present fallback_executable (<[artifact_path i := text]> d)
  = present fallback_executable d.
Proof.
  unfold present. rewrite lookup_insert_ne; [reflexivity|].
  apply artifact_is_not_the_fallback.
Qed.

Section Runs.

Variable repr_str : string -> string.
Variable max_digits : nat.
Variable i : invocation.
Variable d : gmap string string.

(** The machine when the primary process has been launched and judged. *)
Lemma after_primary :
  run repr_str max_digits 3 i (Machine Idle d [])
  = match classify_primary (primary i) with
    | Success reply =>
      Machine (Succeeded reply) (delete (artifact_path i) d)
              [due repr_str max_digits Primary i]
    | RecoverableFailure reason =>
      Machine (PrimaryFailed reason) (<[artifact_path i := serialized repr_str i]> d)
              [due repr_str max_digits Primary i]
    | FatalFailure reason =>
      Machine (FatallyFailed reason) (delete (artifact_path i) d)
              [due repr_str max_digits Primary i]
    end.
Proof.
  cbn [run step state_of disk launches]. unfold record_launch, finish, due.
  cbn [disk launches app]. rewrite lookup_insert_eq, delete_insert_eq.
  now destruct (classify_primary (primary i)).
Qed.

(** The machine two transitions after a recoverable primary failure. *)
Lemma after_recoverable (reason : string) :
  run repr_str max_digits 2 i
      (Machine (PrimaryFailed reason) (<[artifact_path i := serialized repr_str i]> d)
               [due repr_str max_digits Primary i])
  = if present fallback_executable d then
      Machine (match classify_fallback (fallback i) with
               | Success reply => Succeeded reply
               | RecoverableFailure r | FatalFailure r => FatallyFailed r
               end)
              (delete (artifact_path i) d)
              [due repr_str max_digits Primary i; due repr_str max_digits Fallback i]
    else
      Machine (FatallyFailed reason) (delete (artifact_path i) d)
              [due repr_str max_digits Primary i].
Proof.
  cbn [run step state_of disk launches]. rewrite present_after_write.
  destruct (present fallback_executable d).
  - cbn [step state_of disk launches]. unfold record_launch, finish, due.
    cbn [disk launches app]. rewrite lookup_insert_eq, delete_insert_eq.
    now destruct (classify_fallback (fallback i)).
  - unfold finish. cbn [step state_of disk launches]. now rewrite delete_insert_eq.
Qed.

Lemma run_terminal (n : nat) (m : machine) :
  terminal (state_of m) = true -> run repr_str max_digits n i m = m.
Proof.
  revert m. induction n as [|n IH]; intros m Hm; [reflexivity|].
  cbn [run]. unfold step. destruct (state_of m) eqn:Hs; try discriminate.
  - apply IH. now rewrite Hs.
  - apply IH. now rewrite Hs.
Qed.

Lemma run_add (n k : nat) (m : machine) :
  run repr_str max_digits (n + k) i m
  = run repr_str max_digits k i (run repr_str max_digits n i m).
Proof. revert m. induction n as [|n IH]; intros m; [reflexivity|]. apply IH. Qed.

(** Every invocation, in full. *)
Lemma supervise_cases :
  supervise repr_str max_digits i d
  = match classify_primary (primary i) with
    | Success reply =>
      Machine (Succeeded reply) (delete (artifact_path i) d)
              [due repr_str max_digits Primary i]
    | FatalFailure reason =>
      Machine (FatallyFailed reason) (delete (artifact_path i) d)
              [due repr_str max_digits Primary i]
    | RecoverableFailure reason =>
      if present fallback_executable d then
        Machine (match classify_fallback (fallback i) with
                 | Success reply => Succeeded reply
                 | RecoverableFailure r | FatalFailure r => FatallyFailed r
                 end)
                (delete (artifact_path i) d)
                [due repr_str max_digits Primary i; due repr_str max_digits Fallback i]
      else
        Machine (FatallyFailed reason) (delete (artifact_path i) d)
                [due repr_str max_digits Primary i]
    end.
Proof.
  unfold supervise. change 5 with (3 + 2). rewrite run_add, after_primary.
  destruct (classify_primary (primary i)) as [reply|reason|reason].
  - now apply run_terminal.
  - apply after_recoverable.
  - now apply run_terminal.
Qed.

Lemma supervise_terminal :
  terminal (state_of (supervise repr_str max_digits i d)) = true.
Proof.
  rewrite supervise_cases.
  destruct (classify_primary (primary i)); [reflexivity| |reflexivity].
  destruct (present fallback_executable d); [|reflexivity].
  now destruct (classify_fallback (fallback i)).
Qed.

Lemma supervise_disk :
  disk (supervise repr_str max_digits i d) = delete (artifact_path i) d.
Proof.
  rewrite supervise_cases.
  destruct (classify_primary (primary i)); [reflexivity| |reflexivity].
  now destruct (present fallback_executable d).
Qed.

End Runs.

End SupervisorFacts.

(** ** Python objects: when [repr] and [str] return *)

Module ObjFacts.

Import Obj.

Lemma each_returns {A B} (f : A -> outcome B) (xs : list A) :
  Forall (fun x => exists y, f x = Returns y) xs ->
  exists ys, Outcome.each f xs = Returns ys /\ Forall2 (fun x y => f x = Returns y) xs ys.
Proof.
  induction 1 as [|x xs [y Hy] _ (ys & Hys & Hall)]; cbn [Outcome.each].
  - exists []. split; [reflexivity|constructor].
  - exists (y :: ys). rewrite Hy, Hys. split; [reflexivity|now constructor].
Qed.

Lemma each_raises {A B} (f : A -> outcome B) (xs : list A) (x : A) (rest : list A)
    (e : exception) :
  Forall (fun x => exists y, f x = Returns y) xs ->
  f x = Raises e ->
  Outcome.each f (xs ++ x :: rest) = Raises e.
Proof.
  intros Hxs Hx. induction Hxs as [|x0 xs [y Hy] _ IH]; cbn [app Outcome.each].
  - now rewrite Hx.
  - now rewrite Hy, IH.
Qed.

Lemma deepest_le {A} (g : A -> nat) (items : list A) (k : nat) :
  foldr (fun x n => Nat.max (g x) n) 0 items <= k ->
  Forall (fun x => g x <= k) items.
Proof.
  induction items as [|x items IH]; cbn [foldr]; intros H; constructor.
  - lia.
  - apply IH. lia.
Qed.

Lemma int_str_short (z : Z) :
  negb (10 ^ Z.of_nat int_max_str_digits <=? Z.abs z)%Z = true ->
  int_str z = Returns (pretty z).
Proof. unfold int_str. intros H. apply negb_true_iff in H. now rewrite H. Qed.

Lemma key_repr_short repr_str (k : key) :
  key_short k = true -> exists t, key_repr repr_str k = Returns t.
Proof.
  destruct k as [| [|] | z | s]; cbn [key_short key_repr]; intros H; eauto.
  rewrite (int_str_short z H). cbn. eauto.
Qed.

(** [repr] returns on an object whose integers are short and whose
    containers are at most [limit] deep. *)
Lemma repr_printable repr_str (limit : nat) :
  forall v : object,
    ints_short v = true -> nesting v <= limit ->
    exists t, repr repr_str limit v = Returns t.
Proof.
  induction limit as [|inner IH]; intros v Hints Hnest;
    destruct v as [| [|] | z | s | items | items | items];
    cbn [repr]; eauto;
    try (rewrite (int_str_short z Hints); cbn; eauto);
    try (cbn [nesting] in Hnest; lia).
  - cbn [ints_short nesting] in Hints, Hnest.
    destruct (each_returns (repr repr_str inner) items) as (parts & -> & _).
    { apply Forall_forall. intros x Hx. apply IH.
      - rewrite forallb_forall in Hints. apply Hints. now apply list_elem_of_In.
      - apply (proj1 (Forall_forall _ _) (deepest_le nesting items inner ltac:(lia)) x Hx). }
    cbn. eauto.
  - cbn [ints_short nesting] in Hints, Hnest.
    destruct (each_returns (repr repr_str inner) items) as (parts & -> & _).
    { apply Forall_forall. intros x Hx. apply IH.
      - rewrite forallb_forall in Hints. apply Hints. now apply list_elem_of_In.
      - apply (proj1 (Forall_forall _ _) (deepest_le nesting items inner ltac:(lia)) x Hx). }
    cbn. destruct parts as [|x [|y parts]]; eauto.
  - cbn [ints_short nesting] in Hints, Hnest.
    match goal with
    | |- context [Outcome.each ?f items] =>
      destruct (each_returns f items) as (parts & -> & _)
    end.
    { apply Forall_forall. intros [k x] Hx. cbn [fst snd].
      rewrite forallb_forall in Hints.
      specialize (Hints (k, x) ltac:(now apply list_elem_of_In)). cbn [fst snd] in Hints.
      apply andb_true_iff in Hints as [Hk Hx'].
      destruct (key_repr_short repr_str k Hk) as [t ->].
      destruct (IH x Hx') as [t' ->].
      - apply (proj1 (Forall_forall _ _)
                 (deepest_le (fun kv : key * object => nesting kv.2) items inner ltac:(lia))
                 (k, x) Hx).
      - cbn. eauto. }
    cbn. eauto.
Qed.

(** [str] returns on such an object, and on every string. *)
Lemma str_printable repr_str (limit : nat) (v : object) :
  printable limit v = true -> exists t, Obj.str repr_str limit v = Returns t.
Proof.
  unfold printable. intros H. apply andb_true_iff in H as [Hints Hnest].
  apply Nat.leb_le in Hnest.
  destruct v; cbn [Obj.str]; eauto; now apply repr_printable.
Qed.

End ObjFacts.

(** ** The Message Normalizer *)

Module NormalizerFacts.

Import Obj EdgeCaseSuite.

Section Loop.

Variable repr_str : Str.str -> Str.str.
Variable limit : nat.

Lemma normalize_raised (input : list object) (e : exception) :
  fold_left
    (fun so_far msg =>
       messages <-? so_far ;;
       message <-? normalize_message repr_str limit msg ;;
       Returns (messages ++ [message]))
    input (Raises e)
  = Raises e.
Proof. induction input as [|msg input IH]; [reflexivity|exact IH]. Qed.

(** The loop, from the messages it has so far. *)
Lemma normalize_from (input : list object) :
  forall so_far : list object,
    fold_left
      (fun so_far msg =>
         messages <-? so_far ;;
         message <-? normalize_message repr_str limit msg ;;
         Returns (messages ++ [message]))
      input (Returns so_far)
    = (messages <-? Outcome.each (normalize_message repr_str limit) input ;;
       Returns (so_far ++ messages)).
Proof.
  induction input as [|msg input IH]; intros so_far; cbn [fold_left Outcome.each].
  - cbn. now rewrite app_nil_r.
  - cbn [Outcome.and_then]. destruct (normalize_message repr_str limit msg) as [message|e]; cbn.
    + rewrite IH.
      destruct (Outcome.each (normalize_message repr_str limit) input); cbn; [|reflexivity].
      now rewrite <- app_assoc.
    + apply normalize_raised.
Qed.

(** The loop is the per-message function on each element, from the left. *)
Lemma normalize_each (input : list object) :
  normalize repr_str limit input
  = Outcome.each (normalize_message repr_str limit) input.
Proof.
  unfold normalize. rewrite normalize_from.
  now destruct (Outcome.each (normalize_message repr_str limit) input).
Qed.

Lemma normalize_message_dict (items : list (key * object)) :
  normalize_message repr_str limit (PyDict items) = Returns (PyDict items).
Proof. reflexivity. Qed.

Lemma normalize_message_pair (role content : object) :
  normalize_message repr_str limit (PyList [role; content])
  = Returns (PyDict [(KeyStr "role", role); (KeyStr "content", content)]).
Proof. reflexivity. Qed.

Lemma normalize_message_coerced (msg : object) :
  coerced msg = true ->
  normalize_message repr_str limit msg
  = (text <-? Obj.str repr_str limit msg ;;
     Returns (PyDict [(KeyStr "role", PyStr "user"); (KeyStr "content", PyStr text)])).
Proof.
  destruct msg as [| b | z | s | items | items | items]; try reflexivity.
  - destruct items as [|a [|b [|c items]]]; try reflexivity. discriminate.
  - discriminate.
Qed.

(** A message that is not coerced, or whose [str] exists, is normalized. *)
Lemma normalize_message_returns (msg : object) :
  (coerced msg = true -> printable limit msg = true) ->
  exists message, normalize_message repr_str limit msg = Returns message.
Proof.
  intros H. destruct (coerced msg) eqn:Hc.
  - rewrite normalize_message_coerced by exact Hc.
    destruct (ObjFacts.str_printable repr_str limit msg (H eq_refl)) as [t ->]. cbn. eauto.
  - destruct msg as [| b | z | s | items | items | items]; try discriminate Hc.
    + destruct items as [|a [|b [|c items]]]; try discriminate Hc.
      rewrite normalize_message_pair. eauto.
    + rewrite normalize_message_dict. eauto.
Qed.

Lemma normalize_returns (input : list object) :
  Forall (fun msg => coerced msg = true -> printable limit msg = true) input ->
  exists messages,
    normalize repr_str limit input = Returns messages
    /\ Forall2 (fun msg message => normalize_message repr_str limit msg = Returns message)
         input messages.
Proof.
  intros H. rewrite normalize_each. apply ObjFacts.each_returns.
  eapply Forall_impl; [exact H|]. intros msg. apply normalize_message_returns.
Qed.

End Loop.

End NormalizerFacts.

(** ** edge_case_test.py: the input formats *)

Module InputFacts.

Import Obj EdgeCaseSuite.

Lemma set_files_same (s : state) : set_files (files s) s = s.
Proof. now destruct s. Qed.

Lemma str_eqb_refl (a : Str.str) : Str.eqb a a = true.
Proof. now apply bool_decide_eq_true. Qed.

(** A plain message is normalized to a turn that is read back as it is
    written. *)
Lemma plain_message_turn repr_str (limit : nat) (msg : object) :
  plain_message repr_str limit msg = true ->
  exists t : turn,
    normalize_message repr_str limit msg = Returns (turn_value t) /\ plain_turn t = true.
Proof.
  intros Hplain.
  assert (Hother : coerced msg = true ->
                   match Obj.str repr_str limit msg with
                   | Returns text => Str.readable text
                   | Raises _ => false
                   end = true ->
                   exists t : turn,
                     normalize_message repr_str limit msg = Returns (turn_value t)
                     /\ plain_turn t = true).
  { intros Hc Hstr. rewrite NormalizerFacts.normalize_message_coerced by exact Hc.
    destruct (Obj.str repr_str limit msg) as [text|e]; [|discriminate Hstr].
    exists (Turn "user" text). split; [reflexivity|]. unfold plain_turn. cbn [role content].
    now rewrite Hstr. }
  destruct msg as [| b | z | text | items | items | items];
    try (apply Hother; [reflexivity|exact Hplain]).
  - destruct items as [|a [|b [|c items]]].
    + apply Hother; [reflexivity|exact Hplain].
    + apply Hother; [reflexivity|]. destruct a; exact Hplain.
    + cbn in Hplain.
      repeat match type of Hplain with
             | context [match ?x with _ => _ end] =>
               is_var x; destruct x; try discriminate Hplain
             end.
      eexists (Turn _ _). split; [reflexivity|exact Hplain].
    + apply Hother; [reflexivity|]. destruct a; try exact Hplain. destruct b; exact Hplain.
  - cbn in Hplain.
    repeat match type of Hplain with
           | context [match ?x with _ => _ end] =>
             is_var x; destruct x; try discriminate Hplain
           end.
    repeat (apply andb_true_iff in Hplain as [Hplain ?]).
    unfold Str.eqb in *.
    repeat match goal with H : bool_decide _ = true |- _ => apply bool_decide_eq_true in H end.
    subst. eexists (Turn _ _). split; [reflexivity|].
    unfold plain_turn. cbn [role content]. now apply andb_true_iff.
Qed.

Lemma plain_messages_turns repr_str (limit : nat) (input : list object) :
  forallb (plain_message repr_str limit) input = true ->
  exists turns : list turn,
    normalize repr_str limit input = Returns (map turn_value turns)
    /\ forallb plain_turn turns = true.
Proof.
  rewrite NormalizerFacts.normalize_each.
  induction input as [|msg input IH]; cbn [forallb Outcome.each].
  - exists []. split; reflexivity.
  - intros H. apply andb_true_iff in H as [Hmsg Hrest].
    destruct (plain_message_turn repr_str limit msg Hmsg) as (t & -> & Ht).
    destruct (IH Hrest) as (turns & -> & Hturns).
    exists (t :: turns). cbn. split; [reflexivity|]. now rewrite Ht.
Qed.

(** What is at a path once the paths that are no directories are removed. *)
Lemma removed_lookup (dirs : gset string) (paths : list string) :
  forall (disk : gmap string string) (path : string),
    foldl (fun disk p => if bool_decide (p ∈ dirs) then disk else delete p disk) disk paths
      !! path
    = if bool_decide (path ∈ paths /\ path ∉ dirs) then None else disk !! path.
Proof.
  induction paths as [|p paths IH]; intros disk path; cbn [foldl].
  - rewrite bool_decide_eq_false_2; [reflexivity|]. intros [H _]. now apply elem_of_nil in H.
  - rewrite IH. destruct (decide (path ∈ paths /\ path ∉ dirs)) as [[Hin Hout]|Hno].
    + rewrite !bool_decide_eq_true_2; [reflexivity| |].
      * split; [now apply elem_of_cons; right|exact Hout].
      * now split.
    + rewrite (bool_decide_eq_false_2 _ Hno).
      destruct (decide (p ∈ dirs)) as [Hd|Hd].
      * rewrite (bool_decide_eq_true_2 _ Hd).
        rewrite bool_decide_eq_false_2; [reflexivity|].
        intros [H1 H2]. apply elem_of_cons in H1 as [->|H1]; [contradiction|].
        apply Hno. now split.
      * rewrite (bool_decide_eq_false_2 _ Hd).
        destruct (decide (path = p)) as [->|Hne].
        -- rewrite lookup_delete_eq, bool_decide_eq_true_2; [reflexivity|].
           split; [now apply elem_of_cons; left|exact Hd].
        -- rewrite lookup_delete_ne by (intros H; now apply Hne).
           rewrite bool_decide_eq_false_2; [reflexivity|].
           intros [H1 H2]. apply elem_of_cons in H1 as [->|H1]; [contradiction|].
           apply Hno. now split.
Qed.

Lemma no_directory_among (dirs : gset string) (paths : list string) :
  forallb (fun path => bool_decide (path ∉ dirs)) paths
  = bool_decide (Forall (fun path => path ∉ dirs) paths).
Proof.
  induction paths as [|p paths IH]; cbn [forallb].
  - symmetry. now apply bool_decide_eq_true_2.
  - rewrite IH. destruct (decide (p ∉ dirs)) as [Hp|Hp].
    + rewrite (bool_decide_eq_true_2 _ Hp). cbn [andb].
      apply bool_decide_ext. split; [now constructor|]. intros H. now inversion H.
    + rewrite (bool_decide_eq_false_2 _ Hp). cbn [andb]. symmetry.
      apply bool_decide_eq_false_2. intros H. inversion H. contradiction.
Qed.

Section Formats.

Variable dirs : gset string.
Variable repr_str : Str.str -> Str.str.
Variable repr_limit dump_limit load_limit : nat.
Variable unfinished : object -> string.

Hypothesis dump_room : 3 <= dump_limit.
Hypothesis load_room : 3 <= load_limit.

(** The artifact of a request is written as [request_text] and read back
    as the request. *)
Lemma dump_and_load_request (path : string) (turns : list turn) (s : state) :
  path ∉ dirs -> forallb plain_turn turns = true ->
  dump_and_load dirs dump_limit load_limit unfinished path (request_value turns) s
  = (Returns (request_value turns),
     set_files (<[path := request_text turns]> (files s)) s).
Proof.
  intros Hpath Hplain.
  unfold dump_and_load, dump, load, Json.json_dumps.
  rewrite (RequestFacts.dumps_request dump_limit turns dump_room). cbn [Outcome.and_then].
  fold (request_text turns).
  unfold bind, Disk.open_write, Disk.open_read, write_file, read_file, lift.
  rewrite (bool_decide_eq_false_2 _ Hpath). cbn [files set_files].
  rewrite lookup_insert_eq.
  now rewrite (RequestFacts.loads_request load_limit turns Hplain load_room).
Qed.

(** With a directory at the path nothing is written. *)
Lemma dump_and_load_directory (path : string) (temp_data : object) (s : state) :
  path ∈ dirs ->
  dump_and_load dirs dump_limit load_limit unfinished path temp_data s
  = (Raises (Disk.IsADirectoryError path), s).
Proof.
  intros Hpath. unfold dump_and_load, dump, bind, Disk.open_write.
  destruct (Json.json_dumps dump_limit temp_data);
    rewrite (bool_decide_eq_true_2 _ Hpath); reflexivity.
Qed.

(** One test case whose messages are normalized to turns. *)
Lemma input_format_case_turns (results : list bool) (name : string) (input : list object)
    (turns : list turn) (s : state) :
  normalize repr_str repr_limit input = Returns (map turn_value turns) ->
  forallb plain_turn turns = true ->
  input_format_case dirs repr_str repr_limit dump_limit load_limit unfinished results
    (name, input) s
  = (Returns (results ++ [bool_decide (temp_file name ∉ dirs)]),
     set_files (if bool_decide (temp_file name ∈ dirs) then files s
                else delete (temp_file name) (files s)) s).
Proof.
  intros Hn Hplain. unfold input_format_case.
  unfold try_except at 1. unfold bind at 1. unfold lift at 1. rewrite Hn.
  change (PyDict [(KeyStr "messages", PyList (map turn_value turns))])
    with (request_value turns).
  unfold bind at 1.
  destruct (decide (temp_file name ∈ dirs)) as [Hdir|Hfile].
  - rewrite dump_and_load_directory by exact Hdir.
    rewrite (bool_decide_eq_true_2 _ Hdir), bool_decide_eq_false_2 by (intros H; now apply H).
    unfold ret. now rewrite set_files_same.
  - rewrite dump_and_load_request by assumption.
    rewrite (bool_decide_eq_false_2 _ Hfile), (bool_decide_eq_true_2 _ Hfile).
    unfold request_value, has_messages. cbn [dict_lookup key_eqb].
    rewrite str_eqb_refl. cbn [is_list].
    unfold bind, ret, try_except, Disk.unlink, Py.unlink, set_files.
    rewrite (bool_decide_eq_false_2 _ Hfile). cbn [files].
    rewrite lookup_insert_eq, delete_insert_eq. reflexivity.
Qed.

(** With a directory at its path a test case fails, whatever its input,
    and nothing changes. *)
Lemma input_format_case_directory (results : list bool) (name : string)
    (input : list object) (s : state) :
  temp_file name ∈ dirs ->
  input_format_case dirs repr_str repr_limit dump_limit load_limit unfinished results
    (name, input) s
  = (Returns (results ++ [false]), s).
Proof.
  intros Hdir. unfold input_format_case.
  unfold try_except at 1. unfold bind at 1. unfold lift at 1.
  destruct (normalize repr_str repr_limit input) as [messages|e]; [|reflexivity].
  unfold bind at 1. now rewrite dump_and_load_directory by exact Hdir.
Qed.

(** A test case whose messages cannot be normalized fails before any file
    is opened. *)
Lemma input_format_case_unprintable (results : list bool) (name : string)
    (input : list object) (e : exception) (s : state) :
  normalize repr_str repr_limit input = Raises e ->
  input_format_case dirs repr_str repr_limit dump_limit load_limit unfinished results
    (name, input) s
  = (Returns (results ++ [false]), s).
Proof.
  intros Hn. unfold input_format_case, try_except, bind, lift. now rewrite Hn.
Qed.

(** A test case whose messages [json.dump] raises on fails, and leaves the
    file with what was written. *)
Lemma input_format_case_undumpable (results : list bool) (name : string)
    (input messages : list object) (e : exception) (s : state) :
  normalize repr_str repr_limit input = Returns messages ->
  Json.json_dumps dump_limit (PyDict [(KeyStr "messages", PyList messages)]) = Raises e ->
  temp_file name ∉ dirs ->
  input_format_case dirs repr_str repr_limit dump_limit load_limit unfinished results
    (name, input) s
  = (Returns (results ++ [false]),
     set_files
       (<[temp_file name := unfinished (PyDict [(KeyStr "messages", PyList messages)])]>
          (files s)) s).
Proof.
  intros Hn Hd Hfile. unfold input_format_case, try_except, bind, lift. rewrite Hn.
  unfold dump_and_load, dump, bind. rewrite Hd.
  unfold Disk.open_write, write_file, raise.
  now rewrite (bool_decide_eq_false_2 _ Hfile).
Qed.

(** The five test cases in a row. *)
Lemma input_formats_run (s : state) :
  let temp_files := map temp_file input_format_names in
  test_foundry_input_formats dirs repr_str repr_limit dump_limit load_limit unfinished s
  = (Returns (forallb (fun path => bool_decide (path ∉ dirs)) temp_files),
     set_files
       (foldl (fun disk path => if bool_decide (path ∈ dirs) then disk else delete path disk)
          (files s) temp_files) s).
Proof.
  unfold test_foundry_input_formats, input_format_names, test_cases.
  cbn [fold_each map fst foldl forallb]. unfold bind.
  rewrite (input_format_case_turns _ _ _ [Turn "user" "Hello"]) by reflexivity.
  rewrite (input_format_case_turns _ _ _ [Turn "user" "Hello"]) by reflexivity.
  rewrite (input_format_case_turns _ _ _
             [Turn "user" "First message"; Turn "assistant" "Response";
              Turn "user" "Follow up"]) by reflexivity.
  rewrite (input_format_case_turns _ _ _ [Turn "user" "Just a string"]) by reflexivity.
  rewrite (input_format_case_turns _ _ _ []) by reflexivity.
  unfold ret. cbn [app forallb id files set_files]. reflexivity.
Qed.

End Formats.

End InputFacts.

(** ** comprehensive_test.py: what [test_cuda_version_fix] accepts *)

(** The check passes only on a clean exit whose output shows the
    problematic version and the line fragment "Successfully parsed as: 5.0". *)
Lemma cuda_version_checks_accept (retcode : Z) (stdout stderr : string) :
  (ComprehensiveTest.cuda_version_checks (retcode, stdout, stderr)).1 = true ->
  retcode = 0%Z
  /\ ComprehensiveTest.contains ComprehensiveTest.printed_version stdout = true
  /\ ComprehensiveTest.contains "Successfully parsed as: 5.0" stdout = true.
Proof.
  unfold ComprehensiveTest.cuda_version_checks.
  destruct (Z.eqb_spec retcode 0) as [->|]; [|discriminate].
  destruct (ComprehensiveTest.contains ComprehensiveTest.printed_version stdout);
    [|discriminate].
  destruct (ComprehensiveTest.contains "Successfully parsed as: 5.0" stdout);
    [|discriminate].
  auto.
Qed.

(** A run that reports the problematic version as 5.7.0 is turned down. *)
Example cuda_version_checks_reject_5_7_0 :
  (ComprehensiveTest.cuda_version_checks
     (0%Z, "Testing: '5\n      7' ✅ Successfully parsed as: 5.7.0", "")).1 = false.
Proof. vm_compute. reflexivity. Qed.

Example cuda_version_checks_accept_5_0 :
  (ComprehensiveTest.cuda_version_checks
     (0%Z, "Testing: '5\n      7' ✅ Successfully parsed as: 5.0", "")).1 = true.
Proof. vm_compute. reflexivity. Qed.

(** A CudaVersionTest run that does not answer in time fails the test. *)
Lemma test_cuda_version_fix_timeout (w : os_model) (s : state) (p : process) :
  w (CmdList ["dotnet"; "run"; "--project"; "CudaVersionTest"]) false (environ s)
  = Spawned p ->
  in_time ComprehensiveTest.default_timeout p = false ->
  exists log, (ComprehensiveTest.test_cuda_version_fix w s).1 = Returns (false, log).
Proof.
  intros Hp Ht. unfold ComprehensiveTest.test_cuda_version_fix, bind.
  destruct (comprehensive_test_contract w
              (CmdList ["dotnet"; "run"; "--project"; "CudaVersionTest"])
              ComprehensiveTest.default_timeout None s) as (_ & _ & Hto & _).
  specialize (Hto p Hp Ht).
  destruct (ComprehensiveTest.run_command w _ _ None s) as [r s'].
  simpl in Hto. subst r. eexists. reflexivity.
Qed.

(* ===================================================================== *)
(** * Main results *)
(* ===================================================================== *)

(** C1. For the malformed version made of the digit "5", a newline,
    indentation and the digit "7", the Version Sanitizer returns the
    version with major 5, minor 7 and patch 0, whatever the bound on the
    length of a digit group, as long as the bound admits one digit. *)
Theorem broken_version_sanitized (max_digits : nat) :
  1 <= max_digits ->
  Sanitizer.sanitize max_digits Sanitizer.broken_version = "5.7.0"
  /\ Sanitizer.parse_version (Sanitizer.sanitize max_digits Sanitizer.broken_version)
     = Some (5%N, 7%N, 0%N).
Proof.
  intros Hbound.
  assert (H : Sanitizer.sanitize max_digits Sanitizer.broken_version = "5.7.0").
  { unfold Sanitizer.sanitize. rewrite SanitizerFacts.broken_version_groups.
    cbv zeta. unfold Sanitizer.compose, Sanitizer.within_bound. cbn [nth String.length].
    apply Nat.leb_le in Hbound. rewrite Hbound. reflexivity. }
  rewrite H. split; reflexivity.
Qed.

Lemma broken_version_sanitized_witness :
  1 <= 9
  /\ Sanitizer.sanitize 9 Sanitizer.broken_version = "5.7.0"
  /\ Sanitizer.parse_version (Sanitizer.sanitize 9 Sanitizer.broken_version)
     = Some (5%N, 7%N, 0%N).
Proof.
  split; [lia|]. apply (broken_version_sanitized 9). lia.
Defined.

(** C2. The Version Sanitizer is total: for every input string and every
    bound it returns a string that reads back as MAJOR.MINOR.PATCH, three
    non-negative integers, and for an input without a digit it returns
    exactly "0.0.0". *)
Theorem sanitize_total (max_digits : nat) (raw : string) :
  (exists major minor patch,
      Sanitizer.parse_version (Sanitizer.sanitize max_digits raw)
      = Some (major, minor, patch))
  /\ (Sanitizer.has_digit raw = false -> Sanitizer.sanitize max_digits raw = "0.0.0").
Proof.
  split.
  - apply SanitizerFacts.sanitize_parses.
  - apply SanitizerFacts.sanitize_no_digit.
Qed.

(** C3, as the code has it.  The Message Normalizer of edge_case_test.py,
    lines 120-128, is total on the inputs whose coerced elements have a
    string representation.  Whenever every element that is neither a
    dictionary nor a list of two can be written by [str] (its integers have
    at most 4300 digits, its containers are at most [limit] deep), the loop
    returns, with one message per element and the n-th from the n-th: a
    dictionary as it is, a list of two as role and content, and everything
    else, a tuple of two included, as a [user] turn that holds [str] of the
    element.  The empty input gives the empty list. *)
Theorem normalize_total_ordered (repr_str : Str.str -> Str.str) (limit : nat)
    (input : list Obj.object) :
  Forall (fun msg => EdgeCaseSuite.coerced msg = true -> Obj.printable limit msg = true)
    input ->
  exists messages : list Obj.object,
    EdgeCaseSuite.normalize repr_str limit input = Returns messages
    /\ length messages = length input
    /\ (forall (n : nat) (msg : Obj.object),
          input !! n = Some msg ->
          exists message : Obj.object,
            messages !! n = Some message
            /\ EdgeCaseSuite.normalize_message repr_str limit msg = Returns message)
    /\ (forall items,
          EdgeCaseSuite.normalize_message repr_str limit (Obj.PyDict items)
          = Returns (Obj.PyDict items))
    /\ (forall r c,
          EdgeCaseSuite.normalize_message repr_str limit (Obj.PyList [r; c])
          = Returns (Obj.PyDict [(Obj.KeyStr "role", r); (Obj.KeyStr "content", c)]))
    /\ (forall msg,
          EdgeCaseSuite.coerced msg = true ->
          EdgeCaseSuite.normalize_message repr_str limit msg
          = (text <-? Obj.str repr_str limit msg ;;
             Returns (Obj.PyDict [(Obj.KeyStr "role", Obj.PyStr "user");
                                  (Obj.KeyStr "content", Obj.PyStr text)])))
    /\ (forall r c, EdgeCaseSuite.coerced (Obj.PyTuple [r; c]) = true)
    /\ EdgeCaseSuite.normalize repr_str limit [] = Returns [].
Proof.
  intros Hall.
  destruct (NormalizerFacts.normalize_returns repr_str limit input Hall)
    as (messages & Hn & Hall2).
  exists messages. split_and!.
  - exact Hn.
  - symmetry. exact (Forall2_length _ _ _ Hall2).
  - intros n msg Hin.
    destruct (Forall2_lookup_l _ _ _ _ _ Hall2 Hin) as (message & Hm & Hnm). eauto.
  - reflexivity.
  - reflexivity.
  - apply NormalizerFacts.normalize_message_coerced.
  - reflexivity.
  - reflexivity.
Qed.

(** A dictionary, a list of two, a tuple of two and a number. *)
Lemma normalize_total_ordered_witness :
  let input :=
    [ Obj.PyDict [(Obj.KeyStr "role", Obj.PyStr "user"); (Obj.KeyStr "content", Obj.PyStr "Hi")];
      Obj.PyList [Obj.PyStr "assistant"; Obj.PyStr "Hello"];
      Obj.PyTuple [Obj.PyStr "user"; Obj.PyStr "Bye"];
      Obj.PyInt 7 ] in
  exists messages : list Obj.object,
    EdgeCaseSuite.normalize Str.single_quoted 1 input = Returns messages
    /\ length messages = 4.
Proof.
  intros input.
  destruct (normalize_total_ordered Str.single_quoted 1 input) as (messages & Hn & Hlen & _).
  - repeat constructor; intros _; vm_compute; reflexivity.
  - exists messages. split; [exact Hn|exact Hlen].
Defined.

(** The loop raises on an integer of 4301 digits, and it does not take a
    tuple of two as role and content. *)
Lemma normalize_raises_and_keeps_tuples :
  EdgeCaseSuite.normalize Str.single_quoted 1 [Obj.PyInt (10 ^ 4300)] = Raises Obj.IntTooLong
  /\ EdgeCaseSuite.normalize Str.single_quoted 1
       [Obj.PyTuple [Obj.PyStr "assistant"; Obj.PyStr "Hi"]]
     = Returns [Obj.PyDict [(Obj.KeyStr "role", Obj.PyStr "user");
                            (Obj.KeyStr "content", Obj.PyStr "('assistant', 'Hi')")]].
Proof. split; vm_compute; reflexivity. Qed.

(** C4, as the code has it.  Round trip of the artifact, lines 130-139 of
    edge_case_test.py: for every request whose strings hold no high
    surrogate directly before a low one, when no directory is at the path
    and the interpreter has room for the three levels of the object, the
    file is left holding the JSON text of the object with the key
    [messages], and reading it back gives the same object, whose turns are
    the original ones in their order. *)
Theorem request_round_trip (dirs : gset string) (dump_limit load_limit : nat)
    (unfinished : Obj.object -> string) (path : string) (turns : list turn) (s : state) :
  path ∉ dirs -> 3 <= dump_limit -> 3 <= load_limit ->
  forallb plain_turn turns = true ->
  EdgeCaseSuite.dump_and_load dirs dump_limit load_limit unfinished path
    (request_value turns) s
  = (Returns (request_value turns),
     set_files (<[path := request_text turns]> (files s)) s)
  /\ Json.json_dumps dump_limit (request_value turns) = Returns (request_text turns)
  /\ Json.json_loads load_limit (request_text turns) = Returns (request_value turns)
  /\ value_request (request_value turns) = Some turns.
Proof.
  intros Hpath Hdump Hload Hplain. split_and!.
  - now apply InputFacts.dump_and_load_request.
  - unfold Json.json_dumps. now rewrite (RequestFacts.dumps_request dump_limit turns Hdump).
  - now apply RequestFacts.loads_request.
  - apply RequestFacts.value_request_of_turns.
Qed.

(** A request of one turn, with a quote, a newline, a letter beyond ASCII
    and a character beyond the basic plane in its content. *)
Lemma request_round_trip_witness :
  let turns := [Turn "user" ([34; 10; 233; 0x1F600]%N : Str.str)] in
  EdgeCaseSuite.dump_and_load ∅ 3 3 (fun _ => "") "test_x.json" (request_value turns)
    (init_state ∅)
  = (Returns (request_value turns),
     set_files (<["test_x.json" := request_text turns]> (files (init_state ∅)))
       (init_state ∅)).
Proof.
  intros turns.
  apply (request_round_trip ∅ 3 3 (fun _ => "") "test_x.json" turns (init_state ∅)).
  - set_solver.
  - lia.
  - lia.
  - vm_compute. reflexivity.
Defined.

(** A content made of the two surrogates of a pair is read back as the one
    character of the pair: the turns read back are not the turns
    written. *)
Lemma surrogate_pair_is_joined :
  let turns := [Turn "user" ([0xD83D; 0xDE00]%N : Str.str)] in
  exists (loaded : Obj.object) (s' : state),
    EdgeCaseSuite.dump_and_load ∅ 3 3 (fun _ => "") "test_x.json" (request_value turns)
      (init_state ∅)
    = (Returns loaded, s')
    /\ value_request loaded = Some [Turn "user" ([0x1F600]%N : Str.str)]
    /\ value_request loaded <> Some turns.
Proof.
  intros turns. eexists _, _. split_and!.
  - vm_compute. reflexivity.
  - vm_compute. reflexivity.
  - vm_compute. discriminate.
Qed.

(** C5. When the primary invocation ends in a recoverable failure, the
    supervisor launches the fallback executable if and only if it is
    present on disk at its expected location; when it is absent the
    supervisor goes to the fatal state with the original reason; the
    fallback is launched once, with the artifact and the serialized request
    the primary was given; and the primary is launched once. *)
Theorem fallback_exactly_once (repr_str : string -> string) (max_digits : nat)
    (i : Supervisor.invocation) (d : gmap string string) (reason : string) :
  Supervisor.classify_primary (Supervisor.primary i) = Supervisor.RecoverableFailure reason ->
  let m := Supervisor.supervise repr_str max_digits i d in
  Supervisor.launches m
  = Supervisor.due repr_str max_digits Supervisor.Primary i
    :: (if Supervisor.present Supervisor.fallback_executable d
        then [Supervisor.due repr_str max_digits Supervisor.Fallback i]
        else [])
  /\ (Supervisor.present Supervisor.fallback_executable d = false ->
      Supervisor.state_of m = Supervisor.FatallyFailed reason)
  /\ Supervisor.launches_of Supervisor.Primary (Supervisor.launches m)
     = [Supervisor.due repr_str max_digits Supervisor.Primary i]
  /\ Supervisor.launches_of Supervisor.Fallback (Supervisor.launches m)
     = (if Supervisor.present Supervisor.fallback_executable d
        then [Supervisor.due repr_str max_digits Supervisor.Fallback i]
        else [])
  /\ Supervisor.request_text (Supervisor.due repr_str max_digits Supervisor.Fallback i)
     = Supervisor.request_text (Supervisor.due repr_str max_digits Supervisor.Primary i).
Proof.
  intros Hrec m. subst m. rewrite SupervisorFacts.supervise_cases, Hrec.
  destruct (Supervisor.present Supervisor.fallback_executable d); cbn; split_and!;
    try reflexivity; discriminate.
Qed.

(** C6. Every launch through a [run_command] helper is bounded by its
    timeout: the call returns within that many seconds, no child is left
    running, and a child that outlives the timeout is terminated and
    reported as [(-1, "", "Command timed out")], which no caller takes for
    a success: [test_foundry_commands] returns within forty seconds, and
    returns [False] when [foundry --version] times out, and
    [test_cuda_version_fix] returns [False] when CudaVersionTest times out. *)
Theorem timeout_enforced :
  bounded_by_timeout FoundryValidation.run_command is_str
  /\ bounded_by_timeout AuditValidation.run_command (fun _ => false)
  /\ bounded_by_timeout ComprehensiveTest.run_command (fun _ => false)
  /\ (forall (w : os_model) (s : state),
        exists b s', FoundryValidation.test_foundry_commands w s = (Returns b, s')
          /\ clock s' <= clock s + 40
          /\ children s' ⊆ children s
          /\ (forall p,
                w (CmdList ["foundry"; "--version"]) false (environ s) = Spawned p ->
                in_time 10 p = false -> b = false))
  /\ (forall (w : os_model) (s : state),
        exists b s', AuditValidation.test_foundry_commands w s = (Returns b, s')
          /\ clock s' <= clock s + 40
          /\ children s' ⊆ children s
          /\ (forall p,
                w (CmdList ["foundry"; "--version"]) false (environ s) = Spawned p ->
                in_time 10 p = false -> b = false))
  /\ (forall (w : os_model) (s : state) (p : process),
        w (CmdList ["dotnet"; "run"; "--project"; "CudaVersionTest"]) false (environ s)
        = Spawned p ->
        in_time ComprehensiveTest.default_timeout p = false ->
        exists log, (ComprehensiveTest.test_cuda_version_fix w s).1 = Returns (false, log)).
Proof.
  split_and!.
  - exact foundry_validation_bounded.
  - exact audit_validation_bounded.
  - exact comprehensive_test_bounded.
  - intros w s.
    destruct (fv_test_foundry_commands_spec w s) as (b & s' & H & _ & Hc & Hch & Hto).
    exists b, s'. auto.
  - intros w s.
    destruct (av_test_foundry_commands_spec w s) as (b & s' & H & _ & Hc & Hch & Hto).
    exists b, s'. auto.
  - exact test_cuda_version_fix_timeout.
Qed.

(** C7. The request artifact is removed on every exit path of an
    invocation: whatever the primary and the fallback do (success,
    failure, timeout, an exception raised by the launch), the supervisor
    ends in a terminal state with the artifact gone and the rest of the
    disk as it was, and after a second invocation neither artifact is on
    disk. *)
Theorem artifact_always_removed (repr_str : string -> string) (max_digits : nat)
    (i : Supervisor.invocation) (d : gmap string string) :
  let m := Supervisor.supervise repr_str max_digits i d in
  Supervisor.terminal (Supervisor.state_of m) = true
  /\ Supervisor.disk m = delete (Supervisor.artifact_path i) d
  /\ Supervisor.disk m !! Supervisor.artifact_path i = None
  /\ (forall i' : Supervisor.invocation,
        let m' := Supervisor.supervise repr_str max_digits i' (Supervisor.disk m) in
        Supervisor.terminal (Supervisor.state_of m') = true
        /\ Supervisor.disk m' !! Supervisor.artifact_path i = None
        /\ Supervisor.disk m' !! Supervisor.artifact_path i' = None).
Proof.
  intros m. subst m. split_and!.
  - apply SupervisorFacts.supervise_terminal.
  - apply SupervisorFacts.supervise_disk.
  - rewrite SupervisorFacts.supervise_disk. apply lookup_delete_eq.
  - intros i' m'. subst m'. split_and!.
    + apply SupervisorFacts.supervise_terminal.
    + rewrite !SupervisorFacts.supervise_disk.
      destruct (decide (Supervisor.artifact_path i' = Supervisor.artifact_path i)) as [->|Hne].
      * apply lookup_delete_eq.
      * rewrite lookup_delete_ne by exact Hne. apply lookup_delete_eq.
    + rewrite SupervisorFacts.supervise_disk. apply lookup_delete_eq.
Qed.

Lemma fallback_exactly_once_witness :
  Supervisor.classify_primary (Supervisor.primary Supervisor.sample_invocation)
  = Supervisor.RecoverableFailure "model failed to load"
  /\ Supervisor.launches
       (Supervisor.supervise (fun s => s) 9 Supervisor.sample_invocation Supervisor.sample_disk)
     = [Supervisor.due (fun s => s) 9 Supervisor.Primary Supervisor.sample_invocation;
        Supervisor.due (fun s => s) 9 Supervisor.Fallback Supervisor.sample_invocation].
Proof.
  split; [reflexivity|].
  exact (proj1 (fallback_exactly_once (fun s => s) 9 Supervisor.sample_invocation
                  Supervisor.sample_disk "model failed to load" eq_refl)).
Defined.

(** The environment the code builds, on an empty caller environment, is not
    the one the specification gives for the sanitized version [0.0.0]: the override is
    [12.0.0] whatever the sanitizer says. *)
Lemma overlay_ignores_the_sanitized_version :
  FoundryValidation.child_environment ∅ <> negotiated_environment "0.0.0" ∅.
Proof.
  intros H.
  apply (f_equal (fun m : env_map => m !! "FOUNDRY_CUDA_VERSION_OVERRIDE")) in H.
  vm_compute in H. discriminate H.
Qed.

Lemma child_environment_fv (ambient : env_map) :
  FoundryValidation.child_environment ambient = negotiated_environment "12.0.0" ambient.
Proof.
  unfold FoundryValidation.child_environment.
  destruct (fv_cpu_workaround_env_spec (init_state ambient))
    as (l & s' & -> & _ & _ & Hc & _).
  rewrite Hc. unfold environ, init_state. cbn [dicts]. now rewrite lookup_singleton_eq.
Qed.

Lemma child_environment_av (ambient : env_map) :
  AuditValidation.child_environment ambient = negotiated_environment "12.0.0" ambient.
Proof. exact (child_environment_fv ambient). Qed.

(** C8, as the code has it. For every ambient environment, the
    environment built for the runtime is the ambient one overlaid with four
    fixed items: the CPU execution provider, no visible accelerator device,
    the probe-skip flag, and the version override [12.0.0], a constant and
    not a value the sanitizer computed. Each of the four takes precedence
    over an ambient value, and every other variable keeps its ambient
    value. The environment the edge-case test fills has a fifth item,
    [CUDA_VERSION]. *)
Theorem cpu_overlay (ambient : env_map) :
  FoundryValidation.child_environment ambient = negotiated_environment "12.0.0" ambient
  /\ AuditValidation.child_environment ambient = negotiated_environment "12.0.0" ambient
  /\ (forall k v, (k, v) ∈ FoundryValidation.cpu_workaround ->
        FoundryValidation.child_environment ambient !! k = Some v)
  /\ (forall k, k ∉ FoundryValidation.cpu_workaround.*1 ->
        FoundryValidation.child_environment ambient !! k = ambient !! k)
  /\ (forall s : state,
        environ s = ambient ->
        contents (S (next_loc s)) (EdgeCaseTest.test_environment_variable_handling s).2
        = <["CUDA_VERSION" := "12.0.0"]> (negotiated_environment "12.0.0" ambient)).
Proof.
  split_and!.
  - apply child_environment_fv.
  - apply child_environment_av.
  - intros k v Hin. rewrite child_environment_fv. unfold negotiated_environment.
    unfold FoundryValidation.cpu_workaround in Hin.
    repeat (apply elem_of_cons in Hin as [Hin|Hin]; [simplify_eq; by simplify_map_eq|]).
    now apply elem_of_nil in Hin.
  - intros k Hk. rewrite child_environment_fv. unfold negotiated_environment.
    unfold FoundryValidation.cpu_workaround in Hk. cbn [fmap list_fmap fst] in Hk.
    rewrite !lookup_insert_ne; [reflexivity|..]; intros <-; apply Hk; set_solver.
  - intros s <-.
    destruct (test_environment_variable_handling_spec s) as (s' & -> & _ & Hc & _).
    exact Hc.
Qed.

(** C9. Running these checks never changes the caller's own environment:
    the overlay goes into a new dictionary, which is what the child
    process is given, and afterwards [os.environ] holds what it held
    before, for [test_foundry_commands] (with any machine) and for
    [test_environment_variable_handling]. *)
Theorem caller_environment_untouched (w : os_model) (s : state) :
  environ (FoundryValidation.test_foundry_commands w s).2 = environ s
  /\ environ (AuditValidation.test_foundry_commands w s).2 = environ s
  /\ environ (EdgeCaseTest.test_environment_variable_handling s).2 = environ s
  /\ (exists env s',
        FoundryValidation.cpu_workaround_env s = (Returns env, s')
        /\ env <> environ_loc
        /\ environ s' = environ s
        /\ child_env (Some env) s' = negotiated_environment "12.0.0" (environ s)
        /\ child_env None s' = environ s).
Proof.
  split_and!.
  - destruct (fv_test_foundry_commands_spec w s) as (b & s' & -> & He & _). exact He.
  - destruct (av_test_foundry_commands_spec w s) as (b & s' & -> & He & _). exact He.
  - destruct (test_environment_variable_handling_spec s) as (s' & -> & He & _). exact He.
  - destruct (fv_cpu_workaround_env_spec s) as (l & s' & H & Hl & He & Hc & _).
    exists l, s'. split_and!; try done.
Qed.

(* ===================================================================== *)
(** * Further properties of the scripts *)
(* ===================================================================== *)

(** ** Launches and what they leave behind *)

(** A [run_command] call in full: the triple, whether it reports success,
    and the state afterwards. *)
Lemma fv_run_command_full w cmd timeout env s :
  exists rc out err s',
    FoundryValidation.run_command w cmd timeout env s = (Returns (rc, out, err), s')
    /\ (rc =? 0)%Z = succeeds w cmd (is_str cmd) timeout (child_env env s)
    /\ dicts s' = dicts s /\ files s' = files s
    /\ clock s <= clock s' <= clock s + timeout
    /\ children s' ⊆ children s.
Proof.
  unfold succeeds.
  run_cases w cmd (is_str cmd) env s.
  - do 4 eexists. split; [reflexivity|]. cbn. split_and!; try done; try lia.
    + unfold in_time in Hin. destruct (duration p) as [d|]; [|done]. cbn.
      apply Nat.leb_le in Hin. lia.
    + set_solver.
  - do 4 eexists. split; [reflexivity|]. cbn. split_and!; try done; try lia. set_solver.
  - do 4 eexists. split; [reflexivity|]. cbn. split_and!; try done; lia.
  - do 4 eexists. split; [reflexivity|]. cbn. split_and!; try done; lia.
Qed.

Lemma av_run_command_full w cmd timeout env s :
  exists rc out err s',
    AuditValidation.run_command w cmd timeout env s = (Returns (rc, out, err), s')
    /\ (rc =? 0)%Z = succeeds w cmd false timeout (child_env env s)
    /\ dicts s' = dicts s /\ files s' = files s
    /\ clock s <= clock s' <= clock s + timeout
    /\ children s' ⊆ children s.
Proof.
  unfold succeeds.
  run_cases w cmd false env s.
  - do 4 eexists. split; [reflexivity|]. cbn. split_and!; try done; try lia.
    + unfold in_time in Hin. destruct (duration p) as [d|]; [|done]. cbn.
      apply Nat.leb_le in Hin. lia.
    + set_solver.
  - do 4 eexists. split; [reflexivity|]. cbn. split_and!; try done; try lia. set_solver.
  - do 4 eexists. split; [reflexivity|]. cbn. split_and!; try done; lia.
  - do 4 eexists. split; [reflexivity|]. cbn. split_and!; try done; lia.
Qed.

Lemma ct_run_command_full w cmd timeout env s :
  exists rc out err s',
    ComprehensiveTest.run_command w cmd timeout env s = (Returns (rc, out, err), s')
    /\ (rc =? 0)%Z = succeeds w cmd false timeout (child_env env s)
    /\ dicts s' = dicts s /\ files s' = files s
    /\ clock s <= clock s' <= clock s + timeout
    /\ children s' ⊆ children s.
Proof. exact (av_run_command_full w cmd timeout env s). Qed.

(** The same with what the child leaves on disk. *)
Lemma launching_full w effect shell cmd timeout env (call : M triple) s :
  (exists rc out err s',
      call s = (Returns (rc, out, err), s')
      /\ (rc =? 0)%Z = succeeds w cmd shell timeout (child_env env s)
      /\ dicts s' = dicts s /\ files s' = files s
      /\ clock s <= clock s' <= clock s + timeout
      /\ children s' ⊆ children s) ->
  exists rc out err s',
    Disk.launching w effect shell cmd env call s = (Returns (rc, out, err), s')
    /\ (rc =? 0)%Z = succeeds w cmd shell timeout (child_env env s)
    /\ dicts s' = dicts s
    /\ files s' = (if launches w cmd shell (child_env env s)
                   then effect cmd (files s) else files s)
    /\ clock s <= clock s' <= clock s + timeout
    /\ children s' ⊆ children s.
Proof.
  intros (rc & out & err & s' & Hcall & Hrc & Hd & Hf & Hc & Hch).
  unfold Disk.launching, launches.
  destruct (w cmd shell (child_env env s)) as [p|e] eqn:Hw; rewrite Hcall.
  - exists rc, out, err. eexists. split; [reflexivity|]. cbn. rewrite Hf. done.
  - exists rc, out, err, s'. done.
Qed.

Lemma fvs_run_command_full w effect cmd timeout env s :
  exists rc out err s',
    FoundryValidationSuite.run_command w effect cmd timeout env s
    = (Returns (rc, out, err), s')
    /\ (rc =? 0)%Z = succeeds w cmd (is_str cmd) timeout (child_env env s)
    /\ dicts s' = dicts s
    /\ files s' = (if launches w cmd (is_str cmd) (child_env env s)
                   then effect cmd (files s) else files s)
    /\ clock s <= clock s' <= clock s + timeout
    /\ children s' ⊆ children s.
Proof. apply launching_full, fv_run_command_full. Qed.

Lemma avs_run_command_full w effect cmd timeout env s :
  exists rc out err s',
    AuditValidationSuite.run_command w effect cmd timeout env s
    = (Returns (rc, out, err), s')
    /\ (rc =? 0)%Z = succeeds w cmd false timeout (child_env env s)
    /\ dicts s' = dicts s
    /\ files s' = (if launches w cmd false (child_env env s)
                   then effect cmd (files s) else files s)
    /\ clock s <= clock s' <= clock s + timeout
    /\ children s' ⊆ children s.
Proof. apply launching_full, av_run_command_full. Qed.

Lemma fit_run_command_full w effect cmd timeout env s :
  exists rc out err s',
    FoundryIntegrationTester.run_command w effect cmd timeout env s
    = (Returns (rc, out, err), s')
    /\ (rc =? 0)%Z = succeeds w cmd false timeout (child_env env s)
    /\ dicts s' = dicts s
    /\ files s' = (if launches w cmd false (child_env env s)
                   then effect cmd (files s) else files s)
    /\ clock s <= clock s' <= clock s + timeout
    /\ children s' ⊆ children s.
Proof. apply launching_full, ct_run_command_full. Qed.

Lemma succeeds_launches w cmd shell timeout e :
  succeeds w cmd shell timeout e = true -> launches w cmd shell e = true.
Proof. unfold succeeds, launches. now destruct (w cmd shell e). Qed.

(** ** foundry_validation.py and audit_validation.py *)

(** X1. [test_foundry_commands], in both scripts: the verdict is [True]
    exactly when [foundry --version] exits with status 0 within ten
    seconds; what [foundry model ls] does never changes it. *)
Theorem foundry_commands_verdict (w : os_model) (s : state) :
  (FoundryValidation.test_foundry_commands w s).1
  = Returns (succeeds w (CmdList ["foundry"; "--version"]) false 10 (environ s))
  /\ (AuditValidation.test_foundry_commands w s).1
     = Returns (succeeds w (CmdList ["foundry"; "--version"]) false 10 (environ s)).
Proof.
  split.
  - unfold FoundryValidation.test_foundry_commands, bind.
    destruct (fv_run_command_full w (CmdList ["foundry"; "--version"]) 10 None s)
      as (rc & out & err & s1 & -> & Hrc & _).
    cbn [is_str child_env] in Hrc. rewrite <- Hrc.
    destruct (rc =? 0)%Z; [|reflexivity].
    destruct (fv_cpu_workaround_env_spec s1) as (l & s2 & -> & _).
    destruct (fv_run_command_full w (CmdList ["foundry"; "model"; "ls"]) 30 (Some l) s2)
      as (rc' & out' & err' & s3 & -> & _).
    now destruct (rc' =? 0)%Z.
  - unfold AuditValidation.test_foundry_commands, bind.
    destruct (av_run_command_full w (CmdList ["foundry"; "--version"]) 10 None s)
      as (rc & out & err & s1 & -> & Hrc & _).
    cbn [child_env] in Hrc. rewrite <- Hrc.
    destruct (rc =? 0)%Z; [|reflexivity].
    destruct (av_cpu_workaround_env_spec s1) as (l & s2 & -> & _).
    destruct (av_run_command_full w (CmdList ["foundry"; "model"; "ls"]) 30 (Some l) s2)
      as (rc' & out' & err' & s3 & -> & _).
    now destruct (rc' =? 0)%Z.
Qed.

Lemma on_disk_files dirs path s s' :
  files s' = files s -> Disk.on_disk dirs path s' = Disk.on_disk dirs path s.
Proof. unfold Disk.on_disk. now intros ->. Qed.

(** One round of [test_cuda_version_fix] with room for more. *)
Lemma fvs_cuda_fix_round w effect dirs message depth :
  FoundryValidationSuite.test_cuda_version_fix w effect dirs message (S depth)
  = (built <- Disk.path_exists dirs FoundryValidationSuite.test_exe ;;
     if built then
       r <- FoundryValidationSuite.run_command w effect
              (CmdList ["dotnet"; FoundryValidationSuite.test_exe])
              FoundryValidation.default_timeout None ;;
       let '(retcode, stdout, _) := r in
       if (retcode =? 0)%Z then
         if contains "Failed even with FoundryFix: 0" stdout then ret true else ret true
       else ret false
     else
       r <- FoundryValidationSuite.run_command w effect (CmdList ["dotnet"; "build"]) 60 None ;;
       let '(retcode, _, _) := r in
       if negb (retcode =? 0)%Z then ret false
       else FoundryValidationSuite.test_cuda_version_fix w effect dirs message depth).
Proof. reflexivity. Qed.

(** One more round, when the DLL is missing and the build leaves it
    missing. *)
Lemma fvs_cuda_fix_step w effect dirs message depth s p :
  Disk.on_disk dirs FoundryValidationSuite.test_exe s = false ->
  w (CmdList ["dotnet"; "build"]) false (environ s) = Spawned p ->
  in_time 60 p = true ->
  exit_status p = 0%Z ->
  exists s',
    FoundryValidationSuite.test_cuda_version_fix w effect dirs message (S depth) s
    = FoundryValidationSuite.test_cuda_version_fix w effect dirs message depth s'
    /\ environ s' = environ s
    /\ files s' = effect (CmdList ["dotnet"; "build"]) (files s)
    /\ clock s' = clock s + default 0 (duration p)
    /\ children s' = children s ∖ {[next_pid s]}
    /\ next_pid s' = S (next_pid s).
Proof.
  intros Hdisk Hw Hin Hexit.
  rewrite fvs_cuda_fix_round.
  unfold bind at 1. unfold Disk.path_exists at 1. rewrite Hdisk.
  unfold bind at 1.
  unfold FoundryValidationSuite.run_command, Disk.launching,
    FoundryValidation.run_command, try_except, bind, ret, Subprocess.run.
  cbn [is_str child_env]. rewrite Hw, Hin, Hexit.
  cbn [returncode stdout stderr Z.eqb negb].
  eexists. split; [reflexivity|]. cbn. split_and!; try reflexivity.
  set_solver.
Qed.

(** The round with no room left, when the DLL is missing: the limit is met
    inside [run_command], nothing is launched, and the answer is
    [False]. *)
Lemma fvs_cuda_fix_at_limit w effect dirs message s :
  Disk.on_disk dirs FoundryValidationSuite.test_exe s = false ->
  FoundryValidationSuite.test_cuda_version_fix w effect dirs message 0 s = (Returns false, s).
Proof.
  intros Hdisk. cbn [FoundryValidationSuite.test_cuda_version_fix].
  unfold bind at 1. unfold Disk.path_exists at 1. rewrite Hdisk. reflexivity.
Qed.

(** X2. [foundry_validation.test_cuda_version_fix] has no bound of its own
    on its rounds: when the DLL is missing, and [dotnet build] exits with
    status 0 in time without ever producing it, the function calls itself
    after every build.  With room for [depth] rounds it launches [depth]
    builds; then the interpreter's limit on nested calls is met inside
    [run_command], whose handler answers [(-1, "", message)], and the
    function returns [False] as for a build that failed. *)
Theorem cuda_fix_builds_without_end (w : os_model) (effect : Disk.disk_effect)
    (dirs : gset string) (message : string) (p : process) (depth : nat) (s : state) :
  Disk.on_disk dirs FoundryValidationSuite.test_exe s = false ->
  w (CmdList ["dotnet"; "build"]) false (environ s) = Spawned p ->
  in_time 60 p = true ->
  exit_status p = 0%Z ->
  (forall disk : gmap string string,
      disk !! FoundryValidationSuite.test_exe = None ->
      effect (CmdList ["dotnet"; "build"]) disk !! FoundryValidationSuite.test_exe = None) ->
  exists s' : state,
    FoundryValidationSuite.test_cuda_version_fix w effect dirs message depth s
    = (Returns false, s')
    /\ next_pid s' = next_pid s + depth
    /\ clock s' = clock s + depth * default 0 (duration p)
    /\ environ s' = environ s.
Proof.
  intros Hdisk Hw Hin Hexit Hkeeps. revert s Hdisk Hw.
  induction depth as [|depth IH]; intros s Hdisk Hw.
  - exists s. rewrite fvs_cuda_fix_at_limit by exact Hdisk.
    split_and!; [reflexivity|lia|lia|reflexivity].
  - destruct (fvs_cuda_fix_step w effect dirs message depth s p Hdisk Hw Hin Hexit)
      as (s1 & -> & He & Hf & Hc & _ & Hp).
    destruct (IH s1) as (s' & -> & Hp' & Hc' & He').
    + unfold Disk.on_disk in *. rewrite Hf.
      apply orb_false_iff in Hdisk as [Hd Hfile]. rewrite Hd. cbn.
      apply bool_decide_eq_false. apply bool_decide_eq_false in Hfile.
      rewrite <- not_eq_None_Some in Hfile |- *.
      intros Hne. apply Hne. apply Hkeeps.
      destruct (files s !! FoundryValidationSuite.test_exe) eqn:E; [|reflexivity].
      exfalso. apply Hfile. congruence.
    + now rewrite He.
    + exists s'. split_and!; [reflexivity|lia|lia|congruence].
Qed.

(** A machine on which [dotnet build] exits at once with status 0, and
    writes nothing: with room for a thousand rounds the test launches a
    thousand builds and answers [False]. *)
Lemma cuda_fix_builds_without_end_witness :
  exists s' : state,
    FoundryValidationSuite.test_cuda_version_fix (exits 0 "" "") Disk.writes_nothing ∅
      "maximum recursion depth exceeded" 1000 (init_state ∅)
    = (Returns false, s')
    /\ next_pid s' = 1001
    /\ clock s' = 0.
Proof.
  destruct (cuda_fix_builds_without_end (exits 0 "" "") Disk.writes_nothing ∅
              "maximum recursion depth exceeded" (Process (Some 0) 0 "" "") 1000
              (init_state ∅))
    as (s' & H & Hp & Hc & _).
  - reflexivity.
  - reflexivity.
  - reflexivity.
  - reflexivity.
  - intros disk Hd. exact Hd.
  - exists s'. split_and!; [exact H|rewrite Hp; reflexivity|rewrite Hc; reflexivity].
Defined.

(** X3. [foundry_validation.test_cuda_version_fix] when it does end: with
    the DLL in place the verdict is whether [dotnet <DLL>] exits with
    status 0 within thirty seconds, whatever it prints; with the DLL
    missing and a failing build the verdict is [False]; and when the build
    produces the DLL, the verdict is that of the run that follows. *)
Theorem cuda_fix_verdict (w : os_model) (effect : Disk.disk_effect)
    (dirs : gset string) (message : string) (depth : nat) (s : state) :
  2 <= depth ->
  let result := (FoundryValidationSuite.test_cuda_version_fix w effect dirs message depth s).1 in
  let run := CmdList ["dotnet"; FoundryValidationSuite.test_exe] in
  let build := CmdList ["dotnet"; "build"] in
  let built := effect build (files s) in
  (Disk.on_disk dirs FoundryValidationSuite.test_exe s = true ->
   result = Returns (succeeds w run false 30 (environ s)))
  /\ (Disk.on_disk dirs FoundryValidationSuite.test_exe s = false ->
      succeeds w build false 60 (environ s) = false ->
      result = Returns false)
  /\ (Disk.on_disk dirs FoundryValidationSuite.test_exe s = false ->
      succeeds w build false 60 (environ s) = true ->
      is_Some (built !! FoundryValidationSuite.test_exe) ->
      result = Returns (succeeds w run false 30 (environ s))).
Proof.
  intros Hdepth result run build built. subst result run build built.
  destruct depth as [|[|depth]]; [lia|lia|]. clear Hdepth.
  assert (Hrun : forall n s0,
             Disk.on_disk dirs FoundryValidationSuite.test_exe s0 = true ->
             (FoundryValidationSuite.test_cuda_version_fix w effect dirs message (S n) s0).1
             = Returns (succeeds w (CmdList ["dotnet"; FoundryValidationSuite.test_exe])
                          false 30 (environ s0))).
  { intros n s0 Hd. rewrite fvs_cuda_fix_round.
    unfold bind at 1. unfold Disk.path_exists at 1. rewrite Hd.
    unfold bind at 1.
    destruct (fvs_run_command_full w effect
                (CmdList ["dotnet"; FoundryValidationSuite.test_exe])
                FoundryValidation.default_timeout None s0)
      as (rc & out & err & s1 & -> & Hrc & _).
    cbn [is_str child_env] in Hrc. unfold FoundryValidation.default_timeout in Hrc.
    rewrite <- Hrc. destruct (rc =? 0)%Z; [|reflexivity].
    now destruct (contains _ out). }
  split_and!.
  - apply Hrun.
  - intros Hd Hb. rewrite fvs_cuda_fix_round.
    unfold bind at 1. unfold Disk.path_exists at 1. rewrite Hd.
    unfold bind at 1.
    destruct (fvs_run_command_full w effect (CmdList ["dotnet"; "build"]) 60 None s)
      as (rc & out & err & s1 & -> & Hrc & _).
    cbn [is_str child_env] in Hrc. rewrite Hb in Hrc. now rewrite Hrc.
  - intros Hd Hb Hthere. rewrite fvs_cuda_fix_round.
    unfold bind at 1. unfold Disk.path_exists at 1. rewrite Hd.
    unfold bind at 1.
    destruct (fvs_run_command_full w effect (CmdList ["dotnet"; "build"]) 60 None s)
      as (rc & out & err & s1 & -> & Hrc & Hdicts & Hf & _).
    cbn [is_str child_env] in Hrc, Hf. rewrite Hb in Hrc. rewrite Hrc. cbn [negb].
    rewrite (succeeds_launches _ _ _ _ _ Hb) in Hf.
    rewrite Hrun.
    + now rewrite (environ_of_dicts _ _ Hdicts).
    + unfold Disk.on_disk. rewrite Hf. rewrite (bool_decide_eq_true_2 _ Hthere).
      apply orb_true_r.
Qed.

(** A machine on which every command exits at once with status 0, and the
    build writes the DLL. *)
Lemma cuda_fix_verdict_witness :
  2 <= 2
  /\ (FoundryValidationSuite.test_cuda_version_fix (exits 0 "" "")
        (fun _ disk => <[FoundryValidationSuite.test_exe := "MZ"]> disk) ∅
        "maximum recursion depth exceeded" 2
        (init_state ∅)).1
     = Returns true.
Proof.
  split; [lia|].
  refine (proj2 (proj2 (cuda_fix_verdict (exits 0 "" "")
            (fun _ disk => <[FoundryValidationSuite.test_exe := "MZ"]> disk) ∅
            "maximum recursion depth exceeded" 2
            (init_state ∅) _)) _ _ _).
  - lia.
  - reflexivity.
  - reflexivity.
  - cbn [files init_state]. rewrite lookup_insert_eq. eauto.
Defined.

(** X4. [foundry_validation.test_foundry_local_force_cpu]: the verdict is
    whether the wrapper's DLL is on disk; the wrapper is launched only
    then, for at most ten seconds, and neither its exit status nor its
    output changes the verdict. *)
Theorem force_cpu_verdict (w : os_model) (effect : Disk.disk_effect)
    (dirs : gset string) (s : state) :
  let after := (FoundryValidationSuite.test_foundry_local_force_cpu w effect dirs s).2 in
  (FoundryValidationSuite.test_foundry_local_force_cpu w effect dirs s).1
  = Returns (Disk.on_disk dirs FoundryValidationSuite.cpu_exe s)
  /\ clock after <= clock s + 10
  /\ children after ⊆ children s
  /\ environ after = environ s
  /\ (Disk.on_disk dirs FoundryValidationSuite.cpu_exe s = false -> after = s).
Proof.
  intros after. subst after.
  destruct (FoundryValidationSuite.test_foundry_local_force_cpu w effect dirs s)
    as [r s'] eqn:E. cbn [fst snd].
  unfold FoundryValidationSuite.test_foundry_local_force_cpu, bind, Disk.path_exists in E.
  destruct (Disk.on_disk dirs FoundryValidationSuite.cpu_exe s) eqn:Hd.
  - destruct (fvs_run_command_full w effect
                (CmdList ["dotnet"; FoundryValidationSuite.cpu_exe; "--help"]) 10 None s)
      as (rc & out & err & s1 & Hrun & _ & Hdicts & _ & Hc & Hch).
    rewrite Hrun in E.
    assert (r = Returns true /\ s' = s1) as [-> ->]
      by (destruct (contains _ out); now inversion E).
    split_and!; try done; try lia. now apply environ_of_dicts.
  - inversion E. subst. split_and!; try done. lia.
Qed.


(** X6. [audit_validation.test_cuda_version_fix] cannot fail: it returns
    [True] in every state, on every machine and whatever the build and the
    run do, and takes at most ninety seconds. *)
Theorem audit_cuda_fix_always_passes (w : os_model) (effect : Disk.disk_effect)
    (dirs : gset string) (s : state) :
  let after := (AuditValidationSuite.test_cuda_version_fix w effect dirs s).2 in
  (AuditValidationSuite.test_cuda_version_fix w effect dirs s).1 = Returns true
  /\ clock after <= clock s + 90
  /\ children after ⊆ children s
  /\ environ after = environ s.
Proof.
  intros after. subst after.
  destruct (AuditValidationSuite.test_cuda_version_fix w effect dirs s) as [r s'] eqn:E.
  cbn [fst snd].
  unfold AuditValidationSuite.test_cuda_version_fix, try_except, bind, Disk.path_exists in E.
  destruct (Disk.on_disk dirs "CudaVersionTest" s).
  - destruct (avs_run_command_full w effect (CmdList ["dotnet"; "build"; "CudaVersionTest"])
                60 None s)
      as (rc & out & err & s1 & Hrun1 & _ & Hd1 & _ & Hc1 & Hch1).
    rewrite Hrun1 in E.
    destruct (rc =? 0)%Z.
    + destruct (avs_run_command_full w effect
                  (CmdList ["dotnet"; "run"; "--project"; "CudaVersionTest"]) 30 None s1)
        as (rc' & out' & err' & s2 & Hrun2 & _ & Hd2 & _ & Hc2 & Hch2).
      rewrite Hrun2 in E.
      assert (r = Returns true /\ s' = s2) as [-> ->]
        by (destruct (rc' =? 0)%Z; now inversion E).
      split_and!; try done; try lia; try set_solver.
      rewrite (environ_of_dicts _ _ Hd2). now apply environ_of_dicts.
    + inversion E. subst. split_and!; try done; try lia. now apply environ_of_dicts.
  - inversion E. subst. split_and!; try done. lia.
Qed.

(** X7. [audit_validation.test_foundry_local_force_cpu] and
    [test_foundry_fix_dll] fail in one case only: the project directory is
    there and [dotnet build] does not exit with status 0 within sixty
    seconds.  Whether the build left an executable or a DLL never changes
    the verdict. *)
Theorem audit_builds_verdict (w : os_model) (effect : Disk.disk_effect)
    (dirs : gset string) (s : state) :
  (AuditValidationSuite.test_foundry_local_force_cpu w effect dirs s).1
  = Returns (negb (Disk.on_disk dirs "FoundryLocalForceCPU" s)
             || succeeds w (CmdList ["dotnet"; "build"; "FoundryLocalForceCPU"]) false 60
                  (environ s))
  /\ (AuditValidationSuite.test_foundry_fix_dll w effect dirs s).1
     = Returns (negb (Disk.on_disk dirs "FoundryFix" s)
                || succeeds w (CmdList ["dotnet"; "build"; "FoundryFix"]) false 60
                     (environ s)).
Proof.
  split.
  - unfold AuditValidationSuite.test_foundry_local_force_cpu, try_except.
    unfold bind at 1. unfold Disk.path_exists at 1.
    destruct (Disk.on_disk dirs "FoundryLocalForceCPU" s); [|reflexivity].
    cbn [negb orb]. unfold bind at 1.
    destruct (avs_run_command_full w effect
                (CmdList ["dotnet"; "build"; "FoundryLocalForceCPU"]) 60 None s)
      as (rc & out & err & s1 & -> & Hrc & _).
    cbn [child_env] in Hrc. rewrite <- Hrc.
    destruct (rc =? 0)%Z; [|reflexivity].
    unfold bind, Disk.path_exists. now destruct (Disk.on_disk dirs _ s1).
  - unfold AuditValidationSuite.test_foundry_fix_dll, try_except.
    unfold bind at 1. unfold Disk.path_exists at 1.
    destruct (Disk.on_disk dirs "FoundryFix" s); [|reflexivity].
    cbn [negb orb]. unfold bind at 1.
    destruct (avs_run_command_full w effect
                (CmdList ["dotnet"; "build"; "FoundryFix"]) 60 None s)
      as (rc & out & err & s1 & -> & Hrc & _).
    cbn [child_env] in Hrc. rewrite <- Hrc.
    destruct (rc =? 0)%Z; [|reflexivity].
    unfold AuditValidationSuite.dll_patterns.
    cbn [AuditValidationSuite.dll_found]. unfold bind, Disk.path_exists, ret.
    repeat match goal with |- context [Disk.on_disk ?d ?p ?st] =>
      destruct (Disk.on_disk d p st) end; reflexivity.
Qed.

(** ** The reports: thresholds on floating-point rates *)

Lemma counts_spec (n passed total : nat) :
  1 <= total <= n -> passed <= total -> In (passed, total) (Float.counts n).
Proof.
  intros Ht Hp. unfold Float.counts. apply in_flat_map.
  exists total. split.
  - apply in_seq. lia.
  - apply in_map_iff. exists passed. split; [reflexivity|]. apply in_seq. lia.
Qed.

Lemma passed_at_most_total {A} (f : A -> bool) (l : list A) :
  length (List.filter f l) <= length l.
Proof.
  induction l as [|x l IH]; cbn; [lia|]. destruct (f x); cbn; lia.
Qed.

(** Up to a hundred results, the comparisons on floats agree with the
    exact ones. *)
Lemma seventy_percent_table :
  forallb (fun c : nat * nat =>
             Bool.eqb (Float.ge (Float.of_nat c.1) (Float.of_nat c.2 * 0.7)%float)
                      (7 * c.2 <=? 10 * c.1)%nat)
          (Float.counts 100) = true.
Proof. vm_compute. reflexivity. Qed.

Lemma percentage_table :
  forallb (fun c : nat * nat =>
             Bool.eqb (Float.ge (Float.percentage c.1 c.2) 80) (80 * c.2 <=? 100 * c.1)%nat
             && Bool.eqb (Float.ge (Float.percentage c.1 c.2) 70) (70 * c.2 <=? 100 * c.1)%nat
             && Bool.eqb (Float.ge (Float.percentage c.1 c.2) 60) (60 * c.2 <=? 100 * c.1)%nat)
          (Float.counts 100) = true.
Proof. vm_compute. reflexivity. Qed.

Lemma seventy_percent_exact (passed total : nat) :
  1 <= total <= 100 -> passed <= total ->
  Float.ge (Float.of_nat passed) (Float.of_nat total * 0.7)%float
  = (7 * total <=? 10 * passed)%nat.
Proof.
  intros Ht Hp.
  pose proof (proj1 (forallb_forall _ _) seventy_percent_table _
                (counts_spec 100 passed total Ht Hp)) as H.
  cbn [fst snd] in H. now apply eqb_prop in H.
Qed.

Lemma percentage_exact (passed total : nat) :
  1 <= total <= 100 -> passed <= total ->
  Float.ge (Float.percentage passed total) 80 = (80 * total <=? 100 * passed)%nat
  /\ Float.ge (Float.percentage passed total) 70 = (70 * total <=? 100 * passed)%nat
  /\ Float.ge (Float.percentage passed total) 60 = (60 * total <=? 100 * passed)%nat.
Proof.
  intros Ht Hp.
  pose proof (proj1 (forallb_forall _ _) percentage_table _
                (counts_spec 100 passed total Ht Hp)) as H.
  cbn [fst snd] in H.
  apply andb_prop in H as [H H60]. apply andb_prop in H as [H80 H70].
  apply eqb_prop in H80, H70, H60. auto.
Qed.

(** X8. [create_validation_report], in both scripts: with no result at all
    the rate cannot be computed and the call raises [ZeroDivisionError];
    with one to a hundred results the rounding of the floating-point
    arithmetic never shows: foundry_validation.py answers [True] exactly
    when at least 70 percent of the results are passes, audit_validation.py
    exactly when at least 60 percent are.  For the six results of the first
    script's [main], and for the eight of the second's, that is: at least
    five passes. *)
Theorem validation_report_threshold :
  (FoundryValidationSuite.create_validation_report [] = Raises Float.ZeroDivisionError
   /\ AuditValidationSuite.create_validation_report [] = Raises Float.ZeroDivisionError)
  /\ (forall results : list (string * bool),
        0 < length results <= 100 ->
        let passed := length (List.filter snd results) in
        FoundryValidationSuite.create_validation_report results
        = Returns (7 * length results <=? 10 * passed)%nat
        /\ AuditValidationSuite.create_validation_report results
           = Returns (60 * length results <=? 100 * passed)%nat
        /\ (length results = length FoundryValidationSuite.test_names ->
            FoundryValidationSuite.create_validation_report results
            = Returns (5 <=? passed)%nat)
        /\ (length results = length AuditValidationSuite.test_names ->
            AuditValidationSuite.create_validation_report results
            = Returns (5 <=? passed)%nat)).
Proof.
  split; [split; reflexivity|].
  intros results Hlen passed.
  assert (Hp : passed <= length results) by apply passed_at_most_total.
  assert (Hfv : FoundryValidationSuite.create_validation_report results
                = Returns (7 * length results <=? 10 * passed)%nat).
  { unfold FoundryValidationSuite.create_validation_report,
      FoundryValidationSuite.passed_tests. cbv zeta. fold passed.
    destruct (Nat.eqb_spec (length results) 0) as [H0|_]; [lia|].
    destruct (Nat.eqb_spec passed (length results)) as [->|_].
    - f_equal. symmetry. apply Nat.leb_le. lia.
    - rewrite seventy_percent_exact by lia.
      now destruct (7 * length results <=? 10 * passed)%nat. }
  assert (Hav : AuditValidationSuite.create_validation_report results
                = Returns (60 * length results <=? 100 * passed)%nat).
  { unfold AuditValidationSuite.create_validation_report. cbv zeta. fold passed.
    destruct (Nat.eqb_spec (length results) 0) as [H0|_]; [lia|].
    destruct (percentage_exact passed (length results)) as (H80 & _ & H60); [lia|lia|].
    rewrite H80, H60.
    destruct (Nat.leb_spec (80 * length results) (100 * passed)) as [H|H].
    - f_equal. symmetry. apply Nat.leb_le. lia.
    - now destruct (60 * length results <=? 100 * passed)%nat. }
  split_and!.
  - exact Hfv.
  - exact Hav.
  - intros Hsix. rewrite Hfv, Hsix. cbn [length FoundryValidationSuite.test_names].
    f_equal. destruct (Nat.leb_spec 5 passed); [apply Nat.leb_le|apply Nat.leb_gt]; lia.
  - intros Height. rewrite Hav, Height. cbn [length AuditValidationSuite.test_names].
    f_equal. destruct (Nat.leb_spec 5 passed); [apply Nat.leb_le|apply Nat.leb_gt]; lia.
Qed.

(** Four passes out of six are not enough for foundry_validation.py. *)
Lemma validation_report_threshold_witness :
  0 < 6 <= 100
  /\ FoundryValidationSuite.create_validation_report
       [ ("CUDA Version Fix", true); ("Foundry Provider Available", false);
         ("FoundryLocalForceCPU Tool", true); ("FoundryFix DLL", true);
         ("Configuration Support", true); ("Foundry CLI Commands", false) ]
     = Returns false.
Proof.
  split; [lia|].
  exact (proj1 (proj2 validation_report_threshold
                  [ ("CUDA Version Fix", true); ("Foundry Provider Available", false);
                    ("FoundryLocalForceCPU Tool", true); ("FoundryFix DLL", true);
                    ("Configuration Support", true); ("Foundry CLI Commands", false) ]
                  ltac:(cbn; lia))).
Defined.

(** ** comprehensive_test.py: the tester's bookkeeping *)

Module TesterFacts.

Import FoundryIntegrationTester.

Lemma result_of_set (name : string) (v : bool * string) (d : list (string * (bool * string))) :
  result_of name (assoc_set name v d) = Some v.
Proof.
  induction d as [|[k x] d IH]; cbn.
  - now rewrite String.eqb_refl.
  - destruct (String.eqb k name) eqn:E; cbn; rewrite E; [reflexivity|exact IH].
Qed.

Lemma result_of_set_other (name other : string) (v : bool * string)
    (d : list (string * (bool * string))) :
  other <> name -> result_of other (assoc_set name v d) = result_of other d.
Proof.
  intros Hne. induction d as [|[k x] d IH]; cbn.
  - destruct (String.eqb_spec name other); [congruence|reflexivity].
  - destruct (String.eqb_spec k name) as [->|Hk]; cbn.
    + destruct (String.eqb_spec name other); [congruence|reflexivity].
    + destruct (String.eqb k other); [reflexivity|exact IH].
Qed.

Lemma length_set (name : string) (v : bool * string) (d : list (string * (bool * string))) :
  length (assoc_set name v d)
  = length d + match result_of name d with Some _ => 0 | None => 1 end.
Proof.
  induction d as [|[k x] d IH]; cbn; [reflexivity|].
  destruct (String.eqb k name); cbn; [lia|]. rewrite IH. lia.
Qed.

Lemma set_fresh (name : string) (v : bool * string) (d : list (string * (bool * string))) :
  result_of name d = None -> assoc_set name v d = d ++ [(name, v)].
Proof.
  induction d as [|[k x] d IH]; cbn; [reflexivity|].
  destruct (String.eqb k name); [discriminate|]. intros H. now rewrite IH.
Qed.

Lemma result_of_app (name : string) (d d' : list (string * (bool * string))) :
  result_of name (d ++ d')
  = match result_of name d with Some v => Some v | None => result_of name d' end.
Proof.
  induction d as [|[k x] d IH]; cbn; [reflexivity|].
  now destruct (String.eqb k name).
Qed.

Lemma log_all_nil (self : tester) (s : state) :
  log_all [] self s = (Returns tt, self, s).
Proof. reflexivity. Qed.

Lemma log_all_cons (entry : ComprehensiveTest.log_entry)
    (entries : list ComprehensiveTest.log_entry) (self : tester) (s : state) :
  log_all (entry :: entries) self s = log_all entries (logged entry self) s.
Proof. reflexivity. Qed.

Lemma log_all_returns (entries : list ComprehensiveTest.log_entry) (self : tester) (s : state) :
  log_all entries self s = (Returns tt, (log_all entries self s).1.2, s).
Proof.
  revert self. induction entries as [|entry entries IH]; intros self; [reflexivity|].
  rewrite log_all_cons. apply IH.
Qed.

Lemma log_all_counts (entries : list ComprehensiveTest.log_entry) (self : tester) (s : state) :
  let self' := (log_all entries self s).1.2 in
  test_count self' = test_count self + length entries
  /\ passed_count self'
     = passed_count self + length (List.filter ComprehensiveTest.passed entries)
  /\ length (results self) <= length (results self')
     <= length (results self) + length entries.
Proof.
  revert self. induction entries as [|entry entries IH]; intros self.
  - cbn. lia.
  - cbv zeta. rewrite log_all_cons.
    destruct (IH (logged entry self)) as (Ht & Hp & Hl). cbv zeta in Ht, Hp, Hl.
    rewrite Ht, Hp. unfold logged in Hl |- *. cbn [test_count passed_count results] in *.
    rewrite length_set in Hl. cbn [List.filter length].
    destruct (ComprehensiveTest.passed entry); cbn [length];
      destruct (result_of _ (results self)); lia.
Qed.

Lemma log_all_fresh (entries : list ComprehensiveTest.log_entry) (self : tester) (s : state) :
  NoDup (map ComprehensiveTest.test_name entries) ->
  (forall entry, In entry entries ->
     result_of (ComprehensiveTest.test_name entry) (results self) = None) ->
  results (log_all entries self s).1.2
  = results self
    ++ map (fun entry => (ComprehensiveTest.test_name entry,
                          (ComprehensiveTest.passed entry, ComprehensiveTest.message entry)))
         entries.
Proof.
  revert self. induction entries as [|entry entries IH]; intros self Hnd Hfresh.
  - cbn. now rewrite app_nil_r.
  - rewrite log_all_cons. cbn [map] in Hnd. apply NoDup_cons in Hnd as [Hnotin Hnd].
    rewrite IH; [|exact Hnd|].
    + unfold logged. cbn [results]. rewrite set_fresh by (apply Hfresh; now left).
      rewrite <- app_assoc. reflexivity.
    + intros e He. unfold logged. cbn [results].
      rewrite result_of_set_other.
      * apply Hfresh. now right.
      * intros Heq. apply Hnotin. rewrite <- Heq.
        apply list_elem_of_In. now apply in_map.
Qed.

End TesterFacts.

(** X9. [log_result] keeps the results as a dictionary and the counters as
    counts of calls: afterwards the result under the name is the one just
    logged, the results under other names are as before, the number of
    results grows by one only when the name is new, [test_count] grows by
    one, and [passed_count] by one when the result is a pass; so neither
    counter ever falls below what the dictionary holds. *)
Theorem log_result_records (test_name : string) (passed : bool) (message : string)
    (self : tester) (s : state) :
  let self' := (FoundryIntegrationTester.log_result test_name passed message self s).1.2 in
  FoundryIntegrationTester.result_of test_name (results self') = Some (passed, message)
  /\ (forall other : string,
        other <> test_name ->
        FoundryIntegrationTester.result_of other (results self')
        = FoundryIntegrationTester.result_of other (results self))
  /\ length (results self')
     = length (results self)
       + match FoundryIntegrationTester.result_of test_name (results self) with
         | Some _ => 0
         | None => 1
         end
  /\ test_count self' = S (test_count self)
  /\ passed_count self' = passed_count self + (if passed then 1 else 0)
  /\ (FoundryIntegrationTester.counted self -> FoundryIntegrationTester.counted self').
Proof.
  cbn. split_and!.
  - apply TesterFacts.result_of_set.
  - intros other Hne. now apply TesterFacts.result_of_set_other.
  - apply TesterFacts.length_set.
  - reflexivity.
  - destruct passed; lia.
  - unfold FoundryIntegrationTester.counted. cbn. rewrite TesterFacts.length_set.
    destruct passed, (FoundryIntegrationTester.result_of test_name (results self)); lia.
Qed.

(** X10. The counters of a tester are counts of calls, its results a
    dictionary: after any sequence of [log_result] calls on a new tester,
    [test_count] is the number of calls and [passed_count] the number of
    calls with a pass, and there are at most [test_count] results; when no
    name is logged twice, the results are the logged ones in order, and the
    two counters are the number of results and the number of passes among
    them, which is what the report's rate takes them for. *)
Theorem counters_match_results (entries : list ComprehensiveTest.log_entry) (s : state) :
  let self' := (FoundryIntegrationTester.log_all entries new s).1.2 in
  test_count self' = length entries
  /\ passed_count self' = length (List.filter ComprehensiveTest.passed entries)
  /\ length (results self') <= test_count self'
  /\ (NoDup (map ComprehensiveTest.test_name entries) ->
      results self'
      = map (fun entry => (ComprehensiveTest.test_name entry,
                           (ComprehensiveTest.passed entry, ComprehensiveTest.message entry)))
          entries
      /\ test_count self' = length (results self')
      /\ passed_count self' = FoundryIntegrationTester.passed_results self').
Proof.
  intros self'.
  destruct (TesterFacts.log_all_counts entries new s) as (Ht & Hp & Hl).
  fold self' in Ht, Hp, Hl. cbn [new test_count passed_count results length] in Ht, Hp, Hl.
  split_and!; try lia.
  intros Hnd.
  assert (Hr : results self'
               = map (fun entry => (ComprehensiveTest.test_name entry,
                                    (ComprehensiveTest.passed entry,
                                     ComprehensiveTest.message entry))) entries).
  { subst self'. rewrite TesterFacts.log_all_fresh; [reflexivity|exact Hnd|reflexivity]. }
  split_and!.
  - exact Hr.
  - rewrite Hr, length_map. lia.
  - unfold FoundryIntegrationTester.passed_results. rewrite Hr, Hp.
    clear. induction entries as [|entry entries IH]; [reflexivity|].
    cbn [map List.filter fst snd]. destruct (ComprehensiveTest.passed entry); cbn [length]; lia.
Qed.

(** The same name logged twice: two calls counted, one result kept. *)
Lemma counters_match_results_witness :
  let self' :=
    (FoundryIntegrationTester.log_all
       [ComprehensiveTest.Log "Config: Foundry example config" false "";
        ComprehensiveTest.Log "Config: Foundry example config" true ""]
       new (init_state ∅)).1.2 in
  test_count self' = 2 /\ length (results self') = 1.
Proof.
  split.
  - exact (proj1 (counters_match_results
                    [ComprehensiveTest.Log "Config: Foundry example config" false "";
                     ComprehensiveTest.Log "Config: Foundry example config" true ""]
                    (init_state ∅))).
  - reflexivity.
Defined.

(** ** comprehensive_test.py: the test methods *)

Module MethodFacts.

Import FoundryIntegrationTester.

(** [self.run_command] returns what the plain [run_command] returns. *)
Lemma run_command_outcome w effect cmd timeout env s :
  (run_command w effect cmd timeout env s).1
  = (ComprehensiveTest.run_command w cmd timeout env s).1.
Proof.
  unfold run_command, Disk.launching.
  destruct (w cmd false (child_env env s)); [|reflexivity].
  now destruct (ComprehensiveTest.run_command w cmd timeout env s).
Qed.

(** One build: one result logged, a pass exactly when the build exits with
    status 0 in time. *)
Lemma build_project_spec w effect (all_build : bool) (project : string)
    (self : tester) (s : state) :
  let ok := succeeds w (CmdList ["dotnet"; "build"; project]) false 60 (environ s) in
  exists (message : string) (s' : state),
    build_project w effect all_build project self s
    = (Returns (all_build && ok),
       logged (ComprehensiveTest.Log ("Build: " +:+ project) ok message) self, s')
    /\ dicts s' = dicts s
    /\ clock s' <= clock s + 60
    /\ children s' ⊆ children s.
Proof.
  intros ok. unfold build_project, mbind, call.
  destruct (fit_run_command_full w effect (CmdList ["dotnet"; "build"; project])
              ComprehensiveTest.default_timeout None s)
    as (rc & out & err & s' & -> & Hrc & Hd & _ & Hc & Hch).
  cbn [child_env] in Hrc. unfold ComprehensiveTest.default_timeout in Hrc, Hc.
  fold ok in Hrc. rewrite Hrc. destruct ok.
  - exists "", s'. rewrite andb_true_r. split_and!; try done. lia.
  - exists ("Build failed: " +:+ err), s'. rewrite andb_false_r.
    split_and!; try done. lia.
Qed.

Lemma builds_spec w effect (e : env_map) (projects : list string) (all_build : bool)
    (self : tester) (s : state) :
  environ s = e ->
  let ok := fun project => succeeds w (CmdList ["dotnet"; "build"; project]) false 60 e in
  exists (self' : tester) (s' : state),
    mfold projects (build_project w effect) all_build self s
    = (Returns (all_build && forallb ok projects), self', s')
    /\ test_count self' = test_count self + length projects
    /\ passed_count self' = passed_count self + length (List.filter ok projects)
    /\ length (results self) <= length (results self')
    /\ dicts s' = dicts s
    /\ clock s' <= clock s + 60 * length projects
    /\ children s' ⊆ children s.
Proof.
  intros He ok. revert all_build self s He.
  induction projects as [|project projects IH]; intros all_build self s He.
  - exists self, s. cbn. rewrite andb_true_r. split_and!; try done; lia.
  - cbn [mfold]. unfold mbind at 1.
    pose proof (build_project_spec w effect all_build project self s) as Hstep.
    cbv zeta in Hstep. rewrite He in Hstep. fold (ok project) in Hstep.
    destruct Hstep as (message & s1 & -> & Hd1 & Hc1 & Hch1).
    destruct (IH (all_build && ok project)
                (logged (ComprehensiveTest.Log ("Build: " +:+ project) (ok project) message)
                   self) s1)
      as (self' & s' & -> & Ht & Hp & Hl & Hd & Hc & Hch).
    { rewrite <- He. now apply environ_of_dicts. }
    exists self', s'. split_and!.
    + cbn [forallb]. now rewrite andb_assoc.
    + rewrite Ht. cbn. lia.
    + rewrite Hp. cbn [List.filter logged passed_count ComprehensiveTest.passed].
      destruct (ok project); cbn [length]; lia.
    + etrans; [|exact Hl]. unfold logged. cbn [results].
      rewrite TesterFacts.length_set. lia.
    + congruence.
    + cbn [length]. lia.
    + set_solver.
Qed.

(** A text that holds a non-empty fragment holds it at least once. *)
Lemma count_positive (needle text : string) :
  needle <> "" -> contains needle text = true -> 1 <= count needle text.
Proof.
  intros Hne. unfold ComprehensiveTest.count.
  induction text as [|c rest IH]; cbn [ComprehensiveTest.contains ComprehensiveTest.count_from].
  - destruct needle; [congruence|discriminate].
  - destruct (String.prefix needle (String c rest)); [lia|]. cbn [orb]. exact IH.
Qed.

(** One required item: one result logged, a pass exactly when the item is
    there. *)
Lemma check_item_spec dirs (all_exist : bool) (required : string * item_type)
    (self : tester) (s : state) :
  exists message : string,
    check_item dirs all_exist required self s
    = (Returns (all_exist && item_present dirs s required),
       logged (ComprehensiveTest.Log ("Structure: " +:+ required.1 +:+ " exists")
                 (item_present dirs s required) message) self, s).
Proof.
  destruct required as [item kind]. unfold check_item, item_present, mbind, call.
  cbn [fst snd Disk.is_file Disk.is_dir ret].
  destruct kind.
  - destruct (Disk.file_at dirs (path_of item) s).
    + exists "". now rewrite andb_true_r.
    + exists "Missing file". now rewrite andb_false_r.
  - destruct (Disk.dir_at dirs (path_of item)).
    + exists "". now rewrite andb_true_r.
    + exists "Missing dir". now rewrite andb_false_r.
Qed.

Lemma check_items_spec dirs (items : list (string * item_type)) (all_exist : bool)
    (self : tester) (s : state) :
  exists self' : tester,
    mfold items (check_item dirs) all_exist self s
    = (Returns (all_exist && forallb (item_present dirs s) items), self', s)
    /\ test_count self' = test_count self + length items
    /\ passed_count self'
       = passed_count self + length (List.filter (item_present dirs s) items).
Proof.
  revert all_exist self. induction items as [|required items IH]; intros all_exist self.
  - exists self. cbn. rewrite andb_true_r. split_and!; try done; lia.
  - cbn [mfold]. unfold mbind at 1.
    destruct (check_item_spec dirs all_exist required self s) as (message & ->).
    destruct (IH (all_exist && item_present dirs s required)
                (logged (ComprehensiveTest.Log ("Structure: " +:+ required.1 +:+ " exists")
                           (item_present dirs s required) message) self))
      as (self' & -> & Ht & Hp).
    exists self'. split_and!.
    + cbn [forallb]. now rewrite andb_assoc.
    + rewrite Ht. cbn. lia.
    + rewrite Hp. cbn [List.filter logged passed_count ComprehensiveTest.passed].
      destruct (item_present dirs s required); cbn [length]; lia.
Qed.

End MethodFacts.

(** X11. [test_csharp_builds] builds the three projects, each for at most
    sixty seconds and also after an earlier one failed; it logs one result
    for each, a pass exactly when that build exits with status 0 in time;
    and its verdict is [True] exactly when all three do.  It leaves no
    child running and [os.environ] as it was. *)
Theorem csharp_builds_verdict (w : os_model) (effect : Disk.disk_effect)
    (self : tester) (s : state) :
  let ok := fun project : string =>
    succeeds w (CmdList ["dotnet"; "build"; project]) false 60 (environ s) in
  exists (self' : tester) (s' : state),
    FoundryIntegrationTester.test_csharp_builds w effect self s
    = (Returns (forallb ok FoundryIntegrationTester.projects), self', s')
    /\ test_count self' = test_count self + 3
    /\ passed_count self'
       = passed_count self + length (List.filter ok FoundryIntegrationTester.projects)
    /\ (forallb ok FoundryIntegrationTester.projects = true
        <-> passed_count self' = passed_count self + 3)
    /\ clock s' <= clock s + 180
    /\ children s' ⊆ children s
    /\ environ s' = environ s.
Proof.
  intros ok. unfold FoundryIntegrationTester.test_csharp_builds.
  destruct (MethodFacts.builds_spec w effect (environ s) FoundryIntegrationTester.projects
              true self s eq_refl)
    as (self' & s' & -> & Ht & Hp & _ & Hd & Hc & Hch).
  fold ok in Hp |- *. exists self', s'. cbn [andb]. split_and!; try done.
  - rewrite Hp. unfold FoundryIntegrationTester.projects. cbn [forallb List.filter].
    destruct (ok "FoundryFix/FoundryFix.csproj"),
      (ok "FoundryLocalForceCPU/FoundryLocalForceCPU.csproj"),
      (ok "CudaVersionTest/CudaVersionTest.csproj"); cbn; split; intros; try done; lia.
  - now apply environ_of_dicts.
Qed.

(** X12. The method [test_cuda_version_fix] and the checks on the program's
    output agree: the method returns the verdict of the checks and logs
    their results, in order; it logs one or two results, and its verdict is
    [True] exactly when every result it logged is a pass.  When it passes,
    the second result carries the number of lines that parsed, which is at
    least one. *)
Theorem tester_cuda_fix_agrees (w : os_model) (effect : Disk.disk_effect)
    (self : tester) (s : state) :
  exists (verdict : bool) (log : list ComprehensiveTest.log_entry) (s0 s' : state),
    ComprehensiveTest.test_cuda_version_fix w s = (Returns (verdict, log), s0)
    /\ FoundryIntegrationTester.test_cuda_version_fix w effect self s
       = (Returns verdict, (FoundryIntegrationTester.log_all log self s).1.2, s')
    /\ verdict = forallb ComprehensiveTest.passed log
    /\ 1 <= length log <= 2
    /\ (verdict = true ->
        exists n : nat,
          1 <= n
          /\ log = [ComprehensiveTest.Log "CUDA Fix: Problematic version handled" true "";
                    ComprehensiveTest.Log
                      ("CUDA Fix: Multiple test cases (" +:+ pretty n +:+ ")") true ""]).
Proof.
  pose proof (MethodFacts.run_command_outcome w effect
                (CmdList ["dotnet"; "run"; "--project"; "CudaVersionTest"])
                ComprehensiveTest.default_timeout None s) as Hsame.
  destruct (ct_run_command_full w (CmdList ["dotnet"; "run"; "--project"; "CudaVersionTest"])
              ComprehensiveTest.default_timeout None s)
    as (rc & out & err & s0 & Hct & _).
  rewrite Hct in Hsame. cbn [fst] in Hsame.
  unfold ComprehensiveTest.test_cuda_version_fix, bind, ret.
  unfold FoundryIntegrationTester.test_cuda_version_fix, mbind, call.
  rewrite Hct.
  destruct (FoundryIntegrationTester.run_command w effect _ _ None s) as [r s'].
  cbn [fst] in Hsame. subst r.
  unfold ComprehensiveTest.cuda_version_checks.
  destruct (rc =? 0)%Z.
  - destruct (contains ComprehensiveTest.printed_version out
              && contains "Successfully parsed as: 5.0" out)%bool.
    + destruct (contains "✅ Successfully parsed" out) eqn:Hparsed.
      * do 2 eexists. exists s0, s'. split; [reflexivity|].
        split; [reflexivity|]. cbn. split_and!; try done; try lia.
        intros _. exists (count "✅ Successfully parsed" out). split; [|reflexivity].
        apply MethodFacts.count_positive; [discriminate|exact Hparsed].
      * do 2 eexists. exists s0, s'. split; [reflexivity|].
        split; [reflexivity|]. cbn. split_and!; try done; lia.
    + do 2 eexists. exists s0, s'. split; [reflexivity|].
      split; [reflexivity|]. cbn. split_and!; try done; lia.
  - do 2 eexists. exists s0, s'. split; [reflexivity|].
    split; [reflexivity|]. cbn. split_and!; try done; lia.
Qed.

(** X13. [test_project_structure] logs one result for each of the ten
    required items, a pass exactly when the item is there as the kind it is
    required to be (a file, or a directory); its verdict is [True] exactly
    when all ten are; and it changes nothing but the tester. *)
Theorem project_structure_verdict (dirs : gset string) (self : tester) (s : state) :
  let there := FoundryIntegrationTester.item_present dirs s in
  exists self' : tester,
    FoundryIntegrationTester.test_project_structure dirs self s
    = (Returns (forallb there FoundryIntegrationTester.required_items), self', s)
    /\ test_count self' = test_count self + 10
    /\ passed_count self'
       = passed_count self
         + length (List.filter there FoundryIntegrationTester.required_items)
    /\ (forallb there FoundryIntegrationTester.required_items = true
        <-> passed_count self' = passed_count self + 10).
Proof.
  intros there. unfold FoundryIntegrationTester.test_project_structure.
  destruct (MethodFacts.check_items_spec dirs FoundryIntegrationTester.required_items
              true self s) as (self' & -> & Ht & Hp).
  fold there in Hp |- *. exists self'. cbn [andb]. split_and!; try done.
  rewrite Hp. clear.
  assert (H : forall items : list (string * FoundryIntegrationTester.item_type),
             forallb there items = true
             <-> length (List.filter there items) = length items).
  { induction items as [|x items IH]; cbn [forallb List.filter length]; [done|].
    pose proof (passed_at_most_total there items).
    destruct (there x); cbn [andb length]; [rewrite IH; lia|]. split; [done|lia]. }
  rewrite H. cbn [length FoundryIntegrationTester.required_items]. lia.
Qed.

(** ** edge_case_test.py: the tests that write and clean up *)

Module EdgeFacts.

Import EdgeCaseSuite.

Lemma set_files_twice (f g : gmap string string) (s : state) :
  set_files f (set_files g s) = set_files f s.
Proof. reflexivity. Qed.

Lemma check_test_env_files (l : nat) (s : state) :
  files (EdgeCaseTest.check_test_env l s).2 = files s.
Proof. reflexivity. Qed.

(** [test_environment_variable_handling] returns [True] and leaves the state
    as it found it. *)
Lemma environment_test_spec (s : state) :
  exists s' : state,
    EdgeCaseTest.test_environment_variable_handling s = (Returns true, s')
    /\ environ s' = environ s
    /\ files s' = files s
    /\ clock s' = clock s
    /\ children s' = children s.
Proof.
  unfold EdgeCaseTest.test_environment_variable_handling. unfold bind at 1.
  destruct (environ_copy_spec s) as (s1 & Hcopy & He1 & Hc1 & Hk1 & Hh1).
  assert (Hf1 : files s1 = files s).
  { unfold environ_copy in Hcopy. now inversion Hcopy. }
  rewrite Hcopy. unfold bind. rewrite save_original_spec. unfold try_finally.
  pose proof (check_test_env_files (S (next_loc s)) s1) as Hf2.
  destruct (check_test_env_spec (S (next_loc s)) s1) as (s2 & Hcheck & Hc2 & He2 & Hk2 & Hh2).
  rewrite Hcheck in Hf2 |- *. cbn [snd] in Hf2.
  specialize (He2 ltac:(discriminate)).
  destruct (restore_spec
              (map (fun var => (var, environ s1 !! var)) EdgeCaseTest.required_env_vars) s2)
    as (s3 & -> & He3 & _ & Hk3 & Hh3 & Hf3).
  { intros k v Hin. apply list_elem_of_fmap in Hin as (var & Heq & _).
    simplify_eq. now rewrite He2. }
  exists s3. split; [reflexivity|]. split_and!; congruence.
Qed.

End EdgeFacts.

(** X14. [test_environment_variable_handling] cannot fail: whatever
    [os.environ] holds, it returns [True]; it fills a copy, and afterwards
    [os.environ], the files and the clock are as before, and no child was
    launched. *)
Theorem environment_test_always_passes (s : state) :
  exists s' : state,
    EdgeCaseTest.test_environment_variable_handling s = (Returns true, s')
    /\ environ s' = environ s
    /\ files s' = files s
    /\ clock s' = clock s
    /\ children s' = children s.
Proof. exact (EdgeFacts.environment_test_spec s). Qed.



(** X16. [test_foundry_input_formats], when the interpreter has room for
    the three levels of a request: it returns [True] exactly when none of
    its five temporary paths is a directory.  Afterwards nothing is at a
    temporary path that is no directory, also when a file was there before,
    and everything else is as it was: the other files, [os.environ], the
    clock and the children. *)
Theorem input_formats_effect (dirs : gset string) (repr_str : Str.str -> Str.str)
    (repr_limit dump_limit load_limit : nat) (unfinished : Obj.object -> string)
    (s : state) :
  3 <= dump_limit -> 3 <= load_limit ->
  let temp_files := map EdgeCaseSuite.temp_file EdgeCaseSuite.input_format_names in
  exists s' : state,
    EdgeCaseSuite.test_foundry_input_formats dirs repr_str repr_limit dump_limit load_limit
      unfinished s
    = (Returns (bool_decide (Forall (fun path => path ∉ dirs) temp_files)), s')
    /\ (forall path, path ∈ temp_files -> path ∉ dirs -> files s' !! path = None)
    /\ (forall path, path ∉ temp_files \/ path ∈ dirs -> files s' !! path = files s !! path)
    /\ dicts s' = dicts s /\ clock s' = clock s /\ children s' = children s.
Proof.
  intros Hdump Hload temp_files.
  eexists. split.
  { rewrite (InputFacts.input_formats_run dirs repr_str repr_limit dump_limit load_limit
               unfinished Hdump Hload s).
    cbv zeta. fold temp_files. now rewrite InputFacts.no_directory_among. }
  cbn [files set_files dicts clock children]. split_and!; try reflexivity.
  - intros path Hin Hfile. rewrite InputFacts.removed_lookup.
    now rewrite bool_decide_eq_true_2.
  - intros path Hout. rewrite InputFacts.removed_lookup.
    rewrite bool_decide_eq_false_2; [reflexivity|]. intros [Hin Hfile].
    destruct Hout as [Hout|Hdir]; contradiction.
Qed.

(** No directory, and a file already at the first temporary path. *)
Lemma input_formats_effect_witness :
  let s := set_files {[ "test_dict_format.json" := "kept" ]} (init_state ∅) in
  exists s' : state,
    EdgeCaseSuite.test_foundry_input_formats ∅ Str.single_quoted 1 3 3 (fun _ => "") s
    = (Returns true, s')
    /\ files s' !! "test_dict_format.json" = None.
Proof.
  intros s.
  destruct (input_formats_effect ∅ Str.single_quoted 1 3 3 (fun _ => "") s)
    as (s' & Hrun & Hgone & _); [lia|lia|].
  exists s'. split.
  - rewrite Hrun, bool_decide_eq_true_2; [reflexivity|].
    repeat constructor; set_solver.
  - apply Hgone; [|set_solver]. vm_compute. set_solver.
Defined.

(** ** edge_case_test.py: the configuration files and [main] *)

Module ConfigFacts.

Import EdgeCaseSuite.

(** The paths of the three temporary configuration files. *)
Lemma temp_configs :
  map (fun c : string * string * bool => temp_config c.1.1) test_configs
  = ["test_foundry_basic.ini"; "test_foundry_with_custom_model.ini";
     "test_invalid_provider.ini"].
Proof. reflexivity. Qed.

(** One pass of the loop, the path not being a directory. *)
Lemma config_case_file (dirs : gset string) (results : list bool) (name config : string)
    (should_work : bool) (s : state) :
  temp_config name ∉ dirs ->
  config_case dirs results (name, config, should_work) s
  = (Returns (results ++ [Bool.eqb (contains "provider_name = foundry" config) should_work]),
     set_files (delete (temp_config name) (files s)) s).
Proof.
  intros Hfile. unfold config_case, try_finally, bind, Disk.open_write, Disk.open_read,
    Disk.path_exists, Disk.on_disk, Disk.unlink.
  rewrite !bool_decide_eq_false_2 by exact Hfile.
  unfold write_file, read_file, Py.unlink. cbn [files set_files].
  rewrite lookup_insert_eq.
  destruct (contains "provider_name = foundry" config), should_work;
    cbn [andb orb negb ret files set_files Bool.eqb];
    rewrite ?lookup_insert_eq;
    (rewrite bool_decide_eq_true_2 by eauto);
    cbn [orb files set_files]; rewrite ?lookup_insert_eq; cbn [files set_files];
    rewrite ?delete_insert_eq; reflexivity.
Qed.

(** One pass of the loop, a directory being at the path. *)
Lemma config_case_directory (dirs : gset string) (results : list bool) (name config : string)
    (should_work : bool) (s : state) :
  temp_config name ∈ dirs ->
  config_case dirs results (name, config, should_work) s
  = (Raises (Disk.IsADirectoryError (temp_config name)), s).
Proof.
  intros Hdir. unfold config_case, try_finally, bind, Disk.open_write, Disk.open_read,
    Disk.path_exists, Disk.on_disk, Disk.unlink.
  rewrite !bool_decide_eq_true_2 by exact Hdir. reflexivity.
Qed.

(** What the test leaves at a path that is none of its own. *)
Lemma delete_other (paths : list string) (disk : gmap string string) (path : string) :
  path ∉ paths ->
  foldl (fun disk path => delete path disk) disk paths !! path = disk !! path.
Proof.
  revert disk. induction paths as [|p paths IH]; intros disk Hout; [reflexivity|].
  cbn [foldl]. rewrite IH by set_solver. apply lookup_delete_ne. set_solver.
Qed.

Lemma delete_own (paths : list string) (disk : gmap string string) (path : string) :
  path ∈ paths ->
  foldl (fun disk path => delete path disk) disk paths !! path = None.
Proof.
  revert disk. induction paths as [|p paths IH]; intros disk Hin; [set_solver|].
  cbn [foldl]. destruct (decide (path ∈ paths)) as [Hlater|Hnot].
  - now apply IH.
  - rewrite delete_other by exact Hnot.
    apply elem_of_cons in Hin as [->|Hin]; [apply lookup_delete_eq|contradiction].
Qed.

(** [test_config_variations] either passes or raises at the first path that
    is a directory; it only removes files of its own. *)
Lemma config_variations_run (dirs : gset string) (s : state) :
  let temp_files := map (fun c : string * string * bool => temp_config c.1.1) test_configs in
  exists (r : outcome bool) (removed : list string),
    test_config_variations dirs s
    = (r, set_files (foldl (fun disk path => delete path disk) (files s) removed) s)
    /\ removed ⊆ temp_files
    /\ (Forall (fun path => path ∉ dirs) temp_files -> r = Returns true /\ removed = temp_files)
    /\ (forall path, path ∈ temp_files -> path ∈ dirs ->
        exists dir, dir ∈ temp_files /\ dir ∈ dirs /\ r = Raises (Disk.IsADirectoryError dir)).
Proof.
  intros temp_files. subst temp_files. rewrite temp_configs.
  unfold test_config_variations, test_configs. cbn [fold_each]. unfold bind.
  destruct (decide (temp_config "foundry_basic" ∈ dirs)) as [H1|H1].
  { rewrite config_case_directory by exact H1.
    exists (Raises (Disk.IsADirectoryError (temp_config "foundry_basic"))), [].
    split_and!.
    - now destruct s.
    - set_solver.
    - intros Hall. apply Forall_cons in Hall as [Hno _]. contradiction.
    - intros _ _ _. eexists. split_and!; [|exact H1|reflexivity]. set_solver. }
  rewrite config_case_file by exact H1.
  destruct (decide (temp_config "foundry_with_custom_model" ∈ dirs)) as [H2|H2].
  { rewrite config_case_directory by exact H2.
    exists (Raises (Disk.IsADirectoryError (temp_config "foundry_with_custom_model"))),
      ["test_foundry_basic.ini"].
    split_and!.
    - reflexivity.
    - set_solver.
    - intros Hall. apply Forall_cons in Hall as [_ Hall].
      apply Forall_cons in Hall as [Hno _]. contradiction.
    - intros _ _ _. eexists. split_and!; [|exact H2|reflexivity]. set_solver. }
  rewrite config_case_file by exact H2.
  destruct (decide (temp_config "invalid_provider" ∈ dirs)) as [H3|H3].
  { rewrite config_case_directory by exact H3.
    exists (Raises (Disk.IsADirectoryError (temp_config "invalid_provider"))),
      ["test_foundry_basic.ini"; "test_foundry_with_custom_model.ini"].
    split_and!.
    - reflexivity.
    - set_solver.
    - intros Hall. apply Forall_cons in Hall as [_ Hall].
      apply Forall_cons in Hall as [_ Hall].
      apply Forall_cons in Hall as [Hno _]. contradiction.
    - intros _ _ _. eexists. split_and!; [|exact H3|reflexivity]. set_solver. }
  rewrite config_case_file by exact H3.
  exists (Returns true),
    ["test_foundry_basic.ini"; "test_foundry_with_custom_model.ini";
     "test_invalid_provider.ini"].
  split_and!.
  - reflexivity.
  - set_solver.
  - intros _. split; reflexivity.
  - intros path Hin Hdir. exfalso.
    repeat (apply elem_of_cons in Hin as [->|Hin]; [contradiction|]).
    now apply elem_of_nil in Hin.
Qed.

End ConfigFacts.

(** X17. [test_config_variations] writes each of its three configuration
    files, reads it back and removes it.  When none of the three paths is a
    directory it returns [True], whatever else is on disk, and the disk
    afterwards is the one before without the three files: a file that was
    at one of the paths before the test is lost, every other file is
    untouched.  When one of the paths is a directory the test does not
    return: it raises [IsADirectoryError] for one that is. *)
Theorem config_variations_effect (dirs : gset string) (s : state) :
  let temp_files :=
    map (fun c : string * string * bool => EdgeCaseSuite.temp_config c.1.1)
      EdgeCaseSuite.test_configs in
  (Forall (fun path => path ∉ dirs) temp_files ->
   exists s' : state,
     EdgeCaseSuite.test_config_variations dirs s = (Returns true, s')
     /\ (forall path, path ∈ temp_files -> files s' !! path = None)
     /\ (forall path, path ∉ temp_files -> files s' !! path = files s !! path)
     /\ dicts s' = dicts s /\ clock s' = clock s /\ children s' = children s)
  /\ (forall path, path ∈ temp_files -> path ∈ dirs ->
      exists (dir : string) (s' : state),
        dir ∈ temp_files /\ dir ∈ dirs
        /\ EdgeCaseSuite.test_config_variations dirs s
           = (Raises (Disk.IsADirectoryError dir), s')).
Proof.
  intros temp_files.
  destruct (ConfigFacts.config_variations_run dirs s) as (r & removed & Hrun & Hsub & Hok & Hdir).
  fold temp_files in Hsub, Hok, Hdir. split.
  - intros Hall. destruct (Hok Hall) as [-> ->]. eexists. split; [exact Hrun|].
    cbn [files set_files dicts clock children]. split_and!; try reflexivity.
    + intros path Hin. now apply ConfigFacts.delete_own.
    + intros path Hout. now apply ConfigFacts.delete_other.
  - intros path Hin Hpath. destruct (Hdir path Hin Hpath) as (dir & Hd1 & Hd2 & ->).
    eauto 6.
Qed.

(** With no directory at all, and a file already at the first path. *)
Lemma config_variations_effect_witness :
  let s := set_files {[ "test_foundry_basic.ini" := "kept" ]} (init_state ∅) in
  exists s' : state,
    EdgeCaseSuite.test_config_variations ∅ s = (Returns true, s')
    /\ files s' !! "test_foundry_basic.ini" = None.
Proof.
  intros s.
  destruct (proj1 (config_variations_effect ∅ s)) as (s' & Hrun & Hgone & _).
  - repeat constructor; set_solver.
  - exists s'. split; [exact Hrun|]. apply Hgone. set_solver.
Defined.

Module MainFacts.

Import EdgeCaseSuite.

(** A check of the provider's text, run in a state that holds the provider
    file as [s] does. *)
Lemma provider_check (dirs : gset string) (f : string -> bool) (s s' : state) :
  files s' !! provider_file = files s !! provider_file ->
  exists r : outcome bool,
    (content <- Disk.open_read dirs provider_file ;; ret (f content)) s' = (r, s')
    /\ match Disk.text_at dirs provider_file s with
       | Some content => r = Returns (f content)
       | None => exists e, r = Raises e
       end.
Proof.
  intros Hsame. unfold bind, Disk.open_read, Disk.text_at, read_file.
  destruct (bool_decide (provider_file ∈ dirs)).
  - eexists. split; [reflexivity|]. eauto.
  - rewrite Hsame. destruct (files s !! provider_file) as [content|].
    + eexists. split; reflexivity.
    + eexists. split; [reflexivity|]. eauto.
Qed.

Lemma provider_not_temporary :
  provider_file ∉ map (fun c : string * string * bool => temp_config c.1.1) test_configs
  /\ provider_file ∉ map temp_file input_format_names.
Proof.
  split; intros Hin; cbn in Hin;
    repeat (apply elem_of_cons in Hin as [Hin|Hin]; [discriminate Hin|]);
    now apply elem_of_nil in Hin.
Qed.

(** The exit status for six results of which the third is a pass. *)
Lemma exit_status_of_six (c i k1 k2 k3 : bool) :
  exit_status_of [c; i; true; k1; k2; k3]
  = Returns (if (4 <=? 1 + Nat.b2n c + Nat.b2n i + Nat.b2n k1 + Nat.b2n k2 + Nat.b2n k3)%nat
             then 0 else 1)%Z.
Proof. destruct c, i, k1, k2, k3; vm_compute; reflexivity. Qed.

End MainFacts.

(** X18. The exit status of edge_case_test.py, when the interpreter has
    room for the three levels of a request.  [main] never raises, and of
    its six tests the environment test cannot fail; so it answers 0 exactly
    when three of the other five pass: the configuration test, which passes
    when none of its three paths is a directory, the input-format test,
    which passes when none of its five paths is a directory, and the three
    checks of the provider's text, each of which fails when
    [sources/llm_provider.py] cannot be read.  Without the provider file
    the status is 1, whatever else holds. *)
Theorem edge_main_exit_status (dirs : gset string) (lower : string -> string)
    (repr_str : Str.str -> Str.str) (repr_limit dump_limit load_limit : nat)
    (unfinished : Obj.object -> string) (s : state) :
  3 <= dump_limit -> 3 <= load_limit ->
  let config_files :=
    map (fun c : string * string * bool => EdgeCaseSuite.temp_config c.1.1)
      EdgeCaseSuite.test_configs in
  let input_files := map EdgeCaseSuite.temp_file EdgeCaseSuite.input_format_names in
  let configs := bool_decide (Forall (fun path => path ∉ dirs) config_files) in
  let inputs := bool_decide (Forall (fun path => path ∉ dirs) input_files) in
  let check (f : string -> bool) :=
    match Disk.text_at dirs EdgeCaseSuite.provider_file s with
    | Some content => f content
    | None => false
    end in
  let passed :=
    1 + Nat.b2n configs + Nat.b2n inputs
    + Nat.b2n (check (EdgeCaseSuite.error_handling lower))
    + Nat.b2n (check EdgeCaseSuite.fallback_mechanisms)
    + Nat.b2n (check EdgeCaseSuite.security_considerations) in
  exists s' : state,
    EdgeCaseSuite.main dirs lower repr_str repr_limit dump_limit load_limit unfinished s
    = (Returns (if (4 <=? passed)%nat then 0 else 1)%Z, s')
    /\ (Disk.text_at dirs EdgeCaseSuite.provider_file s = None ->
        EdgeCaseSuite.main dirs lower repr_str repr_limit dump_limit load_limit unfinished s
        = (Returns 1%Z, s'))
    /\ environ s' = environ s.
Proof.
  intros Hdump Hload config_files input_files configs inputs check passed.
  destruct MainFacts.provider_not_temporary as [Hconfig Hinput].
  (* the configuration test *)
  destruct (ConfigFacts.config_variations_run dirs s)
    as (r1 & removed & Hrun1 & Hsub & Hok & Hdir).
  fold config_files in Hsub, Hok, Hdir.
  set (s1 := set_files (foldl (fun disk path => delete path disk) (files s) removed) s)
    in Hrun1.
  assert (Hr1 : try_except (result <- EdgeCaseSuite.test_config_variations dirs ;;
                            ret ([] ++ [result]))
                  (fun _ => ret ([] ++ [false])) s
                = (Returns [configs], s1)).
  { unfold try_except, bind. rewrite Hrun1. subst configs.
    destruct (decide (Forall (fun path => path ∉ dirs) config_files)) as [Hall|Hsome].
    - destruct (Hok Hall) as [-> _]. now rewrite bool_decide_eq_true_2.
    - rewrite bool_decide_eq_false_2 by exact Hsome.
      apply not_Forall_Exists in Hsome; [|intros path; apply _].
      apply Exists_exists in Hsome as (path & Hin & Hpath).
      destruct (Hdir path Hin) as (dir & _ & _ & ->); [|reflexivity].
      destruct (decide (path ∈ dirs)); [assumption|contradiction]. }
  assert (Hf1 : files s1 !! EdgeCaseSuite.provider_file
                = files s !! EdgeCaseSuite.provider_file).
  { apply ConfigFacts.delete_other. intros Hin. apply Hconfig. now apply Hsub. }
  (* the input-format test and the environment test *)
  pose proof (InputFacts.input_formats_run dirs repr_str repr_limit dump_limit load_limit
                unfinished Hdump Hload s1) as Hrun2.
  cbv zeta in Hrun2. rewrite InputFacts.no_directory_among in Hrun2.
  fold input_files in Hrun2. fold inputs in Hrun2.
  set (s2 := set_files _ s1) in Hrun2.
  assert (Hf2 : files s2 !! EdgeCaseSuite.provider_file
                = files s !! EdgeCaseSuite.provider_file).
  { subst s2. cbn [files set_files]. rewrite InputFacts.removed_lookup.
    rewrite bool_decide_eq_false_2; [exact Hf1|]. intros [Hin _]. now apply Hinput. }
  destruct (EdgeFacts.environment_test_spec s2) as (s3 & Hrun3 & He3 & Hf3 & _ & _).
  assert (Hfiles : files s3 !! EdgeCaseSuite.provider_file
                   = files s !! EdgeCaseSuite.provider_file) by now rewrite Hf3.
  (* the three checks of the provider's text *)
  destruct (MainFacts.provider_check dirs (EdgeCaseSuite.error_handling lower) s s3 Hfiles)
    as (r4 & Hrun4 & Hr4).
  destruct (MainFacts.provider_check dirs EdgeCaseSuite.fallback_mechanisms s s3 Hfiles)
    as (r5 & Hrun5 & Hr5).
  destruct (MainFacts.provider_check dirs EdgeCaseSuite.security_considerations s s3 Hfiles)
    as (r6 & Hrun6 & Hr6).
  assert (Hmain : EdgeCaseSuite.main dirs lower repr_str repr_limit dump_limit load_limit
                    unfinished s
                  = (Returns (if (4 <=? passed)%nat then 0 else 1)%Z, s3)).
  { unfold EdgeCaseSuite.main, EdgeCaseSuite.run_tests, EdgeCaseSuite.tests.
    cbn [fold_each snd]. unfold bind at 1 2. rewrite Hr1.
    unfold bind at 1. unfold try_except at 1. unfold bind at 1. rewrite Hrun2.
    cbn [ret app]. unfold bind at 1. unfold try_except at 1. unfold bind at 1.
    rewrite Hrun3. cbn [ret app].
    unfold EdgeCaseSuite.test_error_handling_scenarios,
      EdgeCaseSuite.test_fallback_mechanisms, EdgeCaseSuite.test_security_considerations.
    unfold bind at 1. unfold try_except at 1. unfold bind at 1. rewrite Hrun4.
    subst passed check. unfold lift.
    destruct (Disk.text_at dirs EdgeCaseSuite.provider_file s) as [content|].
    - subst r4 r5 r6. cbn [ret app].
      unfold bind at 1. unfold try_except at 1. unfold bind at 1. rewrite Hrun5.
      cbn [ret app].
      unfold bind at 1. unfold try_except at 1. unfold bind at 1. rewrite Hrun6.
      cbn [ret app]. now rewrite MainFacts.exit_status_of_six.
    - destruct Hr4 as [e4 ->], Hr5 as [e5 ->], Hr6 as [e6 ->]. cbn [ret app].
      unfold bind at 1. unfold try_except at 1. unfold bind at 1. rewrite Hrun5.
      cbn [ret app].
      unfold bind at 1. unfold try_except at 1. unfold bind at 1. rewrite Hrun6.
      cbn [ret app]. now rewrite MainFacts.exit_status_of_six. }
  exists s3. split_and!.
  - exact Hmain.
  - intros Hnone. rewrite Hmain. subst passed check. rewrite Hnone.
    now destruct configs, inputs.
  - rewrite He3. reflexivity.
Qed.

(** A project with nothing in it: the provider file is missing, and the
    status is 1. *)
Lemma edge_main_exit_status_witness :
  exists s' : state,
    EdgeCaseSuite.main ∅ (fun text => text) Str.single_quoted 1 3 3 (fun _ => "")
      (init_state ∅)
    = (Returns 1%Z, s').
Proof.
  destruct (edge_main_exit_status ∅ (fun text => text) Str.single_quoted 1 3 3
              (fun _ => "") (init_state ∅))
    as (s' & _ & Hnone & _); [lia|lia|].
  exists s'. apply Hnone. reflexivity.
Defined.

(** ** The provider's text: comprehensive_test.py and code_audit.py *)

Module ProviderFacts.

Import FoundryIntegrationTester.

(** The loop over the workarounds: its answer, and at most one result
    logged for each. *)
Lemma check_workarounds_spec (content : string) (workarounds : list string)
    (self : tester) (s : state) :
  exists self' : tester,
    check_workarounds content workarounds self s
    = (Returns (forallb (fun workaround => contains workaround content) workarounds),
       self', s)
    /\ test_count self <= test_count self' <= test_count self + length workarounds.
Proof.
  revert self. induction workarounds as [|workaround workarounds IH]; intros self.
  - exists self. split; [reflexivity|]. cbn. lia.
  - cbn [check_workarounds forallb].
    destruct (contains workaround content); cbn [andb].
    + unfold mbind at 1. cbn [log_result].
      destruct (IH (Tester (assoc_set ("Provider: " +:+ workaround +:+ " workaround")
                              (true, "") (results self))
                      (S (test_count self)) (S (passed_count self))))
        as (self' & -> & Hcount).
      exists self'. split; [reflexivity|]. cbn in Hcount |- *. lia.
    + eexists. split; [reflexivity|]. cbn. lia.
Qed.

End ProviderFacts.

(** X19. The two checks of the provider's text.  With
    [sources/llm_provider.py] readable, [audit_provider_code] of
    code_audit.py answers by three fragments of the text, and
    [test_provider_code_structure] of comprehensive_test.py answers [True]
    exactly when the audit does and the four CUDA workarounds are named as
    well: the test is the stricter of the two, and it logs between one and
    nine results.  With the file missing the audit answers [False]; the test
    has no such check and raises, logging nothing. *)
Theorem provider_test_stricter_than_audit (dirs : gset string) (self : tester)
    (s : state) :
  match Disk.text_at dirs FoundryIntegrationTester.provider_file s with
  | Some content =>
    CodeAudit.audit_provider_code dirs s = (Returns (CodeAudit.provider_code content), s)
    /\ exists self' : tester,
         FoundryIntegrationTester.test_provider_code_structure dirs self s
         = (Returns (CodeAudit.provider_code content
                     && forallb (fun workaround => contains workaround content)
                          FoundryIntegrationTester.cuda_workarounds),
            self', s)
         /\ test_count self < test_count self' <= test_count self + 9
  | None =>
    (exists e : exception,
       FoundryIntegrationTester.test_provider_code_structure dirs self s
       = (Raises e, self, s))
    /\ (FoundryIntegrationTester.provider_file ∉ dirs ->
        CodeAudit.audit_provider_code dirs s = (Returns false, s))
  end.
Proof.
  unfold Disk.text_at, CodeAudit.audit_provider_code,
    FoundryIntegrationTester.test_provider_code_structure, CodeAudit.provider_file,
    FoundryIntegrationTester.provider_file.
  unfold bind at 1. unfold mbind at 1. unfold call, Disk.path_exists, Disk.on_disk,
    Disk.open_read, read_file.
  destruct (decide ("sources/llm_provider.py" ∈ dirs)) as [Hdir|Hfile].
  { rewrite !bool_decide_eq_true_2 by exact Hdir. split; [eauto|]. now intros Hno. }
  rewrite !bool_decide_eq_false_2 by exact Hfile. cbn [orb].
  destruct (files s !! "sources/llm_provider.py") as [content|] eqn:Hcontent.
  - rewrite bool_decide_eq_true_2 by eauto. cbn [negb]. unfold bind, read_file.
    rewrite Hcontent. split; [reflexivity|].
    unfold CodeAudit.provider_code.
    destruct (contains (Text.quoted "foundry" +:+ ": self.foundry_fn") content);
      [|eexists; split; [reflexivity|cbn; lia]].
    unfold mbind at 1. cbn [FoundryIntegrationTester.log_result].
    destruct (contains "def foundry_fn(self" content);
      [|eexists; split; [reflexivity|cbn; lia]].
    unfold mbind at 1. cbn [FoundryIntegrationTester.log_result]. unfold mbind at 1.
    match goal with
    | |- context [FoundryIntegrationTester.check_workarounds content ?ws ?t s] =>
      destruct (ProviderFacts.check_workarounds_spec content ws t s)
        as (self1 & -> & Hcount)
    end.
    cbn [test_count length FoundryIntegrationTester.cuda_workarounds] in Hcount.
    destruct (forallb _ FoundryIntegrationTester.cuda_workarounds).
    + destruct (contains "FoundryLocalForceCPU" content);
        (eexists; split; [reflexivity|cbn; lia]).
    + rewrite andb_false_r. eexists. split; [reflexivity|]. lia.
  - split.
    + unfold mbind at 1. rewrite Hcontent. eauto.
    + intros _. unfold bind. rewrite Hcontent.
      rewrite bool_decide_eq_false_2 by (intros [? ?]; discriminate).
      reflexivity.
Qed.

(** ** comprehensive_test.py: the configuration test *)

Module TextFacts.

Lemma prefix_contains (needle text : string) :
  String.prefix needle text = true -> contains needle text = true.
Proof.
  destruct text as [|c rest]; cbn [ComprehensiveTest.contains]; [tauto|].
  intros ->. reflexivity.
Qed.

Lemma prefix_app (needle rest : string) : String.prefix needle (needle +:+ rest) = true.
Proof.
  induction needle as [|c needle IH].
  - now destruct rest.
  - change (String c needle +:+ rest) with (String c (needle +:+ rest)).
    cbn [String.prefix]. destruct (Ascii.ascii_dec c c); [exact IH|contradiction].
Qed.

(** What was replaced is found where the old text was. *)
Lemma replace_contains (old new text : string) :
  old <> "" ->
  contains old text = true -> contains new (Text.replace old new text) = true.
Proof.
  intros Hold. unfold Text.replace.
  induction text as [|c rest IH]; cbn [ComprehensiveTest.contains Text.replace_from].
  - destruct old; [contradiction|discriminate].
  - destruct (String.prefix old (String c rest)) eqn:Hprefix.
    + intros _. apply prefix_contains, prefix_app.
    + cbn [orb]. intros Hrest. cbn [ComprehensiveTest.contains].
      rewrite (IH Hrest). apply orb_true_r.
Qed.

(** A text without the old text is left as it is. *)
Lemma replace_absent (old new text : string) :
  contains old text = false -> Text.replace old new text = text.
Proof.
  unfold Text.replace.
  induction text as [|c rest IH]; cbn [ComprehensiveTest.contains Text.replace_from];
    [reflexivity|].
  intros Habsent. apply orb_false_iff in Habsent as [-> Hrest]. now rewrite IH.
Qed.

(** The provider line after the replacement of line 216. *)
Lemma modified_config (config_content : string) :
  contains "provider_name = foundry"
    (Text.replace "provider_name = ollama" "provider_name = foundry" config_content)
  = (contains "provider_name = ollama" config_content
     || contains "provider_name = foundry" config_content)%bool.
Proof.
  destruct (contains "provider_name = ollama" config_content) eqn:Hollama; cbn [orb].
  - apply replace_contains; [discriminate|exact Hollama].
  - now rewrite replace_absent.
Qed.

End TextFacts.

(** X20. [test_configuration_system].  With [config.ini] missing it logs one
    failure and returns [False], the disk untouched.  With [config.ini]
    readable and no directory in the way it returns [True] whatever the
    three results it logs: the example configuration is a pass only when
    the file is there and names the foundry provider; the modification is
    a pass exactly when [config.ini] names ollama or foundry as provider.
    Afterwards nothing is at [test_config_temp.ini], also when a file was
    there before, and every other file is as it was. *)
Theorem configuration_system_effect (dirs : gset string) (self : tester) (s : state) :
  match Disk.text_at dirs "config.ini" s with
  | Some config_content =>
    "config_foundry_example.ini" ∉ dirs ->
    "test_config_temp.ini" ∉ dirs ->
    let example :=
      match files s !! "config_foundry_example.ini" with
      | Some example_content => contains "provider_name = foundry" example_content
      | None => false
      end in
    let modified :=
      (contains "provider_name = ollama" config_content
       || contains "provider_name = foundry" config_content)%bool in
    FoundryIntegrationTester.test_configuration_system dirs self s
    = (Returns true,
       FoundryIntegrationTester.logged
         (ComprehensiveTest.Log "Config: Modification capability" modified "")
         (FoundryIntegrationTester.logged
            (ComprehensiveTest.Log "Config: Foundry example config" example "")
            (FoundryIntegrationTester.logged
               (ComprehensiveTest.Log "Config: config.ini readable" true "") self)),
       set_files (delete "test_config_temp.ini" (files s)) s)
  | None =>
    "config.ini" ∉ dirs ->
    FoundryIntegrationTester.test_configuration_system dirs self s
    = (Returns false,
       FoundryIntegrationTester.logged
         (ComprehensiveTest.Log "Config: config.ini readable" false "") self,
       s)
  end.
Proof.
  unfold Disk.text_at, FoundryIntegrationTester.test_configuration_system.
  unfold mbind at 1. unfold call at 1. unfold Disk.path_exists at 1. unfold Disk.on_disk.
  destruct (decide ("config.ini" ∈ dirs)) as [Hdir|Hfile].
  { rewrite !bool_decide_eq_true_2 by exact Hdir. now intros Hno. }
  rewrite !bool_decide_eq_false_2 by exact Hfile. cbn [orb].
  destruct (files s !! "config.ini") as [config_content|] eqn:Hconfig.
  - rewrite bool_decide_eq_true_2 by eauto. cbv iota.
    intros Hexample Htemp.
    set (example := match files s !! "config_foundry_example.ini" with
                    | Some example_content =>
                      contains "provider_name = foundry" example_content
                    | None => false
                    end).
    unfold mbind at 1. unfold call at 1. unfold Disk.open_read at 1.
    rewrite bool_decide_eq_false_2 by exact Hfile. unfold read_file at 1.
    rewrite Hconfig. unfold mbind at 1. cbn [FoundryIntegrationTester.log_result].
    unfold mbind at 1. unfold mbind at 1. unfold call at 1.
    unfold Disk.path_exists at 1. unfold Disk.on_disk.
    rewrite bool_decide_eq_false_2 by exact Hexample. cbn [orb].
    assert (Hlogged :
      forall self0 : tester,
        (if bool_decide (is_Some (files s !! "config_foundry_example.ini"))
         then
           example_content <~ call (Disk.open_read dirs "config_foundry_example.ini") ;;
           FoundryIntegrationTester.log_result "Config: Foundry example config"
             (contains "provider_name = foundry" example_content) ""
         else FoundryIntegrationTester.log_result "Config: Foundry example config" false "")
          self0 s
        = (Returns tt,
           FoundryIntegrationTester.logged
             (ComprehensiveTest.Log "Config: Foundry example config" example "") self0,
           s)).
    { intros self0. subst example.
      destruct (files s !! "config_foundry_example.ini") as [example_content|] eqn:Hex.
      - rewrite bool_decide_eq_true_2 by eauto.
        unfold mbind, call, Disk.open_read, read_file.
        rewrite bool_decide_eq_false_2 by exact Hexample. rewrite Hex. reflexivity.
      - rewrite bool_decide_eq_false_2 by (intros [? ?]; discriminate). reflexivity. }
    rewrite Hlogged. unfold mtry_except, mbind, call, Disk.open_write, Disk.open_read,
      Disk.unlink, write_file, read_file, Py.unlink.
    rewrite !bool_decide_eq_false_2 by exact Htemp. cbn [files set_files].
    rewrite lookup_insert_eq. cbn [FoundryIntegrationTester.log_result files set_files].
    rewrite lookup_insert_eq. cbn [mret set_files files].
    rewrite delete_insert_eq, TextFacts.modified_config. reflexivity.
  - intros _. unfold mbind at 1. unfold call at 1. unfold Disk.path_exists at 1.
    unfold Disk.on_disk. rewrite Hconfig.
    rewrite bool_decide_eq_false_2 by exact Hfile.
    rewrite bool_decide_eq_false_2 by (intros [? ?]; discriminate). reflexivity.
Qed.

(** A configuration for another provider: the test passes, the
    modification is logged as failed. *)
Lemma configuration_system_effect_witness :
  let s := set_files {[ "config.ini" := "provider_name = openai" ]} (init_state ∅) in
  FoundryIntegrationTester.test_configuration_system ∅ new s
  = (Returns true,
     Tester [ ("Config: config.ini readable", (true, ""));
              ("Config: Foundry example config", (false, ""));
              ("Config: Modification capability", (false, "")) ] 3 1,
     s).
Proof.
  intros s.
  pose proof (configuration_system_effect ∅ new s) as H.
  change (Disk.text_at ∅ "config.ini" s) with (Some "provider_name = openai") in H.
  cbv beta iota in H. rewrite H; [|set_solver|set_solver].
  vm_compute. reflexivity.
Defined.

(** ** code_audit.py: the FoundryFix audit *)

Module AuditFacts.

(** The loop over the C# files returns when the files can be read, and
    leaves the state as it is. *)
Lemma sanitizer_found_returns (dirs : gset string) (cs_files : list string) (s : state) :
  Forall (fun cs_file => is_Some (Disk.text_at dirs cs_file s)) cs_files ->
  exists found : bool, CodeAudit.sanitizer_found dirs cs_files s = (Returns found, s).
Proof.
  induction 1 as [|cs_file cs_files [content Hcontent] _ IH]; [now exists false|].
  cbn [CodeAudit.sanitizer_found]. unfold bind, Disk.open_read, read_file.
  unfold Disk.text_at in Hcontent.
  destruct (bool_decide (cs_file ∈ dirs)); [discriminate|]. rewrite Hcontent.
  destruct (contains "CudaVersionFix" content || contains "SanitizeCudaVersion" content)%bool.
  - now exists true.
  - exact IH.
Qed.

End AuditFacts.

(** X21. [audit_foundry_fix] never looks at what it reads: when the C# files
    that [glob] lists can be read, the audit fails only when something is
    at [FoundryFix] and no C# file is listed there; whether any of the
    files holds the sanitization logic does not change the answer. *)
Theorem foundry_fix_audit_ignores_contents (dirs : gset string)
    (glob : string -> string -> state -> list string) (s : state) :
  Forall (fun cs_file => is_Some (Disk.text_at dirs cs_file s))
    (glob "FoundryFix" "*.cs" s) ->
  CodeAudit.audit_foundry_fix dirs glob s
  = (Returns (negb (Disk.on_disk dirs "FoundryFix" s
                    && bool_decide (glob "FoundryFix" "*.cs" s = []))),
     s).
Proof.
  intros Hreadable. unfold CodeAudit.audit_foundry_fix, bind, Disk.path_exists.
  destruct (Disk.on_disk dirs "FoundryFix" s); cbn [negb andb]; [|reflexivity].
  destruct (AuditFacts.sanitizer_found_returns dirs _ s Hreadable) as [found Hfound].
  destruct (glob "FoundryFix" "*.cs" s) as [|cs_file cs_files]; [reflexivity|].
  rewrite Hfound. rewrite bool_decide_eq_false_2 by discriminate.
  now destruct found.
Qed.

(** One C# file without the sanitization logic: the audit passes. *)
Lemma foundry_fix_audit_ignores_contents_witness :
  let s := set_files {[ "FoundryFix/Program.cs" := "class Program { }" ]} (init_state ∅) in
  CodeAudit.audit_foundry_fix {[ "FoundryFix" ]} (fun _ _ _ => ["FoundryFix/Program.cs"]) s
  = (Returns true, s).
Proof.
  intros s.
  rewrite (foundry_fix_audit_ignores_contents {[ "FoundryFix" ]}
             (fun _ _ _ => ["FoundryFix/Program.cs"]) s).
  - reflexivity.
  - repeat constructor. vm_compute. eauto.
Defined.

(** ** comprehensive_test.py: the report *)

(** X22. [generate_comprehensive_report] divides by the number of
    [log_result] calls: on a new tester it raises [ZeroDivisionError]; after
    one to a hundred calls it answers [True] exactly when at least 70
    percent of the calls were passes, the floating-point rate deciding as
    the exact one would. *)
Theorem comprehensive_report_verdict :
  (forall s : state,
     FoundryIntegrationTester.generate_comprehensive_report new s
     = (Raises Float.ZeroDivisionError, new, s))
  /\ (forall (entries : list ComprehensiveTest.log_entry) (s : state),
        0 < length entries <= 100 ->
        let self := (FoundryIntegrationTester.log_all entries new s).1.2 in
        FoundryIntegrationTester.generate_comprehensive_report self s
        = (Returns (70 * length entries
                    <=? 100 * length (List.filter ComprehensiveTest.passed entries))%nat,
           self, s)).
Proof.
  split; [reflexivity|].
  intros entries s Hlen self.
  destruct (TesterFacts.log_all_counts entries new s) as (Ht & Hp & _).
  fold self in Ht, Hp. cbn [new test_count passed_count] in Ht, Hp.
  unfold FoundryIntegrationTester.generate_comprehensive_report.
  rewrite Ht, Hp. cbn [Nat.add].
  destruct (Nat.eqb_spec (length entries) 0) as [H0|_]; [lia|].
  destruct (percentage_exact (length (List.filter ComprehensiveTest.passed entries))
              (length entries)) as (_ & -> & _);
    [lia|apply passed_at_most_total|reflexivity].
Qed.

(** Two passes out of three calls are not enough. *)
Lemma comprehensive_report_verdict_witness :
  let entries :=
    [ ComprehensiveTest.Log "Config: config.ini readable" true "";
      ComprehensiveTest.Log "Config: Foundry example config" false "";
      ComprehensiveTest.Log "Config: Modification capability" true "" ] in
  let self := (FoundryIntegrationTester.log_all entries new (init_state ∅)).1.2 in
  FoundryIntegrationTester.generate_comprehensive_report self (init_state ∅)
  = (Returns false, self, init_state ∅).
Proof.
  intros entries self.
  exact (proj2 comprehensive_report_verdict entries (init_state ∅) ltac:(cbn; lia)).
Defined.

(** ** code_audit.py: the six audits and [main] *)

Module CodeAuditFacts.

Import CodeAudit.

Lemma read_only_ret {A} (a : A) : Disk.read_only (ret a).
Proof. now intros s. Qed.

Lemma read_only_lift {A} (r : outcome A) : Disk.read_only (lift r).
Proof. now intros s. Qed.

Lemma read_only_bind {A B} (m : M A) (k : A -> M B) :
  Disk.read_only m -> (forall a, Disk.read_only (k a)) -> Disk.read_only (bind m k).
Proof.
  intros Hm Hk s. unfold bind. specialize (Hm s).
  destruct (m s) as [[a|e] s1]; cbn [snd] in Hm; subst s1; [apply Hk|reflexivity].
Qed.

Lemma read_only_path_exists dirs path : Disk.read_only (Disk.path_exists dirs path).
Proof. now intros s. Qed.

Lemma read_only_open_read dirs path : Disk.read_only (Disk.open_read dirs path).
Proof.
  intros s. unfold Disk.open_read, read_file.
  destruct (bool_decide (path ∈ dirs)); [reflexivity|].
  now destruct (files s !! path).
Qed.

Lemma read_only_if {A} (b : bool) (m1 m2 : M A) :
  Disk.read_only m1 -> Disk.read_only m2 -> Disk.read_only (if b then m1 else m2).
Proof. now destruct b. Qed.

Create HintDb read_only.

#[local] Hint Resolve read_only_ret read_only_lift read_only_path_exists
  read_only_open_read : read_only.

Ltac read_only :=
  repeat first
    [ solve [auto with read_only]
    | apply read_only_bind; [|intros ?]
    | apply read_only_if
    | match goal with |- Disk.read_only (match ?x with _ => _ end) => destruct x end ].

Lemma read_only_sanitizer_found dirs cs_files : Disk.read_only (sanitizer_found dirs cs_files).
Proof. induction cs_files as [|cs_file rest IH]; cbn [sanitizer_found]; read_only. Qed.

Lemma read_only_indicators_found dirs cs_files :
  Disk.read_only (indicators_found dirs cs_files).
Proof. induction cs_files as [|cs_file rest IH]; cbn [indicators_found]; read_only. Qed.

Lemma read_only_documents_present dirs docs : Disk.read_only (documents_present dirs docs).
Proof. induction docs as [|doc rest IH]; cbn [documents_present]; read_only. Qed.

Lemma read_only_glob (glob : string -> string -> state -> list string) directory pattern :
  Disk.read_only (fun s => (Returns (glob directory pattern s), s)).
Proof. now intros s. Qed.

#[local] Hint Resolve read_only_sanitizer_found read_only_indicators_found
  read_only_documents_present read_only_glob : read_only.

Lemma read_only_main dirs glob : Disk.read_only (main dirs glob).
Proof.
  unfold main, audit_provider_code, audit_foundry_fix, audit_foundry_cpu_wrapper,
    audit_validation_script, audit_documentation, audit_config_support.
  read_only.
Qed.

(** Reading a file. *)
Lemma open_read_file dirs path s :
  path ∉ dirs ->
  Disk.open_read dirs path s
  = match files s !! path with
    | Some content => (Returns content, s)
    | None => (Raises (FileNotFoundError path), s)
    end.
Proof.
  intros Hfile. unfold Disk.open_read, read_file.
  now rewrite bool_decide_eq_false_2 by exact Hfile.
Qed.

Lemma on_disk_file dirs path s :
  path ∉ dirs -> Disk.on_disk dirs path s = bool_decide (is_Some (files s !! path)).
Proof. intros Hfile. unfold Disk.on_disk. now rewrite bool_decide_eq_false_2 by exact Hfile. Qed.

(** The audits that read one file. *)
Lemma checked_file dirs path (check : string -> bool) s :
  path ∉ dirs ->
  (there <- Disk.path_exists dirs path ;;
   if negb there then ret false
   else content <- Disk.open_read dirs path ;; ret (check content)) s
  = (Returns match files s !! path with
             | Some content => check content
             | None => false
             end, s).
Proof.
  intros Hfile. unfold bind, Disk.path_exists. rewrite on_disk_file by exact Hfile.
  destruct (files s !! path) as [content|] eqn:Hcontent.
  - rewrite bool_decide_eq_true_2 by eauto. cbn [negb].
    rewrite open_read_file by exact Hfile. now rewrite Hcontent.
  - now rewrite bool_decide_eq_false_2 by (intros [? ?]; discriminate).
Qed.

Lemma indicators_found_returns dirs cs_files s :
  Forall (fun cs_file => is_Some (Disk.text_at dirs cs_file s)) cs_files ->
  exists found : bool, indicators_found dirs cs_files s = (Returns found, s).
Proof.
  induction 1 as [|cs_file cs_files [content Hcontent] _ IH]; [now exists false|].
  cbn [indicators_found]. unfold bind, Disk.open_read, read_file.
  unfold Disk.text_at in Hcontent.
  destruct (bool_decide (cs_file ∈ dirs)); [discriminate|]. rewrite Hcontent.
  destruct (List.filter _ cpu_indicators); [exact IH|now exists true].
Qed.

Lemma cpu_wrapper_verdict dirs glob s :
  Forall (fun cs_file => is_Some (Disk.text_at dirs cs_file s))
    (glob "FoundryLocalForceCPU" "*.cs" s) ->
  audit_foundry_cpu_wrapper dirs glob s
  = (Returns (Disk.on_disk dirs "FoundryLocalForceCPU" s
              && negb (bool_decide (glob "FoundryLocalForceCPU" "*.cs" s = []))),
     s).
Proof.
  intros Hreadable. unfold audit_foundry_cpu_wrapper, bind, Disk.path_exists.
  destruct (Disk.on_disk dirs "FoundryLocalForceCPU" s); cbn [negb andb]; [|reflexivity].
  destruct (indicators_found_returns dirs _ s Hreadable) as [found Hfound].
  destruct (glob "FoundryLocalForceCPU" "*.cs" s) as [|cs_file cs_files]; [reflexivity|].
  rewrite Hfound. rewrite bool_decide_eq_false_2 by discriminate.
  now destruct found.
Qed.

Lemma foundry_fix_verdict dirs glob s :
  Forall (fun cs_file => is_Some (Disk.text_at dirs cs_file s))
    (glob "FoundryFix" "*.cs" s) ->
  audit_foundry_fix dirs glob s
  = (Returns (negb (Disk.on_disk dirs "FoundryFix" s
                    && bool_decide (glob "FoundryFix" "*.cs" s = []))),
     s).
Proof.
  intros Hreadable. unfold audit_foundry_fix, bind, Disk.path_exists.
  destruct (Disk.on_disk dirs "FoundryFix" s); cbn [negb andb]; [|reflexivity].
  destruct (AuditFacts.sanitizer_found_returns dirs _ s Hreadable) as [found Hfound].
  destruct (glob "FoundryFix" "*.cs" s) as [|cs_file cs_files]; [reflexivity|].
  rewrite Hfound. rewrite bool_decide_eq_false_2 by discriminate.
  now destruct found.
Qed.

Lemma documentation_verdict dirs documents s :
  Forall (fun doc => doc ∉ dirs) documents ->
  documents_present dirs documents s
  = (Returns (forallb (fun doc => bool_decide (is_Some (files s !! doc))) documents), s).
Proof.
  induction 1 as [|doc documents Hfile _ IH]; [reflexivity|].
  cbn [documents_present forallb]. unfold bind, Disk.path_exists.
  rewrite on_disk_file by exact Hfile.
  destruct (files s !! doc) as [content|] eqn:Hcontent.
  - rewrite bool_decide_eq_true_2 by eauto.
    rewrite open_read_file by exact Hfile. rewrite Hcontent. exact IH.
  - now rewrite bool_decide_eq_false_2 by (intros [? ?]; discriminate).
Qed.

(** The status for six audits. *)
Lemma audit_status_of_six (a1 a2 a3 a4 a5 a6 : bool) (n1 n2 n3 n4 n5 n6 : string) :
  exit_status_of [(n1, a1); (n2, a2); (n3, a3); (n4, a4); (n5, a5); (n6, a6)]
  = Returns (if (4 <=? Nat.b2n a1 + Nat.b2n a2 + Nat.b2n a3 + Nat.b2n a4 + Nat.b2n a5
                       + Nat.b2n a6)%nat
             then 0 else 1)%Z.
Proof. destruct a1, a2, a3, a4, a5, a6; vm_compute; reflexivity. Qed.

End CodeAuditFacts.

(** X23. code_audit.py only reads: whatever is on disk, [main] leaves the
    state as it found it, also when it raises.  When the files on disk
    hold ASCII text, no directory is where a file is read and the C# files
    listed can be read, [main] returns, and its status is 0 exactly when at
    least four of the six audits pass, where each audit's answer is read
    off the disk as stated; what the C# files and the two documents hold
    never matters. *)
Theorem code_audit_exit_status (dirs : gset string)
    (glob : string -> string -> state -> list string) (s : state) :
  (exists r : outcome Z, CodeAudit.main dirs glob s = (r, s))
  /\ (map_Forall (fun _ content => Text.is_ascii content = true) (files s) ->
      Forall (fun path => path ∉ dirs)
        (CodeAudit.provider_file :: "foundry_validation.py" :: CodeAudit.docs) ->
      Forall (fun cs_file => is_Some (Disk.text_at dirs cs_file s))
        (glob "FoundryFix" "*.cs" s ++ glob "FoundryLocalForceCPU" "*.cs" s) ->
      let provider :=
        match files s !! CodeAudit.provider_file with
        | Some content => CodeAudit.provider_code content
        | None => false
        end in
      let foundry_fix :=
        negb (Disk.on_disk dirs "FoundryFix" s
              && bool_decide (glob "FoundryFix" "*.cs" s = [])) in
      let cpu_wrapper :=
        Disk.on_disk dirs "FoundryLocalForceCPU" s
        && negb (bool_decide (glob "FoundryLocalForceCPU" "*.cs" s = [])) in
      let validation :=
        match files s !! "foundry_validation.py" with
        | Some content =>
          forallb (fun test => contains test content) CodeAudit.required_tests
        | None => false
        end in
      let documentation :=
        forallb (fun doc => bool_decide (is_Some (files s !! doc))) CodeAudit.docs in
      let config := Disk.on_disk dirs "config.ini" s in
      let passed :=
        Nat.b2n provider + Nat.b2n foundry_fix + Nat.b2n cpu_wrapper + Nat.b2n validation
        + Nat.b2n documentation + Nat.b2n config in
      CodeAudit.main dirs glob s = (Returns (if (4 <=? passed)%nat then 0 else 1)%Z, s)).
Proof.
  split.
  { exists (CodeAudit.main dirs glob s).1.
    pose proof (CodeAuditFacts.read_only_main dirs glob s) as Hsame.
    destruct (CodeAudit.main dirs glob s) as [r s']. cbn in Hsame |- *. now subst s'. }
  intros _ Hfiles Hreadable provider foundry_fix cpu_wrapper validation documentation config
    passed.
  apply Forall_cons in Hfiles as [Hprovider Hfiles].
  apply Forall_cons in Hfiles as [Hvalidation Hdocs].
  apply Forall_app in Hreadable as [Hfix Hcpu].
  unfold CodeAudit.main. unfold bind at 1.
  unfold CodeAudit.audit_provider_code.
  rewrite (CodeAuditFacts.checked_file dirs _ CodeAudit.provider_code s Hprovider).
  fold provider. unfold bind at 1.
  rewrite (CodeAuditFacts.foundry_fix_verdict dirs glob s Hfix). fold foundry_fix.
  unfold bind at 1.
  rewrite (CodeAuditFacts.cpu_wrapper_verdict dirs glob s Hcpu). fold cpu_wrapper.
  unfold bind at 1. unfold CodeAudit.audit_validation_script.
  rewrite (CodeAuditFacts.checked_file dirs _
             (fun content => forallb (fun test => contains test content)
                               CodeAudit.required_tests) s Hvalidation).
  fold validation. unfold bind at 1. unfold CodeAudit.audit_documentation.
  rewrite (CodeAuditFacts.documentation_verdict dirs _ s Hdocs). fold documentation.
  unfold bind at 1. unfold CodeAudit.audit_config_support, bind, Disk.path_exists.
  fold config. unfold lift.
  destruct config; cbn [negb ret]; now rewrite CodeAuditFacts.audit_status_of_six.
Qed.

(** A project that holds what the six audits look for: the status
    is 0. *)
Lemma code_audit_exit_status_witness :
  let dirs : gset string := {[ "FoundryFix"; "FoundryLocalForceCPU" ]} in
  let glob := fun (directory pattern : string) (_ : state) =>
    if String.eqb directory "FoundryFix" then ["FoundryFix/CudaVersionFix.cs"]
    else ["FoundryLocalForceCPU/Program.cs"] in
  let s :=
    set_files
      (<[CodeAudit.provider_file :=
           Text.quoted "foundry"
           +:+ ": self.foundry_fn; def foundry_fn(self): FoundryLocalForceCPU"]>
         (<["foundry_validation.py" := String.concat " " CodeAudit.required_tests]>
            (<["FOUNDRY_INTEGRATION.md" := "Troubleshooting"]>
               (<["BugBash.md" := "Findings"]>
                  (<["config.ini" := "[MAIN]"]>
                     (<["FoundryFix/CudaVersionFix.cs" := "class CudaVersionFix"]>
                        (<["FoundryLocalForceCPU/Program.cs" := "CPUExecutionProvider"]>
                           ∅)))))))
      (init_state ∅) in
  CodeAudit.main dirs glob s = (Returns 0%Z, s).
Proof.
  intros dirs glob s.
  rewrite (proj2 (code_audit_exit_status dirs glob s)).
  - vm_compute. reflexivity.
  - subst s. cbn [files set_files].
    repeat (apply map_Forall_insert_2; [vm_compute; reflexivity|]).
    apply map_Forall_empty.
  - repeat constructor; subst dirs; set_solver.
  - repeat constructor; vm_compute; eauto.
Defined.

(** ** comprehensive_test.py: the nine tests in a row *)

Module SuiteFacts.

Import FoundryIntegrationTester.

Lemma grows_refl (self : tester) : grows 0 self self.
Proof. unfold grows. lia. Qed.

Lemma grows_trans (k1 k2 : nat) (a b c : tester) :
  grows k1 a b -> grows k2 b c -> grows (k1 + k2) a c.
Proof. unfold grows. lia. Qed.

Lemma grows_weaken (k k' : nat) (a b : tester) : k <= k' -> grows k a b -> grows k' a b.
Proof. unfold grows. lia. Qed.

Lemma logs_weaken {A} (k k' : nat) (m : method A) :
  logs_at_most k m -> k <= k' -> logs_at_most k' m.
Proof. intros Hm Hle self s. exact (grows_weaken k k' _ _ Hle (Hm self s)). Qed.

Lemma logs_ret {A} (a : A) : logs_at_most 0 (mret a).
Proof. intros self s. apply grows_refl. Qed.

Lemma logs_log_result (test_name : string) (passed : bool) (message : string) :
  logs_at_most 1 (log_result test_name passed message).
Proof. intros self s. unfold grows. destruct passed; cbn; lia. Qed.

Lemma logs_bind {A B} (k1 k2 : nat) (m : method A) (f : A -> method B) :
  logs_at_most k1 m -> (forall a, logs_at_most k2 (f a)) ->
  logs_at_most (k1 + k2) (mbind m f).
Proof.
  intros Hm Hf self s. unfold mbind. pose proof (Hm self s) as Hg.
  destruct (m self s) as [[[a|e] self1] s1]; cbn [fst snd] in Hg |- *.
  - exact (grows_trans _ _ _ _ _ Hg (Hf a self1 s1)).
  - apply (grows_weaken k1); [lia|exact Hg].
Qed.

Lemma logs_if {A} (k1 k2 : nat) (b : bool) (m1 m2 : method A) :
  logs_at_most k1 m1 -> logs_at_most k2 m2 ->
  logs_at_most (Nat.max k1 k2) (if b then m1 else m2).
Proof. intros H1 H2. destruct b; [apply (logs_weaken k1)|apply (logs_weaken k2)]; auto; lia. Qed.

Lemma logs_call {A} (m : M A) : logs_at_most 0 (call m).
Proof. intros self s. unfold call. destruct (m s) as [r s1]. apply grows_refl. Qed.

Lemma logs_mfold {A B} (k : nat) (xs : list A) (body : B -> A -> method B) (acc : B) :
  (forall acc x, logs_at_most k (body acc x)) ->
  logs_at_most (k * length xs) (mfold xs body acc).
Proof.
  intros Hbody. revert acc. induction xs as [|x xs IH]; intros acc; cbn [mfold length].
  - apply (logs_weaken 0); [apply logs_ret|lia].
  - apply (logs_weaken (k + k * length xs)); [|lia].
    apply logs_bind; [apply Hbody|intros acc'; apply IH].
Qed.

Create HintDb logs.

#[local] Hint Resolve logs_ret logs_log_result logs_call : logs.

(** The bound of a method written with binds and conditionals. *)
Ltac logs :=
  lazymatch goal with
  | |- logs_at_most _ (mbind _ _) => eapply logs_bind; [logs|intros ?; logs]
  | |- logs_at_most _ (if _ then _ else _) => eapply logs_if; logs
  | |- logs_at_most _ (match ?r with _ => _ end) => is_var r; destruct r; logs
  | |- _ => solve [eauto with logs]
  end.

Lemma logs_check_item dirs (all_exist : bool) (required : string * item_type) :
  logs_at_most 1 (check_item dirs all_exist required).
Proof.
  unfold check_item. destruct required as [item []]; cbn [fst snd];
    (eapply logs_weaken; [logs|cbn; lia]).
Qed.

Lemma logs_build_project w effect (all_build : bool) (project : string) :
  logs_at_most 1 (build_project w effect all_build project).
Proof. unfold build_project. eapply logs_weaken; [logs|cbn; lia]. Qed.

Lemma logs_csharp_builds w effect : logs_at_most 3 (test_csharp_builds w effect).
Proof.
  unfold test_csharp_builds.
  apply (logs_mfold 1 projects (build_project w effect) true).
  intros acc x. apply logs_build_project.
Qed.

Lemma logs_cuda_version_fix w effect : logs_at_most 2 (test_cuda_version_fix w effect).
Proof. unfold test_cuda_version_fix. eapply logs_weaken; [logs|cbn; lia]. Qed.

Lemma logs_check_workarounds (content : string) (workarounds : list string) :
  logs_at_most (length workarounds) (check_workarounds content workarounds).
Proof.
  induction workarounds as [|workaround workarounds IH]; cbn [check_workarounds length].
  - apply logs_ret.
  - destruct (contains workaround content).
    + apply (logs_bind 1); [apply logs_log_result|intros _; exact IH].
    + eapply logs_weaken; [logs|cbn; lia].
Qed.

Lemma logs_provider_code_structure dirs : logs_at_most 9 (test_provider_code_structure dirs).
Proof.
  unfold test_provider_code_structure.
  pose proof (fun content => logs_check_workarounds content cuda_workarounds) as Hloop.
  cbn [length cuda_workarounds] in Hloop.
  eapply logs_weaken; [logs|cbn; lia].
Qed.

(** The modification test of [test_configuration_system]: one result
    logged. *)
Lemma logs_modification dirs (config_content : string) :
  logs_at_most 1
    (mtry_except
       (let test_config :=
          Text.replace "provider_name = ollama" "provider_name = foundry" config_content in
        call (Disk.open_write dirs "test_config_temp.ini" test_config) ;;~
        verify_content <~ call (Disk.open_read dirs "test_config_temp.ini") ;;
        log_result "Config: Modification capability"
          (contains "provider_name = foundry" verify_content) "" ;;~
        call (Disk.unlink dirs "test_config_temp.ini") ;;~
        mret true)
       (fun e =>
          log_result "Config: Modification capability" false (str_of e) ;;~ mret false)).
Proof.
  intros self s. unfold mtry_except, mbind, call, Disk.open_write, Disk.open_read,
    Disk.unlink, write_file, read_file, Py.unlink, raise.
  destruct (bool_decide ("test_config_temp.ini" ∈ dirs)).
  - cbn. unfold grows. cbn. lia.
  - cbn [files set_files]. rewrite lookup_insert_eq.
    cbn [log_result files set_files]. rewrite lookup_insert_eq.
    cbn [mret fst snd]. unfold grows. cbn [test_count passed_count].
    destruct (contains _ _); lia.
Qed.

Lemma logs_configuration_system dirs : logs_at_most 3 (test_configuration_system dirs).
Proof.
  unfold test_configuration_system.
  pose proof (logs_modification dirs) as Hmodification.
  eapply logs_weaken; [logs|cbn; lia].
Qed.

Lemma logs_workaround_scripts dirs : logs_at_most 2 (test_workaround_scripts dirs).
Proof. unfold test_workaround_scripts. eapply logs_weaken; [logs|cbn; lia]. Qed.

Lemma logs_documentation_completeness dirs :
  logs_at_most 8 (test_documentation_completeness dirs).
Proof.
  unfold test_documentation_completeness.
  assert (Hsections :
    forall doc_content : string,
      logs_at_most 6
        (mfold required_sections
           (fun (_ : unit) section =>
              if contains section doc_content
              then log_result ("Docs: " +:+ section +:+ " section") true ""
              else log_result ("Docs: " +:+ section +:+ " section") false "")
           tt)).
  { intros doc_content. apply (logs_mfold 1 required_sections).
    intros acc section. eapply logs_weaken; [logs|cbn; lia]. }
  eapply logs_weaken; [logs|cbn; lia].
Qed.

Lemma logs_validation_script_structure dirs :
  logs_at_most 7 (test_validation_script_structure dirs).
Proof.
  unfold test_validation_script_structure.
  assert (Hfunctions :
    forall content : string,
      logs_at_most 7
        (mfold required_functions
           (fun (_ : unit) func =>
              if contains ("def " +:+ func) content
              then log_result ("Validation: " +:+ func +:+ " function") true ""
              else log_result ("Validation: " +:+ func +:+ " function") false "")
           tt)).
  { intros content. apply (logs_mfold 1 required_functions).
    intros acc func. eapply logs_weaken; [logs|cbn; lia]. }
  eapply logs_weaken; [logs|cbn; lia].
Qed.

Lemma logs_cpu_wrapper_functionality dirs glob :
  logs_at_most 2 (test_cpu_wrapper_functionality dirs glob).
Proof.
  unfold test_cpu_wrapper_functionality.
  apply (logs_bind 0 2); [apply logs_call|].
  intros [|first rest]; (eapply logs_weaken; [logs|cbn; lia]).
Qed.

(** [test_project_structure] logs ten results and raises nothing. *)
Lemma project_structure_logs dirs (self : tester) (s : state) :
  exists (r1 : bool) (self' : tester),
    test_project_structure dirs self s = (Returns r1, self', s)
    /\ test_count self' = test_count self + 10
    /\ passed_count self <= passed_count self' <= passed_count self + 10.
Proof.
  unfold test_project_structure.
  destruct (MethodFacts.check_items_spec dirs required_items true self s)
    as (self' & -> & Ht & Hp).
  do 2 eexists. split; [reflexivity|]. split; [exact Ht|].
  pose proof (passed_at_most_total (item_present dirs s) required_items) as Hle.
  cbn [length required_items] in Hle, Hp. lia.
Qed.

(** A method that logs at most [k] results, followed by the rest. *)
Lemma logs_step {A B} (k : nat) (m : method A) (f : A -> method B) (self : tester)
    (s : state) :
  logs_at_most k m ->
  (exists (a : A) (self' : tester) (s' : state),
      grows k self self' /\ mbind m f self s = f a self' s')
  \/ (exists (e : exception) (self' : tester) (s' : state),
        mbind m f self s = (Raises e, self', s')).
Proof.
  intros Hm. pose proof (Hm self s) as Hg. unfold mbind.
  destruct (m self s) as [[[a|e] self'] s']; cbn [fst snd] in Hg; [left|right]; eauto 6.
Qed.

End SuiteFacts.


Module AbsentFacts.

Import FoundryIntegrationTester.

Section Absent.

Variable w : os_model.
Variable effect : Disk.disk_effect.
Variable path : string.

(** No launched program creates the file at [path]. *)
Hypothesis not_created :
  forall (cmd : command) (disk : gmap string string),
    disk !! path = None -> effect cmd disk !! path = None.

Lemma run_command_absent cmd timeout env (s : state) :
  files s !! path = None ->
  exists (r : triple) (s' : state),
    run_command w effect cmd timeout env s = (Returns r, s') /\ files s' !! path = None.
Proof.
  intros Habsent.
  destruct (fit_run_command_full w effect cmd timeout env s)
    as (rc & out & err & s' & -> & _ & _ & Hfiles & _).
  exists (rc, out, err), s'. split; [reflexivity|]. rewrite Hfiles.
  destruct (launches w cmd false (child_env env s)); [now apply not_created|exact Habsent].
Qed.

Lemma build_project_absent (all_build : bool) (project : string) (self : tester) (s : state) :
  files s !! path = None ->
  exists (b : bool) (self' : tester) (s' : state),
    build_project w effect all_build project self s = (Returns b, self', s')
    /\ files s' !! path = None
    /\ test_count self' = S (test_count self).
Proof.
  intros Habsent. unfold build_project, mbind, call.
  destruct (run_command_absent (CmdList ["dotnet"; "build"; project])
              ComprehensiveTest.default_timeout None s Habsent)
    as ([[rc out] err] & s' & -> & Hs').
  destruct (rc =? 0)%Z; do 3 eexists; (split; [reflexivity|split; [exact Hs'|reflexivity]]).
Qed.

Lemma builds_absent (projects : list string) (all_build : bool) (self : tester) (s : state) :
  files s !! path = None ->
  exists (b : bool) (self' : tester) (s' : state),
    mfold projects (build_project w effect) all_build self s = (Returns b, self', s')
    /\ files s' !! path = None
    /\ test_count self' = test_count self + length projects.
Proof.
  revert all_build self s.
  induction projects as [|project projects IH]; intros all_build self s Habsent.
  - exists all_build, self, s. cbn. split_and!; [reflexivity|exact Habsent|lia].
  - cbn [mfold]. unfold mbind.
    destruct (build_project_absent all_build project self s Habsent)
      as (b & self1 & s1 & -> & Hs1 & Ht1).
    destruct (IH b self1 s1 Hs1) as (b' & self' & s' & -> & Hs' & Ht').
    exists b', self', s'. split_and!; [reflexivity|exact Hs'|]. cbn [length]. lia.
Qed.

Lemma cuda_version_fix_absent (self : tester) (s : state) :
  files s !! path = None ->
  exists (b : bool) (self' : tester) (s' : state),
    test_cuda_version_fix w effect self s = (Returns b, self', s')
    /\ files s' !! path = None
    /\ test_count self < test_count self' <= test_count self + 2.
Proof.
  intros Habsent. unfold test_cuda_version_fix. unfold mbind at 1. unfold call.
  destruct (run_command_absent (CmdList ["dotnet"; "run"; "--project"; "CudaVersionTest"])
              ComprehensiveTest.default_timeout None s Habsent)
    as ([[rc out] err] & s' & -> & Hs').
  destruct (rc =? 0)%Z;
    [|do 3 eexists; (split; [reflexivity|split; [exact Hs'|cbn; lia]])].
  destruct (contains ComprehensiveTest.printed_version out
            && contains "Successfully parsed as: 5.0" out)%bool;
    [|do 3 eexists; (split; [reflexivity|split; [exact Hs'|cbn; lia]])].
  destruct (contains "✅ Successfully parsed" out);
    do 3 eexists; (split; [reflexivity|split; [exact Hs'|cbn; lia]]).
Qed.

End Absent.

End AbsentFacts.

(** X25. A missing provider file stops comprehensive_test.py.  When
    [sources/llm_provider.py] is not there and no launched program creates
    it, [main] does not return a status: the structure test, the builds
    and the CUDA test run and log fourteen or fifteen results, and then
    [test_provider_code_structure] opens the file without looking, so that
    [main] raises [FileNotFoundError] and no report is made. *)
Theorem missing_provider_file_stops_main (w : os_model) (effect : Disk.disk_effect)
    (dirs : gset string) (glob : string -> string -> state -> list string) (s : state) :
  FoundryIntegrationTester.provider_file ∉ dirs ->
  files s !! FoundryIntegrationTester.provider_file = None ->
  (forall (cmd : command) (disk : gmap string string),
     disk !! FoundryIntegrationTester.provider_file = None ->
     effect cmd disk !! FoundryIntegrationTester.provider_file = None) ->
  exists (self : tester) (s' : state),
    FoundryIntegrationTester.run_all w effect dirs glob new s
    = (Raises (FileNotFoundError FoundryIntegrationTester.provider_file), self, s')
    /\ FoundryIntegrationTester.main w effect dirs glob s
       = (Raises (FileNotFoundError FoundryIntegrationTester.provider_file), s')
    /\ 14 <= test_count self <= 15.
Proof.
  intros Hfile Habsent Hcreated.
  assert (Hrun : exists (self : tester) (s' : state),
             FoundryIntegrationTester.run_all w effect dirs glob new s
             = (Raises (FileNotFoundError FoundryIntegrationTester.provider_file), self, s')
             /\ 14 <= test_count self <= 15).
  { unfold FoundryIntegrationTester.run_all. unfold mbind at 1.
    destruct (SuiteFacts.project_structure_logs dirs new s) as (r1 & self1 & -> & Ht1 & _).
    cbn [new test_count] in Ht1.
    unfold mbind at 1. unfold FoundryIntegrationTester.test_csharp_builds.
    destruct (AbsentFacts.builds_absent w effect _ Hcreated
                FoundryIntegrationTester.projects true self1 s Habsent)
      as (r2 & self2 & s2 & -> & Hs2 & Ht2).
    cbn [length FoundryIntegrationTester.projects] in Ht2.
    unfold mbind at 1.
    destruct (AbsentFacts.cuda_version_fix_absent w effect _ Hcreated self2 s2 Hs2)
      as (r3 & self3 & s3 & -> & Hs3 & Ht3).
    unfold mbind at 1. unfold FoundryIntegrationTester.test_provider_code_structure.
    unfold mbind at 1. unfold call, Disk.open_read, read_file.
    rewrite bool_decide_eq_false_2 by exact Hfile. rewrite Hs3.
    exists self3, s3. split; [reflexivity|]. lia. }
  destruct Hrun as (self & s' & Hrun & Hcount).
  exists self, s'. split_and!; [exact Hrun| |lia|lia].
  unfold FoundryIntegrationTester.main. now rewrite Hrun.
Qed.

(** A machine without dotnet and an empty directory. *)
Lemma missing_provider_file_stops_main_witness :
  exists (self : tester) (s' : state),
    FoundryIntegrationTester.main (fun _ _ _ => SpawnFails (FileNotFoundError "dotnet"))
      Disk.writes_nothing ∅ (fun _ _ _ => []) (init_state ∅)
    = (Raises (FileNotFoundError FoundryIntegrationTester.provider_file), s')
    /\ 14 <= test_count self <= 15.
Proof.
  destruct (missing_provider_file_stops_main
              (fun _ _ _ => SpawnFails (FileNotFoundError "dotnet"))
              Disk.writes_nothing ∅ (fun _ _ _ => []) (init_state ∅))
    as (self & s' & _ & Hmain & Hcount).
  - set_solver.
  - reflexivity.
  - intros cmd disk Hdisk. exact Hdisk.
  - exists self, s'. split; [exact Hmain|exact Hcount].
Defined.
